(** * GraphSlick plugin module (plugin.cpp): graph view and chooser

    A shallow embedding of the two classes of [plugin.cpp],
    [gsgraphview_t] (the graph view with its highlight / selection state)
    and [gschooser_t] (the chooser panel that loads a bbgroup file), with
    the properties of the presentation layer stated and proved over it.

    Containers of the C++ code are stdpp containers: [std::map<int, T>] is
    [gmap Z T], a [qvector] or a [std::list] is a [list].  Calls into IDA
    and into the other modules of the plugin (groupman.h, algo.hpp,
    colorgen.h, util.h) are recorded in a log carried by the object that
    issues them. *)

From stdpp Require Import gmap strings list fin_maps sorting.

(** ** Scalar types *)

Definition ea_t := Z.
Definition bgcolor_t := Z.

(** [const bgcolor_t NODE_SEL_COLOR = 0x7C75AD;] *)
Definition NODE_SEL_COLOR : bgcolor_t := 0x7C75AD%Z.

Inductive gvrefresh_modes_e :=
  | gvrfm_soft
  | gvrfm_single_mode
  | gvrfm_combined_mode.

#[global] Instance gvrefresh_modes_eq_dec : EqDecision gvrefresh_modes_e.
Proof. solve_decision. Defined.

(** ** Options ([gsoptions_t]) *)

Record gsoptions_t := {
  append_node_id : bool;
  manual_refresh_mode : bool;
  highlight_syntethic_nodes : bool;
  show_options_dialog_next_time : bool;
  enlarge_group_name : bool;
  debug : bool;
  start_view_mode : gvrefresh_modes_e
}.

(** [gsoptions_t::load_options] overwrites every field. *)
Definition load_options (_ : gsoptions_t) : gsoptions_t :=
  {| manual_refresh_mode := true;
     append_node_id := false;
     highlight_syntethic_nodes := false;
     show_options_dialog_next_time := true;
     enlarge_group_name := true;
     start_view_mode := gvrfm_combined_mode;
     debug := true |}.

(** [gsoptions_t::show_dialog] has an empty body. *)
Definition show_dialog (o : gsoptions_t) : gsoptions_t := o.

(** ** Group model

    groupman.h is not among the sources.  The records below follow
    section 3 of the specification (NodeDef, NodeGroup, SuperGroup,
    GroupManager) and carry the members that plugin.cpp reads.  An object
    that the C++ code handles through a pointer carries its address, so
    that two groups with the same contents stay distinct. *)

(** Modelled from the spec: [nodedef_t] (groupman.h), the NodeDef of
    section 3: a stable id and the address range it stands for. *)
Record nodedef_t := {
  nid : Z;
  start : ea_t;
  end_ea : ea_t
}.

(** Modelled from the spec: [nodegroup_t] (groupman.h), the NodeGroup of
    section 3: an ordered sequence of NodeDefs. *)
Record nodegroup_t := {
  ng_addr : positive;
  ng_defs : list nodedef_t
}.

(** [pnodegroup_t]: a pointer to a node group, [None] for [NULL]. *)
Definition pnodegroup_t := option nodegroup_t.

(** Modelled from the spec: [supergroup_t] (groupman.h), the SuperGroup
    of section 3 with the members [id], [name], [is_synthetic] and
    [groups] that plugin.cpp reads. *)
Record supergroup_t := {
  sg_addr : positive;
  id : string;
  name : string;
  is_synthetic : bool;
  groups : list nodegroup_t
}.

Definition psupergroup_t := option supergroup_t.

(** Modelled from the spec: [nodeloc_t] (groupman.h), the NodeLocation of
    section 3: the super group and the node group of a NodeDef. *)
Record nodeloc_t := {
  sg : supergroup_t;
  ng : nodegroup_t
}.

(** Modelled from the spec: [groupman_t] (groupman.h), the GroupManager
    of section 3: the source file, the ordered super groups, the node
    definitions by id and the [nid -> NodeLocation] index. *)
Record groupman_t := {
  source_file : string;
  path_sgl : list supergroup_t;
  all_nds : gmap Z nodedef_t;
  node_locs : gmap Z nodeloc_t
}.

#[global] Instance nodedef_eq_dec : EqDecision nodedef_t.
Proof. solve_decision. Defined.
#[global] Instance nodegroup_eq_dec : EqDecision nodegroup_t.
Proof. solve_decision. Defined.
#[global] Instance supergroup_eq_dec : EqDecision supergroup_t.
Proof. solve_decision. Defined.
#[global] Instance nodeloc_eq_dec : EqDecision nodeloc_t.
Proof. solve_decision. Defined.

(** Modelled from the spec: [nodegroup_t::get_first_node] (groupman.h),
    the first NodeDef of the ordered sequence, [NULL] for an empty group. *)
Definition get_first_node (g : nodegroup_t) : option nodedef_t :=
  head (ng_defs g).

(** Modelled from the spec: [supergroup_t::get_first_ng] and
    [nodegroup_list_t::get_first_ng] (groupman.h). *)
Definition get_first_ng (ngl : list nodegroup_t) : pnodegroup_t :=
  head ngl.

(** Modelled from the spec: [groupman_t::find_nodeid_loc] (groupman.h), the
    [nid -> NodeLocation] index of section 3, [NULL] when [nid] is absent. *)
Definition find_nodeid_loc (g : groupman_t) (n : Z) : option nodeloc_t :=
  node_locs g !! n.

(** Modelled from the spec: [groupman_t::get_first_nd] (groupman.h),
    [first_node_def() -> NodeDef | Empty] of section 4.1: the first NodeDef
    of the first non-empty NodeGroup, in SuperGroup order. *)
Definition get_first_nd (g : groupman_t) : option nodedef_t :=
  head (concat (map ng_defs (concat (map groups (path_sgl g))))).

(** Modelled from the spec: the constructor [groupman_t()] (groupman.h);
    "GroupManager is created empty" (section 3). *)
Definition groupman_new : groupman_t :=
  {| source_file := ""; path_sgl := []; all_nds := ∅; node_locs := ∅ |}.

(** ** Graph data of the view *)

(** Modelled from the spec: [gnode_t] (util.h), the display text and the
    hint text of one node of the renderable graph (section 4.3). *)
Record gnode_t := {
  text : string;
  hint : string
}.

(** Modelled from the spec: [ng2nid_t] (util.h), the
    [NodeGroup -> synthetic-graph-node-id] index of section 3.  plugin.cpp
    walks it from [begin()] to [end()], so the entries are kept in
    iteration order. *)
Definition ng2nid_t := list (nodegroup_t * Z).

(** Modelled from the spec: [ng2nid_t::get_ng_id] (util.h), the id that
    the index stores for the group; [-1], the value that plugin.cpp tests
    for, if there is none. *)
Definition ng2nid_get_ng_id (m : ng2nid_t) (g : nodegroup_t) : Z :=
  match list_find (λ e, ng_addr e.1 = ng_addr g) m with
  | Some (_, e) => e.2
  | None => (-1)%Z
  end.

(** Modelled from the spec: [mutable_graph_t] (IDA's graph.hpp), the
    nodes and edges of the renderable graph of section 6. *)
Record mutable_graph_t := {
  mg_nodes : list Z;
  mg_edges : list (Z * Z)
}.

(** Modelled from the spec: [mutable_graph_t::clear] (IDA's graph.hpp). *)
Definition mg_clear (_ : mutable_graph_t) : mutable_graph_t :=
  {| mg_nodes := []; mg_edges := [] |}.

(** Modelled from the spec: [qbasic_block_t] and [qflow_chart_t] (IDA's
    gdl.hpp), the CFG of section 6: an ordered sequence of blocks, each
    with its start and end address and its successors. *)
Record qbasic_block_t := {
  bb_start : ea_t;
  bb_end : ea_t;
  bb_succ : list Z
}.

Record qflow_chart_t := {
  fc_title : string;
  fc_blocks : list qbasic_block_t
}.

(** Modelled from the spec: [func_t] (IDA's funcs.hpp), of which
    plugin.cpp reads [startEA]. *)
Record func_t := { startEA : ea_t }.

(** ** Calls that leave the module *)

Inductive msg_arg :=
  | AInt (n : Z)
  | AStr (s : string)
  | APtr (p : option positive).

Inductive event :=
  | Msg (fmt : string) (args : list msg_arg)
  | RefreshViewer
  | RefreshChooser (title : string)
  | JumpToNode (n : Z)
  | ViewerAddMenuItem (label : string) (item : Z)
  | ViewerDelMenuItem (label : string)
  | ViewerFitWindow
  | ViewerCenterOn (n : Z)
  | CreateTForm (title : string)
  | CreateGraphViewer
  | OpenTForm
  | CloseTForm
  | AskStr (prompt : string)
  | ClearParentRef
  | CallParse (obj : positive) (file : string)
  | CallSanitize (obj : positive) (ok : bool)
  | CallInitializeLookups (obj : positive)
  | CallCombineNgl (ngl : list pnodegroup_t)
  | QFreePopupNames
  | DeleteSingleton.

(** String constants of plugin.cpp. *)
Definition STR_GS_MSG : string := "GS: ".
Definition STR_GS_PANEL : string := "Graph Slick - Panel".
Definition STR_GS_VIEW : string := "Graph Slick - View".
Definition STR_SEARCH_PROMPT : string := "Please enter search string".
Definition STR_DUMMY_SG_NAME : string := "No name".

(** ** External routines

    The routines of IDA and of the plugin's other modules that plugin.cpp
    calls.  Their code is not part of this file's subject; every
    definition below takes them as the environment [E]. *)

Record env_t := {
  BADADDR : ea_t;
  (* groupman.h *)
  parse : string → bool → groupman_t → bool * groupman_t;
  initialize_lookups : groupman_t → groupman_t;
  combine_ngl : list pnodegroup_t → groupman_t → groupman_t;
  get_display_name : supergroup_t → option string → string;
  set_sg_name : supergroup_t → string → groupman_t → groupman_t;
  (* algo.hpp *)
  get_func_flowchart : ea_t → qflow_chart_t → bool * qflow_chart_t;
  sanitize_groupman : ea_t → groupman_t → qflow_chart_t → bool * groupman_t;
  func_to_mgraph :
    ea_t → mutable_graph_t → gmap Z gnode_t → qflow_chart_t → bool →
    mutable_graph_t * gmap Z gnode_t;
  fc_to_combined_mg :
    ea_t → groupman_t → gmap Z gnode_t → ng2nid_t → mutable_graph_t →
    qflow_chart_t → gmap Z gnode_t * ng2nid_t * mutable_graph_t;
  (* IDA kernel and user interface *)
  get_func : ea_t → option func_t;
  askstr : string → string → option string;
  stristr : string → string → bool;
  viewer_add_menu_item : string → bool;
  create_tform : nat → option Z;
  create_graph_viewer : option Z;
  (* pro.h *)
  MAXSTR : nat
}.

(** Modelled from the spec: [qstrncpy] (IDA's pro.h) is not among the
    sources.  It copies a string into a buffer of [dstsize] characters and
    always terminates the result, so at most [dstsize - 1] characters of
    [src] arrive. *)
Definition qstrncpy (dstsize : nat) (src : string) : string :=
  String.substring 0 (dstsize - 1) src.

(** The largest value of an [int]. *)
Definition INT_MAX : Z := 2 ^ 31 - 1.

(** ** Outcome of a member function

    A member function either returns with a new state of its object, or
    it runs into undefined behaviour (a null or dangling pointer is
    dereferenced, a freed object is deleted again); the state at that
    point is kept for inspection. *)

Inductive outcome (S A : Type) :=
  | Ret (a : A) (s : S)
  | Undef (why : string) (s : S).
Arguments Ret {S A} a s.
Arguments Undef {S A} why s.

Definition M (S A : Type) := S → outcome S A.

Definition ret {S A} (a : A) : M S A := λ s, Ret a s.

Definition bind {S A B} (m : M S A) (k : A → M S B) : M S B :=
  λ s, match m s with
       | Ret a s' => k a s'
       | Undef why s' => Undef why s'
       end.

Definition undefined {S A} (why : string) : M S A := λ s, Undef why s.
Definition get_state {S} : M S S := λ s, Ret s s.
Definition modify {S} (f : S → S) : M S unit := λ s, Ret tt (f s).

Declare Scope m_scope.
Delimit Scope m_scope with M.
Notation "'let*' x ':=' m 'in' k" := (bind m (λ x, k))
  (at level 10, x pattern, m at level 100, k at level 200) : m_scope.
Notation "'run' m 'in' k" := (bind m (λ _, k))
  (at level 10, m at level 100, k at level 200) : m_scope.

(** The state an outcome ends in. *)
Definition final {S A} (o : outcome S A) : S :=
  match o with Ret _ s => s | Undef _ s => s end.

Definition returned {S A} (o : outcome S A) : option A :=
  match o with Ret a _ => Some a | Undef _ _ => None end.

(** ** Colour generator

    colorgen.h ([colorgen_t], [colorvargen_t]) is not among the sources.
    Section 4.5 of the specification gives the contract:
    [new_batch() -> BatchHandle] (the call [cg.get_colorvar(cv)] of
    plugin.cpp), [next_variant(handle) -> Color] (the call
    [cg.get_color_anyway(cv)]), and says that the generator "cycles a fixed
    base palette and applies a deterministic luminance/hue offset per
    call, wrapping".  A batch takes the next entry of the palette as its
    base colour; the k-th variant of a batch is the base colour with the
    luminance interval [L_INT] applied k times to each channel, wrapping
    at the 8-bit channel range.  Colours are packed as IDA packs a
    [bgcolor_t], 0xBBGGRR. *)
Module ColorGen.
Local Open Scope Z_scope.

(** Modelled from the spec: [colorgen_t] (colorgen.h), the ColorAssigner
    of section 4.5: the luminance interval [L_INT] that plugin.cpp sets,
    and the position in the base palette. *)
Record colorgen_t := {
  L_INT : Z;
  next_base : nat
}.

(** Modelled from the spec: [colorvargen_t] (colorgen.h), the BatchHandle
    of section 4.5: the base colour of the batch and the number of
    variants drawn so far. *)
Record colorvargen_t := {
  base : Z * Z * Z;
  calls : Z
}.

(** Modelled from the spec: the "fixed base palette" of section 4.5; the
    specification does not list its entries. *)
Definition base_palette : list (Z * Z * Z) :=
  [ (0xFF, 0xC0, 0xC0); (0xC0, 0xFF, 0xC0); (0xC0, 0xC0, 0xFF);
    (0xFF, 0xFF, 0xC0); (0xFF, 0xC0, 0xFF); (0xC0, 0xFF, 0xFF);
    (0xFF, 0xE0, 0xC0); (0xE0, 0xC0, 0xFF) ].

(** Modelled from the spec: the constructor [colorgen_t()] (colorgen.h).
    The interval it sets does not matter to plugin.cpp, where every
    generator is declared through [DECL_CG]. *)
Definition colorgen_new : colorgen_t :=
  {| L_INT := -10; next_base := 0%nat |}.

Definition set_L_INT (l : Z) (cg : colorgen_t) : colorgen_t :=
  {| L_INT := l; next_base := next_base cg |}.

(** Modelled from the spec: a colour from its channels, 0xBBGGRR. *)
Definition rgb (r g b : Z) : bgcolor_t := r + 256 * g + 65536 * b.

(** Modelled from the spec: "wrapping" (section 4.5), at the range of an
    8-bit channel. *)
Definition wrap8 (x : Z) : Z := x mod 256.

(** Modelled from the spec: the "luminance offset" of section 4.5, the
    offset [d] added to each channel. *)
Definition shade (d : Z) (c : Z * Z * Z) : bgcolor_t :=
  rgb (wrap8 (c.1.1 + d)) (wrap8 (c.1.2 + d)) (wrap8 (c.2 + d)).

(** Modelled from the spec: [colorgen_t::get_colorvar] (colorgen.h),
    [new_batch() -> BatchHandle] of section 4.5: start a batch on the next
    base colour of the palette, cycling. *)
Definition get_colorvar (cg : colorgen_t) : colorvargen_t * colorgen_t :=
  ({| base := default (0, 0, 0)
                (base_palette !! (next_base cg `mod` length base_palette)%nat);
      calls := 0 |},
   {| L_INT := L_INT cg; next_base := S (next_base cg) |}).

(** Modelled from the spec: [colorgen_t::get_color_anyway] (colorgen.h),
    [next_variant(handle) -> Color] of section 4.5: the base colour with
    the luminance offset of this call, wrapping. *)
Definition get_color_anyway (cg : colorgen_t) (cv : colorvargen_t)
  : bgcolor_t * colorvargen_t :=
  (shade (L_INT cg * calls cv) (base cv),
   {| base := base cv; calls := calls cv + 1 |}).

(** Modelled from the spec: the constructor [colorvargen_t()]
    (colorgen.h), a handle that no batch was started on. *)
Definition colorvargen_new : colorvargen_t :=
  {| base := (0, 0, 0); calls := 0 |}.

(** The colours of the first [n] variants drawn from [cv]. *)
Fixpoint variants (cg : colorgen_t) (cv : colorvargen_t) (n : nat)
  : list bgcolor_t :=
  match n with
  | O => []
  | S n' => let '(c, cv') := get_color_anyway cg cv in
            c :: variants cg cv' n'
  end.

(** The colours of successive batches of the given sizes. *)
Fixpoint batches (cg : colorgen_t) (sizes : list nat)
  : list (list bgcolor_t) :=
  match sizes with
  | [] => []
  | n :: sizes' =>
      let '(cv, cg') := get_colorvar cg in
      variants cg' cv n :: batches cg' sizes'
  end.

End ColorGen.

(** [#define DECL_CG colorgen_t cg; cg.L_INT = -15] *)
Definition DECL_CG : ColorGen.colorgen_t :=
  ColorGen.set_L_INT (-15) ColorGen.colorgen_new.

(** ** The graph view ([class gsgraphview_t]) *)
Module View.
Local Open Scope Z_scope.

(** The context menu item ids ([int idm_...]). *)
Record menu_items_t := {
  idm_single_view_mode : Z;
  idm_combined_view_mode : Z;
  idm_clear_sel : Z;
  idm_clear_highlight : Z;
  idm_set_sel_mode : Z;
  idm_edit_sg_desc : Z;
  idm_test : Z;
  idm_highlight_similar : Z;
  idm_find_highlight : Z;
  idm_combine_ngs : Z;
  idm_show_options : Z
}.

(** The members of the class.  [gm] is the group manager the view points
    to (the view never frees it).  [menu_ids] and [menu_id] are the static
    registry and the static counter of [add_menu]; [last_pattern] is the
    static buffer of [find_and_highlight_nodes].  [alive] turns false at
    [delete this]; [log] records the calls that leave the module. *)
Record gsgraphview_t := {
  cur_node : Z;
  gv : option Z;
  form : option Z;
  gm : groupman_t;
  options : gsoptions_t;
  node_map : gmap Z gnode_t;
  ng2id : ng2nid_t;
  func_fc : qflow_chart_t;
  refresh_mode : gvrefresh_modes_e;
  cur_view_mode : gvrefresh_modes_e;
  parent_ref : bool;
  idm : menu_items_t;
  in_sel_mode : bool;
  highlighted_nodes : gmap Z bgcolor_t;
  selected_nodes : gmap Z bgcolor_t;
  menu_ids : gmap Z string;
  menu_id : Z;
  last_pattern : string;
  alive : bool;
  log : list event
}.

Definition set_cur_node (x : Z) (v : gsgraphview_t) : gsgraphview_t :=
  {| cur_node := x; gv := gv v; form := form v; gm := gm v; options :=
     options v; node_map := node_map v; ng2id := ng2id v; func_fc := func_fc
     v; refresh_mode := refresh_mode v; cur_view_mode := cur_view_mode v;
     parent_ref := parent_ref v; idm := idm v; in_sel_mode := in_sel_mode v;
     highlighted_nodes := highlighted_nodes v; selected_nodes :=
     selected_nodes v; menu_ids := menu_ids v; menu_id := menu_id v;
     last_pattern := last_pattern v; alive := alive v; log := log v |}.

Definition set_gv (x : option Z) (v : gsgraphview_t) : gsgraphview_t :=
  {| cur_node := cur_node v; gv := x; form := form v; gm := gm v; options :=
     options v; node_map := node_map v; ng2id := ng2id v; func_fc := func_fc
     v; refresh_mode := refresh_mode v; cur_view_mode := cur_view_mode v;
     parent_ref := parent_ref v; idm := idm v; in_sel_mode := in_sel_mode v;
     highlighted_nodes := highlighted_nodes v; selected_nodes :=
     selected_nodes v; menu_ids := menu_ids v; menu_id := menu_id v;
     last_pattern := last_pattern v; alive := alive v; log := log v |}.

Definition set_form (x : option Z) (v : gsgraphview_t) : gsgraphview_t :=
  {| cur_node := cur_node v; gv := gv v; form := x; gm := gm v; options :=
     options v; node_map := node_map v; ng2id := ng2id v; func_fc := func_fc
     v; refresh_mode := refresh_mode v; cur_view_mode := cur_view_mode v;
     parent_ref := parent_ref v; idm := idm v; in_sel_mode := in_sel_mode v;
     highlighted_nodes := highlighted_nodes v; selected_nodes :=
     selected_nodes v; menu_ids := menu_ids v; menu_id := menu_id v;
     last_pattern := last_pattern v; alive := alive v; log := log v |}.

Definition set_gm (x : groupman_t) (v : gsgraphview_t) : gsgraphview_t :=
  {| cur_node := cur_node v; gv := gv v; form := form v; gm := x; options :=
     options v; node_map := node_map v; ng2id := ng2id v; func_fc := func_fc
     v; refresh_mode := refresh_mode v; cur_view_mode := cur_view_mode v;
     parent_ref := parent_ref v; idm := idm v; in_sel_mode := in_sel_mode v;
     highlighted_nodes := highlighted_nodes v; selected_nodes :=
     selected_nodes v; menu_ids := menu_ids v; menu_id := menu_id v;
     last_pattern := last_pattern v; alive := alive v; log := log v |}.

Definition set_node_map (x : gmap Z gnode_t) (v : gsgraphview_t) : gsgraphview_t :=
  {| cur_node := cur_node v; gv := gv v; form := form v; gm := gm v; options
     := options v; node_map := x; ng2id := ng2id v; func_fc := func_fc v;
     refresh_mode := refresh_mode v; cur_view_mode := cur_view_mode v;
     parent_ref := parent_ref v; idm := idm v; in_sel_mode := in_sel_mode v;
     highlighted_nodes := highlighted_nodes v; selected_nodes :=
     selected_nodes v; menu_ids := menu_ids v; menu_id := menu_id v;
     last_pattern := last_pattern v; alive := alive v; log := log v |}.

Definition set_ng2id (x : ng2nid_t) (v : gsgraphview_t) : gsgraphview_t :=
  {| cur_node := cur_node v; gv := gv v; form := form v; gm := gm v; options
     := options v; node_map := node_map v; ng2id := x; func_fc := func_fc v;
     refresh_mode := refresh_mode v; cur_view_mode := cur_view_mode v;
     parent_ref := parent_ref v; idm := idm v; in_sel_mode := in_sel_mode v;
     highlighted_nodes := highlighted_nodes v; selected_nodes :=
     selected_nodes v; menu_ids := menu_ids v; menu_id := menu_id v;
     last_pattern := last_pattern v; alive := alive v; log := log v |}.

Definition set_refresh_mode (x : gvrefresh_modes_e) (v : gsgraphview_t) : gsgraphview_t :=
  {| cur_node := cur_node v; gv := gv v; form := form v; gm := gm v; options
     := options v; node_map := node_map v; ng2id := ng2id v; func_fc :=
     func_fc v; refresh_mode := x; cur_view_mode := cur_view_mode v;
     parent_ref := parent_ref v; idm := idm v; in_sel_mode := in_sel_mode v;
     highlighted_nodes := highlighted_nodes v; selected_nodes :=
     selected_nodes v; menu_ids := menu_ids v; menu_id := menu_id v;
     last_pattern := last_pattern v; alive := alive v; log := log v |}.

Definition set_cur_view_mode (x : gvrefresh_modes_e) (v : gsgraphview_t) : gsgraphview_t :=
  {| cur_node := cur_node v; gv := gv v; form := form v; gm := gm v; options
     := options v; node_map := node_map v; ng2id := ng2id v; func_fc :=
     func_fc v; refresh_mode := refresh_mode v; cur_view_mode := x;
     parent_ref := parent_ref v; idm := idm v; in_sel_mode := in_sel_mode v;
     highlighted_nodes := highlighted_nodes v; selected_nodes :=
     selected_nodes v; menu_ids := menu_ids v; menu_id := menu_id v;
     last_pattern := last_pattern v; alive := alive v; log := log v |}.

Definition set_parent_ref (x : bool) (v : gsgraphview_t) : gsgraphview_t :=
  {| cur_node := cur_node v; gv := gv v; form := form v; gm := gm v; options
     := options v; node_map := node_map v; ng2id := ng2id v; func_fc :=
     func_fc v; refresh_mode := refresh_mode v; cur_view_mode :=
     cur_view_mode v; parent_ref := x; idm := idm v; in_sel_mode :=
     in_sel_mode v; highlighted_nodes := highlighted_nodes v; selected_nodes
     := selected_nodes v; menu_ids := menu_ids v; menu_id := menu_id v;
     last_pattern := last_pattern v; alive := alive v; log := log v |}.

Definition set_idm (x : menu_items_t) (v : gsgraphview_t) : gsgraphview_t :=
  {| cur_node := cur_node v; gv := gv v; form := form v; gm := gm v; options
     := options v; node_map := node_map v; ng2id := ng2id v; func_fc :=
     func_fc v; refresh_mode := refresh_mode v; cur_view_mode :=
     cur_view_mode v; parent_ref := parent_ref v; idm := x; in_sel_mode :=
     in_sel_mode v; highlighted_nodes := highlighted_nodes v; selected_nodes
     := selected_nodes v; menu_ids := menu_ids v; menu_id := menu_id v;
     last_pattern := last_pattern v; alive := alive v; log := log v |}.

Definition set_in_sel_mode (x : bool) (v : gsgraphview_t) : gsgraphview_t :=
  {| cur_node := cur_node v; gv := gv v; form := form v; gm := gm v; options
     := options v; node_map := node_map v; ng2id := ng2id v; func_fc :=
     func_fc v; refresh_mode := refresh_mode v; cur_view_mode :=
     cur_view_mode v; parent_ref := parent_ref v; idm := idm v; in_sel_mode
     := x; highlighted_nodes := highlighted_nodes v; selected_nodes :=
     selected_nodes v; menu_ids := menu_ids v; menu_id := menu_id v;
     last_pattern := last_pattern v; alive := alive v; log := log v |}.

Definition set_highlighted_nodes (x : gmap Z bgcolor_t) (v : gsgraphview_t) : gsgraphview_t :=
  {| cur_node := cur_node v; gv := gv v; form := form v; gm := gm v; options
     := options v; node_map := node_map v; ng2id := ng2id v; func_fc :=
     func_fc v; refresh_mode := refresh_mode v; cur_view_mode :=
     cur_view_mode v; parent_ref := parent_ref v; idm := idm v; in_sel_mode
     := in_sel_mode v; highlighted_nodes := x; selected_nodes :=
     selected_nodes v; menu_ids := menu_ids v; menu_id := menu_id v;
     last_pattern := last_pattern v; alive := alive v; log := log v |}.

Definition set_selected_nodes (x : gmap Z bgcolor_t) (v : gsgraphview_t) : gsgraphview_t :=
  {| cur_node := cur_node v; gv := gv v; form := form v; gm := gm v; options
     := options v; node_map := node_map v; ng2id := ng2id v; func_fc :=
     func_fc v; refresh_mode := refresh_mode v; cur_view_mode :=
     cur_view_mode v; parent_ref := parent_ref v; idm := idm v; in_sel_mode
     := in_sel_mode v; highlighted_nodes := highlighted_nodes v;
     selected_nodes := x; menu_ids := menu_ids v; menu_id := menu_id v;
     last_pattern := last_pattern v; alive := alive v; log := log v |}.

Definition set_menu_ids (x : gmap Z string) (v : gsgraphview_t) : gsgraphview_t :=
  {| cur_node := cur_node v; gv := gv v; form := form v; gm := gm v; options
     := options v; node_map := node_map v; ng2id := ng2id v; func_fc :=
     func_fc v; refresh_mode := refresh_mode v; cur_view_mode :=
     cur_view_mode v; parent_ref := parent_ref v; idm := idm v; in_sel_mode
     := in_sel_mode v; highlighted_nodes := highlighted_nodes v;
     selected_nodes := selected_nodes v; menu_ids := x; menu_id := menu_id v;
     last_pattern := last_pattern v; alive := alive v; log := log v |}.

Definition set_menu_id (x : Z) (v : gsgraphview_t) : gsgraphview_t :=
  {| cur_node := cur_node v; gv := gv v; form := form v; gm := gm v; options
     := options v; node_map := node_map v; ng2id := ng2id v; func_fc :=
     func_fc v; refresh_mode := refresh_mode v; cur_view_mode :=
     cur_view_mode v; parent_ref := parent_ref v; idm := idm v; in_sel_mode
     := in_sel_mode v; highlighted_nodes := highlighted_nodes v;
     selected_nodes := selected_nodes v; menu_ids := menu_ids v; menu_id :=
     x; last_pattern := last_pattern v; alive := alive v; log := log v |}.

Definition set_last_pattern (x : string) (v : gsgraphview_t) : gsgraphview_t :=
  {| cur_node := cur_node v; gv := gv v; form := form v; gm := gm v; options
     := options v; node_map := node_map v; ng2id := ng2id v; func_fc :=
     func_fc v; refresh_mode := refresh_mode v; cur_view_mode :=
     cur_view_mode v; parent_ref := parent_ref v; idm := idm v; in_sel_mode
     := in_sel_mode v; highlighted_nodes := highlighted_nodes v;
     selected_nodes := selected_nodes v; menu_ids := menu_ids v; menu_id :=
     menu_id v; last_pattern := x; alive := alive v; log := log v |}.

Definition set_alive (x : bool) (v : gsgraphview_t) : gsgraphview_t :=
  {| cur_node := cur_node v; gv := gv v; form := form v; gm := gm v; options
     := options v; node_map := node_map v; ng2id := ng2id v; func_fc :=
     func_fc v; refresh_mode := refresh_mode v; cur_view_mode :=
     cur_view_mode v; parent_ref := parent_ref v; idm := idm v; in_sel_mode
     := in_sel_mode v; highlighted_nodes := highlighted_nodes v;
     selected_nodes := selected_nodes v; menu_ids := menu_ids v; menu_id :=
     menu_id v; last_pattern := last_pattern v; alive := x; log := log v |}.

Definition set_log (x : list event) (v : gsgraphview_t) : gsgraphview_t :=
  {| cur_node := cur_node v; gv := gv v; form := form v; gm := gm v; options
     := options v; node_map := node_map v; ng2id := ng2id v; func_fc :=
     func_fc v; refresh_mode := refresh_mode v; cur_view_mode :=
     cur_view_mode v; parent_ref := parent_ref v; idm := idm v; in_sel_mode
     := in_sel_mode v; highlighted_nodes := highlighted_nodes v;
     selected_nodes := selected_nodes v; menu_ids := menu_ids v; menu_id :=
     menu_id v; last_pattern := last_pattern v; alive := alive v; log := x |}.
Definition set_idm_set_sel_mode (x : Z) (i : menu_items_t) : menu_items_t :=
  {| idm_single_view_mode := idm_single_view_mode i;
     idm_combined_view_mode := idm_combined_view_mode i;
     idm_clear_sel := idm_clear_sel i;
     idm_clear_highlight := idm_clear_highlight i;
     idm_set_sel_mode := x;
     idm_edit_sg_desc := idm_edit_sg_desc i;
     idm_test := idm_test i;
     idm_highlight_similar := idm_highlight_similar i;
     idm_find_highlight := idm_find_highlight i;
     idm_combine_ngs := idm_combine_ngs i;
     idm_show_options := idm_show_options i |}.

(** Arguments and results of the graph callback. *)
Record selection_item_t := {
  is_node : bool;
  node : Z
}.

Inductive grcode :=
  | grcode_clicked (item1 : option selection_item_t)
  | grcode_changed_current (n : Z)
  | grcode_creating_group
  | grcode_deleting_group
  | grcode_changed_graph
  | grcode_user_refresh (mg : mutable_graph_t)
  | grcode_user_text (n : Z) (want_bgcolor : bool)
  | grcode_user_hint (mousenode : Z)
  | grcode_destroyed
  | grcode_other.

(** What one callback hands back: the return value and the out
    parameters it wrote ([None]: left untouched). *)
Record gr_result := {
  result : Z;
  out_mg : option mutable_graph_t;
  out_text : option string;
  out_bgcolor : option bgcolor_t;
  out_hint : option string
}.

Definition gr_plain (r : Z) : gr_result :=
  {| result := r; out_mg := None; out_text := None;
     out_bgcolor := None; out_hint := None |}.

(** Keys of a [std::map<int, T>] in iteration order (ascending). *)
Definition keys_ascending {A} (m : gmap Z A) : list Z :=
  merge_sort Z.le (map fst (map_to_list m)).

(** [intset_t::insert] on the sorted, duplicate-free element sequence. *)
Fixpoint intset_insert (x : Z) (s : list Z) : list Z :=
  match s with
  | [] => [x]
  | y :: s' =>
      if decide (x < y) then x :: s
      else if decide (x = y) then s
      else y :: intset_insert x s'
  end.

Section members.
Context (E : env_t).

Abbreviation V := (M gsgraphview_t).

Definition emit (e : event) (v : gsgraphview_t) : gsgraphview_t :=
  set_log (log v ++ [e]) v.

(** [msg(fmt, ...)]: format strings are kept as the source writes them. *)
Definition msg (fmt : string) (args : list msg_arg) :
  gsgraphview_t → gsgraphview_t := emit (Msg fmt args).

(** [gnode_t *get_node(int nid)] *)
Definition get_node (n : Z) (v : gsgraphview_t) : option gnode_t :=
  node_map v !! n.

(** [pnodegroup_t get_ng_from_ngid(int ngid)]: the first entry of [ng2id]
    whose id is [ngid]. *)
Fixpoint ng_with_id (ngid : Z) (m : ng2nid_t) : pnodegroup_t :=
  match m with
  | [] => None
  | (g, i) :: m' => if decide (i = ngid) then Some g else ng_with_id ngid m'
  end.

Definition get_ng_from_ngid (ngid : Z) (v : gsgraphview_t) : pnodegroup_t :=
  ng_with_id ngid (ng2id v).

(** [void refresh_view()] *)
Definition refresh_view (v : gsgraphview_t) : gsgraphview_t :=
  set_refresh_mode gvrfm_single_mode v.

(** [void redo_layout(gvrefresh_modes_e rm)] *)
Definition redo_layout (rm : gvrefresh_modes_e) (v : gsgraphview_t)
  : gsgraphview_t :=
  emit RefreshViewer (set_refresh_mode rm v).

(** [void refresh_parent(bool populate_lines = false)] *)
Definition refresh_parent (v : gsgraphview_t) : gsgraphview_t :=
  emit (RefreshChooser STR_GS_PANEL) v.

(** [void clear_selection(bool delay_refresh)] *)
Definition clear_selection (delay_refresh : bool) (v : gsgraphview_t)
  : gsgraphview_t :=
  let v1 := set_selected_nodes ∅ v in
  if delay_refresh then v1 else refresh_view v1.

(** [void clear_highlighting(bool delay_refresh)] *)
Definition clear_highlighting (delay_refresh : bool) (v : gsgraphview_t)
  : gsgraphview_t :=
  let v1 := set_highlighted_nodes ∅ v in
  if delay_refresh then v1 else refresh_view v1.

(** [void toggle_select_node(int cur_node, bool delay_refresh)] *)
Definition toggle_select_node (n : Z) (delay_refresh : bool)
  (v : gsgraphview_t) : gsgraphview_t :=
  let v1 :=
    match selected_nodes v !! n with
    | None => set_selected_nodes (<[n := NODE_SEL_COLOR]> (selected_nodes v)) v
    | Some _ => set_selected_nodes (delete n (selected_nodes v)) v
    end in
  if delay_refresh
  then msg (STR_GS_MSG +:+ "Selected %d\n") [AInt n] v1
  else refresh_view v1.

(** [void reset_states()] *)
Definition reset_states (v : gsgraphview_t) : gsgraphview_t :=
  set_cur_node (-1)
    (set_selected_nodes ∅
      (set_highlighted_nodes ∅
        (set_ng2id []
          (set_node_map ∅ v)))).

(** [inline int get_ng_id(pnodegroup_t ng)] *)
Definition get_ng_id (g : pnodegroup_t) (v : gsgraphview_t)
  : Z * gsgraphview_t :=
  let not_found :=
    (-1, if debug (options v)
         then msg (STR_GS_MSG +:+ "Could not find gr_nid for %p\n")
                  [APtr (ng_addr <$> g)] v
         else v) in
  match g with
  | Some g' =>
      if decide (cur_view_mode v = gvrfm_combined_mode)
      then (ng2nid_get_ng_id (ng2id v) g', v)
      else if decide (cur_view_mode v = gvrfm_single_mode)
      then (match get_first_node g' with
            | None => -1
            | Some nd => nid nd
            end, v)
      else not_found
  | None => not_found
  end.

(** [psupergroup_t ngid_to_sg(int ngid)] *)
Definition ngid_to_sg (ngid : Z) (v : gsgraphview_t) : psupergroup_t :=
  match get_ng_from_ngid (cur_node v) v with
  | None => None
  | Some g =>
      match get_first_node g with
      | None => None
      | Some nd =>
          match find_nodeid_loc (gm v) (nid nd) with
          | None => None
          | Some loc => Some (sg loc)
          end
      end
  end.

(** [void switch_to_single_view_mode(mutable_graph_t *mg)] *)
Definition switch_to_single_view_mode (mg : mutable_graph_t)
  (v : gsgraphview_t) : mutable_graph_t * gsgraphview_t :=
  let v1 := msg (STR_GS_MSG +:+ "Switching to single mode view...") [] v in
  let '(mg', nm') :=
    func_to_mgraph E (BADADDR E) mg (node_map v1) (func_fc v1)
      (append_node_id (options v1)) in
  (mg', msg "done\n" [] (set_node_map nm' v1)).

(** [void switch_to_combined_view_mode(mutable_graph_t *mg)] *)
Definition switch_to_combined_view_mode (mg : mutable_graph_t)
  (v : gsgraphview_t) : mutable_graph_t * gsgraphview_t :=
  let v1 := msg (STR_GS_MSG +:+ "Switching to combined mode view...") [] v in
  let '(nm', ids', mg') :=
    fc_to_combined_mg E (BADADDR E) (gm v1) (node_map v1) (ng2id v1) mg
      (func_fc v1) in
  (mg', msg "done\n" [] (set_ng2id ids' (set_node_map nm' v1))).

(** [int add_menu(const char *name, const char *hotkey = NULL)].  The
    static counter [id] is an [int]: [menu_id v + 1] is what [++id] gives
    while the counter is below [INT_MAX]; at [INT_MAX] the increment
    overflows, which this definition does not describe. *)
Definition add_menu (label : string) (v : gsgraphview_t)
  : Z * gsgraphview_t :=
  let is_sep := bool_decide (label = "-") in
  let v1 :=
    if is_sep then v
    else let i := menu_id v + 1 in
         set_menu_ids (<[i := label]> (menu_ids v)) (set_menu_id i v) in
  let ok := viewer_add_menu_item E label in
  let v2 := emit (ViewerAddMenuItem label (menu_id v1)) v1 in
  if is_sep then (-1, v2)
  else if ok then (menu_id v2, v2)
  else (-1, set_menu_ids (delete (menu_id v2) (menu_ids v2)) v2).

(** [void del_menu(int menu_id)] *)
Definition del_menu (i : Z) (v : gsgraphview_t) : gsgraphview_t :=
  if decide (i = -1) then v
  else match menu_ids v !! i with
       | None => v
       | Some label =>
           set_menu_ids (delete i (menu_ids v))
             (emit (ViewerDelMenuItem label) v)
       end.

(** [void set_sel_mode(bool sel_mode)] *)
Definition set_sel_mode (sel_mode : bool) (v : gsgraphview_t)
  : gsgraphview_t :=
  let v1 :=
    if decide (idm_set_sel_mode (idm v) ≠ -1)
    then del_menu (idm_set_sel_mode (idm v)) v
    else v in
  let label :=
    if sel_mode then "End selection mode" else "Start selection mode" in
  let '(i, v2) := add_menu label v1 in
  let v3 := set_idm (set_idm_set_sel_mode i (idm v2)) v2 in
  let v4 := set_in_sel_mode sel_mode v3 in
  msg (STR_GS_MSG +:+ "Trigger again to '%s'\n") [AStr label] v4.

(** The constructor [gsgraphview_t(func_fc, options)].  It leaves
    [cur_view_mode] and nine of the menu ids unset: their indeterminate
    values are the arguments [mode0] and [idm0].  The statics keep the
    values [ids0] and [id0] they have when the object is created. *)
Definition gsgraphview_new (fc : qflow_chart_t) (o : gsoptions_t)
  (g : groupman_t) (mode0 : gvrefresh_modes_e) (idm0 : menu_items_t)
  (ids0 : gmap Z string) (id0 : Z) (pattern0 : string) : gsgraphview_t :=
  {| cur_node := -1;
     gv := None;
     form := None;
     gm := g;
     options := o;
     node_map := ∅;
     ng2id := [];
     func_fc := fc;
     refresh_mode := start_view_mode o;
     cur_view_mode := mode0;
     parent_ref := false;
     idm :=
       {| idm_single_view_mode := idm_single_view_mode idm0;
          idm_combined_view_mode := idm_combined_view_mode idm0;
          idm_clear_sel := idm_clear_sel idm0;
          idm_clear_highlight := idm_clear_highlight idm0;
          idm_set_sel_mode := -1;
          idm_edit_sg_desc := -1;
          idm_test := idm_test idm0;
          idm_highlight_similar := idm_highlight_similar idm0;
          idm_find_highlight := idm_find_highlight idm0;
          idm_combine_ngs := idm_combine_ngs idm0;
          idm_show_options := idm_show_options idm0 |};
     in_sel_mode := false;
     highlighted_nodes := ∅;
     selected_nodes := ∅;
     menu_ids := ids0;
     menu_id := id0;
     last_pattern := pattern0;
     alive := true;
     log := [] |}.

(** [void init(graph_viewer_t *gv, TForm *form)] *)
Definition init (gv0 : Z) (form0 : Z) (v : gsgraphview_t) : gsgraphview_t :=
  let v := set_form (Some form0) (set_gv (Some gv0) v) in
  let v := emit (ViewerCenterOn 0) (emit ViewerFitWindow v) in
  let '(_, v) := add_menu "-" v in
  let '(i_show_options, v) := add_menu "Show options" v in
  let '(_, v) := add_menu "-" v in
  let '(i_clear_sel, v) := add_menu "Clear selection" v in
  let '(i_clear_highlight, v) := add_menu "Clear highlighting" v in
  let '(_, v) := add_menu "-" v in
  let '(i_single_view_mode, v) := add_menu "Switch to ungroupped view" v in
  let '(i_combined_view_mode, v) := add_menu "Switch to groupped view" v in
  let '(_, v) := add_menu "-" v in
  let '(i_test, v) := add_menu "Test" v in
  let '(_, v) := add_menu "-" v in
  let '(i_highlight_similar, v) := add_menu "Highlight similar nodes" v in
  let '(i_find_highlight, v) := add_menu "Find group" v in
  let '(i_combine_ngs, v) := add_menu "Combine nodes" v in
  let '(i_edit_sg_desc, v) := add_menu "Edit group description" v in
  let v :=
    set_idm
      {| idm_single_view_mode := i_single_view_mode;
         idm_combined_view_mode := i_combined_view_mode;
         idm_clear_sel := i_clear_sel;
         idm_clear_highlight := i_clear_highlight;
         idm_set_sel_mode := idm_set_sel_mode (idm v);
         idm_edit_sg_desc := i_edit_sg_desc;
         idm_test := i_test;
         idm_highlight_similar := i_highlight_similar;
         idm_find_highlight := i_find_highlight;
         idm_combine_ngs := i_combine_ngs;
         idm_show_options := i_show_options |} v in
  let '(_, v) := add_menu "-" v in
  set_sel_mode (in_sel_mode v) v.

(** The "lazy highlight" printout of [highlight_nodes], single view mode:
    [t] is the [size_t] countdown that places the commas. *)
Fixpoint lazy_print_single (g : groupman_t) (t : nat) (ids : list Z)
  (v : gsgraphview_t) : gsgraphview_t :=
  match ids with
  | [] => v
  | n :: ids' =>
      match all_nds g !! n with
      | None => lazy_print_single g t ids' v
      | Some nd =>
          let v1 := msg "%d : %a : %a "
                      [AInt (nid nd); AInt (start nd); AInt (end_ea nd)] v in
          let t' := pred t in
          let v2 := if decide (0 < t')%nat then msg ", " [] v1 else v1 in
          lazy_print_single g t' ids' v2
      end
  end.

Definition lazy_print (newly_colored : list Z) (v : gsgraphview_t)
  : gsgraphview_t :=
  let v1 := msg (STR_GS_MSG +:+ "Lazy highlight( ") [] v in
  let v2 :=
    if decide (cur_view_mode v1 = gvrfm_single_mode)
    then lazy_print_single (gm v1) (length newly_colored) newly_colored v1
    else foldl (λ w n, msg "%d " [AInt n] w) v1 newly_colored in
  msg ")\n" [] v2.

(** [bool highlight_nodes(pnodegroup_t ng, bgcolor_t clr, bool delay_refresh)] *)
Definition highlight_nodes_ng (g : pnodegroup_t) (clr : bgcolor_t)
  (delay_refresh : bool) : V bool := λ v,
  let finish (newly_colored : list Z) (w : gsgraphview_t) :=
    if delay_refresh
    then Ret true (lazy_print newly_colored w)
    else Ret true (refresh_view w) in
  if decide (cur_view_mode v = gvrfm_combined_mode) then
    let '(gr_nid, v1) := get_ng_id g v in
    if decide (gr_nid = -1) then Ret false v1
    else
      finish (if delay_refresh then [gr_nid] else [])
        (set_highlighted_nodes (<[gr_nid := clr]> (highlighted_nodes v1)) v1)
  else if decide (cur_view_mode v = gvrfm_single_mode) then
    match g with
    | None => Undef "highlight_nodes: null node group dereferenced" v
    | Some g' =>
        let ids := map nid (ng_defs g') in
        finish
          (if delay_refresh
           then foldl (λ s n, intset_insert n s) [] ids else [])
          (set_highlighted_nodes
             (foldl (λ m n, <[n := clr]> m) (highlighted_nodes v) ids) v)
    end
  else Ret false v.

(** The loop of the two list overloads of [highlight_nodes]: a new colour
    variant for each node group, the inner call always with delayed
    refresh.  The colours handed out are returned next to the variant
    generator. *)
Fixpoint highlight_each (cg : ColorGen.colorgen_t)
  (cv : ColorGen.colorvargen_t) (ngl : list nodegroup_t)
  : V (ColorGen.colorvargen_t * list bgcolor_t) :=
  match ngl with
  | [] => ret (cv, [])
  | g :: ngl' =>
      let '(clr, cv') := ColorGen.get_color_anyway cg cv in
      (run highlight_nodes_ng (Some g) clr true in
       let* r := highlight_each cg cv' ngl' in
       ret (r.1, clr :: r.2))%M
  end.

(** [void highlight_nodes(pnodegroup_list_t ngl, colorgen_t &cg,
    bool delay_refresh)]: one colour variant generator for the whole list. *)
Definition highlight_nodes_ngl (ngl : list nodegroup_t)
  (cg : ColorGen.colorgen_t) (delay_refresh : bool)
  : V (ColorGen.colorgen_t * list bgcolor_t) :=
  let '(cv, cg') := ColorGen.get_colorvar cg in
  (let* r := highlight_each cg' cv ngl in
   run (if delay_refresh then ret tt else modify refresh_view) in
   ret (cg', r.2))%M.

(** The outer loop of [highlight_nodes(psupergroup_listp_t groups, ...)]. *)
Fixpoint highlight_sgs (cg : ColorGen.colorgen_t)
  (cv : ColorGen.colorvargen_t) (sgs : list supergroup_t)
  : V (ColorGen.colorgen_t * list (list bgcolor_t)) :=
  match sgs with
  | [] => ret (cg, [])
  | sg0 :: sgs' =>
      λ v,
      if is_synthetic sg0 && negb (highlight_syntethic_nodes (options v))
      then highlight_sgs cg cv sgs' v
      else
        let '(cv1, cg1) := ColorGen.get_colorvar cg in
        (let* r := highlight_each cg1 cv1 (groups sg0) in
         let* rest := highlight_sgs cg1 r.1 sgs' in
         ret (rest.1, r.2 :: rest.2))%M v
  end.

(** [void highlight_nodes(psupergroup_listp_t groups, colorgen_t &cg,
    bool delay_refresh)] *)
Definition highlight_nodes_sgl (sgs : list supergroup_t)
  (cg : ColorGen.colorgen_t) (delay_refresh : bool)
  : V (ColorGen.colorgen_t * list (list bgcolor_t)) :=
  (let* r := highlight_sgs cg ColorGen.colorvargen_new sgs in
   run (if delay_refresh then ret tt else modify refresh_view) in
   ret r)%M.

(** [void highlight_similar_selection(bool delay_refresh)] *)
Definition highlight_similar_selection (delay_refresh : bool)
  (v : gsgraphview_t) : gsgraphview_t :=
  if bool_decide (selected_nodes v = ∅) then v
  else msg (STR_GS_MSG +:+ "Not implemented yet!\n") [] v.

(** The node groups of [sg], each paired with the text update of
    [edit_sg_description]. *)
Fixpoint retitle_groups (title : string) (ngl : list nodegroup_t)
  (v : gsgraphview_t) : gsgraphview_t :=
  match ngl with
  | [] => v
  | g :: ngl' =>
      let '(ngid, v1) := get_ng_id (Some g) v in
      if decide (ngid = -1) then retitle_groups title ngl' v1
      else match get_node ngid v1 with
           | None => retitle_groups title ngl' v1
           | Some gnode =>
               retitle_groups title ngl'
                 (set_node_map
                    (<[ngid := {| text := title; hint := hint gnode |}]>
                       (node_map v1)) v1)
           end
  end.

(** [bool edit_sg_description(psupergroup_t sg)] *)
Definition edit_sg_description (psg : psupergroup_t) : V bool := λ v,
  match psg with
  | None => Undef "edit_sg_description: null super group dereferenced" v
  | Some sg0 =>
      let v1 := emit (AskStr "Please enter new description") v in
      match askstr E (get_display_name E sg0 (Some STR_DUMMY_SG_NAME))
              "Please enter new description" with
      | None => Ret false v1
      | Some desc =>
          let sg1 := {| sg_addr := sg_addr sg0; id := id sg0; name := desc;
                        is_synthetic := is_synthetic sg0;
                        groups := groups sg0 |} in
          let v2 := set_gm (set_sg_name E sg0 desc (gm v1)) v1 in
          let v3 := retitle_groups (get_display_name E sg1 None)
                      (groups sg1) v2 in
          Ret true (if manual_refresh_mode (options v3) then v3
                    else refresh_view v3)
      end
  end.

(** The search loop of [find_and_highlight_nodes]: [found] is the local
    [groups], the node group list of the last matching super group. *)
Fixpoint find_loop (pattern : string) (cg : ColorGen.colorgen_t)
  (found : option (list nodegroup_t)) (sgs : list supergroup_t)
  : V (option (list nodegroup_t)) :=
  match sgs with
  | [] => ret found
  | sg0 :: sgs' =>
      if stristr E (name sg0) pattern || stristr E (id sg0) pattern
      then (let* r := highlight_nodes_ngl (groups sg0) cg true in
            find_loop pattern r.1 (Some (groups sg0)) sgs')%M
      else find_loop pattern cg found sgs'
  end.

(** [void find_and_highlight_nodes(bool delay_refresh)] *)
Definition find_and_highlight_nodes (delay_refresh : bool) : V unit := λ v,
  let v1 := emit (AskStr STR_SEARCH_PROMPT) v in
  match askstr E (last_pattern v1) STR_SEARCH_PROMPT with
  | None => Ret tt v1
  | Some pattern =>
      (* Remember last search *)
      let v2 := set_last_pattern (qstrncpy (MAXSTR E) pattern) v1 in
      let v3 := clear_highlighting true v2 in
      match find_loop pattern DECL_CG None (path_sgl (gm v3)) v3 with
      | Undef why w => Undef why w
      | Ret found v4 =>
          let v5 := if delay_refresh then v4 else refresh_view v4 in
          match found with
          | None =>
              if delay_refresh
              then Undef "find_and_highlight_nodes: null group list dereferenced" v5
              else Ret tt v5
          | Some ngl =>
              let g := get_first_ng ngl in
              let '(n, v6) :=
                match g with
                | None => (-1, v5)
                | Some _ => get_ng_id g v5
                end in
              Ret tt (if decide (n ≠ -1) then emit (JumpToNode n) v6 else v6)
          end
      end
  end.

(** The "Combine nodes" branch of [on_menu]. *)
Definition on_menu_combine_ngs (v : gsgraphview_t) : gsgraphview_t :=
  if decide (cur_view_mode v ≠ gvrfm_combined_mode) then
    msg (STR_GS_MSG +:+ "Groupping is only available in combined mode\n") [] v
  else if decide (size (selected_nodes v) ≤ 1)%nat then
    msg (STR_GS_MSG +:+ "Not enough selected nodes\n") [] v
  else
    (* Make a nodegroup list off the selection *)
    let ngl := map (λ n, get_ng_from_ngid n v)
                 (keys_ascending (selected_nodes v)) in
    (* Combine the selected NGLs *)
    let v1 := emit (CallCombineNgl ngl) (set_gm (combine_ngl E ngl (gm v)) v) in
    (* Refresh the chooser *)
    let v2 := refresh_parent v1 in
    redo_layout (cur_view_mode v2) v2.

(** The "Edit group description" branch of [on_menu]. *)
Definition on_menu_edit_sg_desc : V unit := λ v,
  if bool_decide (cur_view_mode v ≠ gvrfm_combined_mode)
     || bool_decide (cur_node v = -1)
  then Ret tt (msg (STR_GS_MSG +:+
                    "Incorrect view mode or no nodes are selected\n") [] v)
  else
    match ngid_to_sg (cur_node v) v with
    | None => Ret tt v
    | Some sg0 =>
        match edit_sg_description (Some sg0) v with
        | Undef why w => Undef why w
        | Ret true w => Ret tt (refresh_parent w)
        | Ret false w => Ret tt w
        end
    end.

(** [void on_menu(int menu_id)] *)
Definition on_menu (i : Z) : V unit := λ v,
  if decide (i = idm_clear_sel (idm v)) then
    Ret tt (clear_selection (manual_refresh_mode (options v)) v)
  else if decide (i = idm_clear_highlight (idm v)) then
    Ret tt (clear_highlighting (manual_refresh_mode (options v)) v)
  else if decide (i = idm_set_sel_mode (idm v)) then
    Ret tt (set_sel_mode (negb (in_sel_mode v)) v)
  else if decide (i = idm_single_view_mode (idm v)) then
    Ret tt (redo_layout gvrfm_single_mode v)
  else if decide (i = idm_combined_view_mode (idm v)) then
    Ret tt (redo_layout gvrfm_combined_mode v)
  else if decide (i = idm_show_options (idm v)) then
    Ret tt v
  else if decide (i = idm_highlight_similar (idm v)) then
    Ret tt (highlight_similar_selection (manual_refresh_mode (options v)) v)
  else if decide (i = idm_find_highlight (idm v)) then
    find_and_highlight_nodes (manual_refresh_mode (options v)) v
  else if decide (i = idm_edit_sg_desc (idm v)) then
    on_menu_edit_sg_desc v
  else if decide (i = idm_combine_ngs (idm v)) then
    Ret tt (on_menu_combine_ngs v)
  else if decide (i = idm_test (idm v)) then
    Ret tt v
  else Ret tt v.

(** [static bool s_menu_item_callback(void *ud)] *)
Definition s_menu_item_callback (ud : Z) : V bool := λ v,
  match menu_ids v !! ud with
  | None => Ret false v
  | Some _ =>
      match on_menu ud v with
      | Undef why w => Undef why w
      | Ret _ w => Ret true w
      end
  end.

(** The [grcode_user_refresh] case of [gr_callback]. *)
Definition gr_user_refresh (mg : mutable_graph_t) (v : gsgraphview_t)
  : gr_result * gsgraphview_t :=
  if bool_decide (node_map v = ∅) || bool_decide (refresh_mode v ≠ gvrfm_soft)
  then
    (* Clear previous graph node data *)
    let mg1 := mg_clear mg in
    let v1 := reset_states v in
    (* Remember the current graph mode *)
    let v2 := set_cur_view_mode (refresh_mode v1) v1 in
    (* Switch to the desired mode *)
    let '(mg2, v3) :=
      if decide (refresh_mode v2 = gvrfm_single_mode)
      then switch_to_single_view_mode mg1 v2
      else if decide (refresh_mode v2 = gvrfm_combined_mode)
      then switch_to_combined_view_mode mg1 v2
      else (mg1, v2) in
    ({| result := 1; out_mg := Some mg2; out_text := None;
        out_bgcolor := None; out_hint := None |}, v3)
  else (gr_plain 1, v).

(** The [grcode_user_text] case of [gr_callback]. *)
Definition gr_user_text (n : Z) (want_bgcolor : bool) (v : gsgraphview_t)
  : gr_result :=
  match get_node n v with
  | None => gr_plain 0
  | Some gnode =>
      {| result := 1;
         out_mg := None;
         out_text := Some (text gnode);
         out_bgcolor :=
           if want_bgcolor then
             (* Selection has priority over highlight *)
             match selected_nodes v !! n with
             | Some c => Some c
             | None => highlighted_nodes v !! n
             end
           else None;
         out_hint := None |}
  end.

(** The [grcode_user_hint] case of [gr_callback]. *)
Definition gr_user_hint (mousenode : Z) (v : gsgraphview_t) : gr_result :=
  if decide (mousenode = -1) then gr_plain 0
  else match get_node mousenode v with
       | None => gr_plain 0
       | Some node_data =>
           {| result := 1; out_mg := None; out_text := None;
              out_bgcolor := None;
              out_hint := Some (if bool_decide (hint node_data = "")
                                then text node_data else hint node_data) |}
       end.

(** [int idaapi gr_callback(int code, va_list va)] *)
Definition gr_callback (code : grcode) (v : gsgraphview_t)
  : gr_result * gsgraphview_t :=
  match code with
  | grcode_clicked item1 =>
      (gr_plain 0,
       match item1 with
       | Some it =>
           if in_sel_mode v && is_node it
           then toggle_select_node (node it)
                  (manual_refresh_mode (options v)) v
           else v
       | None => v
       end)
  | grcode_changed_current n => (gr_plain 0, set_cur_node n v)
  | grcode_creating_group => (gr_plain 0, v)
  | grcode_deleting_group => (gr_plain 0, v)
  | grcode_changed_graph => (gr_plain 0, v)
  | grcode_user_refresh mg => gr_user_refresh mg v
  | grcode_user_text n want_bgcolor => (gr_user_text n want_bgcolor v, v)
  | grcode_user_hint mousenode => (gr_user_hint mousenode v, v)
  | grcode_destroyed =>
      let v1 := set_form None (set_gv None v) in
      let v2 := if parent_ref v1 then emit ClearParentRef v1 else v1 in
      (gr_plain 0, set_alive false v2)
  | grcode_other => (gr_plain 0, v)
  end.

(** What a new view finds in memory: the static members of the class and
    the values of the members that the constructor leaves unset. *)
Record ambient_t := {
  amb_menu_ids : gmap Z string;
  amb_menu_id : Z;
  amb_last_pattern : string;
  amb_view_mode : gvrefresh_modes_e;
  amb_idm : menu_items_t
}.

(** [static gsgraphview_t *show_graph(func_fc, gm, options)]: the two
    rounds of the loop are the two attempts at [create_tform].  The calls
    issued before the view exists are returned next to it. *)
Fixpoint show_graph_from (rounds : nat) (attempt : nat) (amb : ambient_t)
  (fc : qflow_chart_t) (g : groupman_t) (o : gsoptions_t)
  : list event * option gsgraphview_t :=
  match rounds with
  | O => ([], None)
  | S rounds' =>
      match create_tform E attempt with
      | Some form0 =>
          (* Create a graph object and assign the groupmanager instance *)
          let gsgv :=
            gsgraphview_new fc o g (amb_view_mode amb) (amb_idm amb)
              (amb_menu_ids amb) (amb_menu_id amb) (amb_last_pattern amb) in
          (* Create the graph control *)
          ([CreateTForm STR_GS_VIEW; CreateGraphViewer; OpenTForm],
           Some match create_graph_viewer E with
                | Some gv0 => init gv0 form0 gsgv
                | None => gsgv
                end)
      | None =>
          let '(evs, r) := show_graph_from rounds' (S attempt) amb fc g o in
          (CreateTForm STR_GS_VIEW :: CloseTForm :: evs, r)
      end
  end.

Definition show_graph : ambient_t → qflow_chart_t → groupman_t →
  gsoptions_t → list event * option gsgraphview_t :=
  show_graph_from 2 0.

End members.
End View.

(** ** The chooser ([class gschooser_t]) *)
Module Chooser.

Inductive gsch_line_type_t :=
  | chlt_gm
  | chlt_sg
  | chlt_ng.

(** [class gschooser_line_t]; the members [type], [gm], [sg], [ng], [ngl]
    carry the prefix [ln_] here. *)
Record gschooser_line_t := {
  ln_type : gsch_line_type_t;
  ln_gm : option positive;
  ln_sg : psupergroup_t;
  ln_ng : pnodegroup_t;
  ln_ngl : option (list nodegroup_t)
}.

(** The members of the class.  [gm] is a pointer: the address of a
    [groupman_t] or [None] for [NULL]; [heap] holds the [groupman_t]
    objects that are alive, so a pointer to an address outside [heap]
    dangles.  [gsgv] is the view the chooser points to. *)
Record gschooser_t := {
  ch_nodes : list gschooser_line_t;
  gsgv : option View.gsgraphview_t;
  gm : option positive;
  heap : gmap positive groupman_t;
  last_loaded_file : string;
  func_fc : qflow_chart_t;
  options : gsoptions_t;
  log : list event
}.

Definition set_ch_nodes (x : list gschooser_line_t) (v : gschooser_t) : gschooser_t :=
  {| ch_nodes := x; gsgv := gsgv v; gm := gm v; heap := heap v;
     last_loaded_file := last_loaded_file v; func_fc := func_fc v; options :=
     options v; log := log v |}.

Definition set_gsgv (x : option View.gsgraphview_t) (v : gschooser_t) : gschooser_t :=
  {| ch_nodes := ch_nodes v; gsgv := x; gm := gm v; heap := heap v;
     last_loaded_file := last_loaded_file v; func_fc := func_fc v; options :=
     options v; log := log v |}.

Definition set_gm (x : option positive) (v : gschooser_t) : gschooser_t :=
  {| ch_nodes := ch_nodes v; gsgv := gsgv v; gm := x; heap := heap v;
     last_loaded_file := last_loaded_file v; func_fc := func_fc v; options :=
     options v; log := log v |}.

Definition set_heap (x : gmap positive groupman_t) (v : gschooser_t) : gschooser_t :=
  {| ch_nodes := ch_nodes v; gsgv := gsgv v; gm := gm v; heap := x;
     last_loaded_file := last_loaded_file v; func_fc := func_fc v; options :=
     options v; log := log v |}.

Definition set_last_loaded_file (x : string) (v : gschooser_t) : gschooser_t :=
  {| ch_nodes := ch_nodes v; gsgv := gsgv v; gm := gm v; heap := heap v;
     last_loaded_file := x; func_fc := func_fc v; options := options v; log
     := log v |}.

Definition set_func_fc (x : qflow_chart_t) (v : gschooser_t) : gschooser_t :=
  {| ch_nodes := ch_nodes v; gsgv := gsgv v; gm := gm v; heap := heap v;
     last_loaded_file := last_loaded_file v; func_fc := x; options := options
     v; log := log v |}.

Definition set_options (x : gsoptions_t) (v : gschooser_t) : gschooser_t :=
  {| ch_nodes := ch_nodes v; gsgv := gsgv v; gm := gm v; heap := heap v;
     last_loaded_file := last_loaded_file v; func_fc := func_fc v; options :=
     x; log := log v |}.

Definition set_log (x : list event) (v : gschooser_t) : gschooser_t :=
  {| ch_nodes := ch_nodes v; gsgv := gsgv v; gm := gm v; heap := heap v;
     last_loaded_file := last_loaded_file v; func_fc := func_fc v; options :=
     options v; log := x |}.

Section members.
Context (E : env_t).

Abbreviation C := (M gschooser_t).

Definition emit (e : event) (c : gschooser_t) : gschooser_t :=
  set_log (log c ++ [e]) c.

Definition msg (fmt : string) (args : list msg_arg) :
  gschooser_t → gschooser_t := emit (Msg fmt args).

(** [delete gm;]  Deleting a null pointer does nothing; deleting an
    object that is no longer alive is undefined. *)
Definition delete_gm : C unit := λ c,
  match gm c with
  | None => Ret tt c
  | Some a =>
      match heap c !! a with
      | Some _ => Ret tt (set_heap (delete a (heap c)) c)
      | None => Undef "delete gm: the object was freed before" c
      end
  end.

(** [gm = new groupman_t();] *)
Definition new_gm : C unit := λ c,
  let a := fresh (dom (heap c)) in
  Ret tt (set_gm (Some a) (set_heap (<[a := groupman_new]> (heap c)) c)).

(** [gm->...]: the address and the object behind the pointer. *)
Definition deref_gm : C (positive * groupman_t) := λ c,
  match gm c with
  | None => Undef "gm: null pointer dereferenced" c
  | Some a =>
      match heap c !! a with
      | Some g => Ret (a, g) c
      | None => Undef "gm: dangling pointer dereferenced" c
      end
  end.

Definition store (a : positive) (g : groupman_t) : C unit :=
  modify (λ c, set_heap (<[a := g]> (heap c)) c).

(** The lines of one super group in [populate_chooser_lines]. *)
Definition sg_lines (a : positive) (sg0 : supergroup_t)
  : list gschooser_line_t :=
  {| ln_type := chlt_sg; ln_gm := Some a; ln_sg := Some sg0;
     ln_ng := None; ln_ngl := Some (groups sg0) |}
  :: map (λ g, {| ln_type := chlt_ng; ln_gm := Some a; ln_sg := Some sg0;
                  ln_ng := Some g; ln_ngl := Some (groups sg0) |})
       (groups sg0).

(** [void populate_chooser_lines()] *)
Definition populate_chooser_lines : C unit :=
  (let* r := deref_gm in
   modify (set_ch_nodes
     ({| ln_type := chlt_gm; ln_gm := Some r.1; ln_sg := None;
         ln_ng := None; ln_ngl := None |}
      :: concat (map (sg_lines r.1) (path_sgl r.2)))))%M.

(** [bool load_file(const char *filename)] *)
Definition load_file (filename : string) : C bool :=
  (* Delete the previous group manager *)
  (run delete_gm in
   run new_gm in
   (* Load a file and parse it *)
   let* r := deref_gm in
   run modify (emit (CallParse r.1 filename)) in
   let parsed := parse E filename false r.2 in
   run store r.1 parsed.2 in
   if negb parsed.1 then
     run modify (msg (STR_GS_MSG +:+
                      "Error: failed to parse group file '%s'\n")
                   [AStr filename]) in
     run delete_gm in
     ret false
   else
   (* Get an address from the parsed file *)
   match get_first_nd parsed.2 with
   | None =>
       run modify (msg (STR_GS_MSG +:+
                        "Invalid input file! No addresses defined\n") []) in
       ret false
   | Some nd =>
   (* Get related function *)
   match get_func E (start nd) with
   | None =>
       run modify
             (msg "Input file does not related to a defined function!\n" []) in
       ret false
   | Some f =>
   (* Build the flowchart once *)
   let* c := get_state in
   let chart := get_func_flowchart E (startEA f) (func_fc c) in
   run modify (set_func_fc chart.2) in
   if negb chart.1 then
     run modify (msg "Could not build function flow chart at %a\n"
                   [AInt (startEA f)]) in
     ret false
   else
   (* De-optimize the input file *)
   let sane := sanitize_groupman E (BADADDR E) parsed.2 chart.2 in
   run store r.1 sane.2 in
   run modify (emit (CallSanitize r.1 sane.1)) in
   run (if sane.1 then
          (* Now initialize the cache *)
          run modify (emit (CallInitializeLookups r.1)) in
          store r.1 (initialize_lookups E sane.2)
        else ret tt) in
   run populate_chooser_lines in
   ret true
   end end)%M.

(** [bool load_file_show_graph(const char *filename)]; [amb] is what the
    new view finds in memory. *)
Definition load_file_show_graph (amb : View.ambient_t) (filename : string)
  : C bool :=
  (* Retrieve the options *)
  (run modify (λ c, set_options (load_options (options c)) c) in
   run modify (λ c,
         if show_options_dialog_next_time (options c)
         then set_options (show_dialog (options c)) c else c) in
   (* Load the input file *)
   let* ok := load_file filename in
   if negb ok then ret false
   else
   (* Show the graph *)
   let* r := deref_gm in
   let* c := get_state in
   let shown := View.show_graph E amb (func_fc c) r.2 (options c) in
   run modify (λ c, set_gsgv shown.2 (set_log (log c ++ shown.1) c)) in
   match shown.2 with
   | None => ret false
   | Some v =>
       run modify (set_gsgv (Some (View.set_parent_ref true v))) in
       (* Remember last loaded file *)
       run modify (set_last_loaded_file filename) in
       ret true
   end)%M.

(** [bool reload_input_file()] *)
Definition reload_input_file (amb : View.ambient_t) : C bool := λ c,
  if bool_decide (last_loaded_file c ≠ "")
  then load_file_show_graph amb (last_loaded_file c) c
  else Ret false c.

(** A member function of the view called through [gsgv->]. *)
Definition in_view {A} (m : M View.gsgraphview_t A) : C A := λ c,
  match gsgv c with
  | None => Undef "gsgv: null pointer dereferenced" c
  | Some v =>
      match m v with
      | Ret a v' => Ret a (set_gsgv (Some v') c)
      | Undef why v' => Undef why (set_gsgv (Some v') c)
      end
  end.

(** [void highlight_node(uint32 n)].  The result lists, batch by batch,
    the colours that the call handed to the view. *)
Definition highlight_node (n : nat) : C (list (list bgcolor_t)) := λ c,
  match gsgv c with
  | None => Ret [] c
  | Some v =>
  match View.gv v with
  | None => Ret [] c
  | Some _ =>
  match ch_nodes c !! n with
  | None => Undef "ch_nodes[n]: index out of range" c
  | Some chn =>
      (* Clear previous highlight *)
      (run in_view (modify (View.clear_highlighting true)) in
       let cg := DECL_CG in
       let* colors :=
         match ln_type chn with
         | chlt_gm =>
             (* Get all super groups and mark them for selection *)
             let* r := deref_gm in
             let* h := in_view (View.highlight_nodes_sgl (path_sgl r.2)
                                  cg true) in
             ret h.2
         | chlt_ng =>
             (* Pick a color *)
             let '(cv, cg') := ColorGen.get_colorvar cg in
             let '(clr, _) := ColorGen.get_color_anyway cg' cv in
             run in_view (View.highlight_nodes_ng (ln_ng chn) clr true) in
             ret [[clr]]
         | chlt_sg =>
             (* Use one color for all the different node group list *)
             match ln_ngl chn with
             | None => undefined "chn.ngl: null pointer dereferenced"
             | Some ngl =>
                 let* h := in_view (View.highlight_nodes_ngl ngl cg true) in
                 ret [h.2]
             end
         end in
       run (λ c', if manual_refresh_mode (options c') then Ret tt c'
                  else in_view (modify View.refresh_view) c') in
       ret colors)%M c
  end end end.

(** [void on_select(const intvec_t &sel)]: [sel[0]-1] converted to
    [uint32]. *)
Definition on_select (sel : list Z) : C (list (list bgcolor_t)) :=
  match sel with
  | [] => undefined "sel[0]: index out of range"
  | s0 :: _ => highlight_node (Z.to_nat ((s0 - 1) `mod` 2 ^ 32))
  end.

(** [void close_graph()] *)
Definition close_graph (c : gschooser_t) : gschooser_t :=
  match gsgv c with
  | None => c
  | Some v =>
      match View.form v with
      | None => c
      | Some _ => emit CloseTForm c
      end
  end.

(** [void delete_singleton()].  [chi.flags] is 0 from [init_chi] on, so
    the chooser is never modal and the singleton, the chooser itself, is
    deleted. *)
Definition delete_singleton : C unit := modify (emit DeleteSingleton).

(** [void on_destroy()].  [chi.popup_names] is allocated by [init_chi] in
    the constructor and never reset, so it is not null here. *)
Definition on_destroy : C unit :=
  (run modify (emit QFreePopupNames) in
   (* Delete the group manager *)
   run delete_gm in
   run modify (set_gm None) in
   (* Close the associated graph *)
   run modify close_graph in
   delete_singleton)%M.

(** [uint32 on_get_size()] *)
Definition on_get_size (c : gschooser_t) : nat := length (ch_nodes c).

(** [uint32 on_delete(uint32 n)]: a reload; the result is [n]. *)
Definition on_delete (amb : View.ambient_t) (n : nat) : C nat :=
  (run reload_input_file amb in ret n)%M.

(** [void on_insert()]; [answer] is what [askfile_c] returns, [None] when
    the user cancels the dialog. *)
Definition on_insert (amb : View.ambient_t) (answer : option string)
  : C unit :=
  match answer with
  | None => ret tt
  | Some filename => (run load_file_show_graph amb filename in ret tt)%M
  end.

(** The index [n-1] of a line, computed in [uint32]. *)
Definition line_before (n : nat) : nat :=
  Z.to_nat ((Z.of_nat n - 1) `mod` 2 ^ 32).

(** [void on_enter(uint32 n)]; [is_sel] is the macro [IS_SEL] of
    kernwin.hpp. *)
Definition on_enter (is_sel : nat → bool) (n : nat) : C unit := λ c,
  match gsgv c with
  | None => Ret tt c
  | Some v =>
  match View.gv v with
  | None => Ret tt c
  | Some _ =>
  if negb (is_sel n) || bool_decide (length (ch_nodes c) < n)%nat
  then Ret tt c
  else
  match ch_nodes c !! line_before n with
  | None => Undef "ch_nodes[n-1]: index out of range" c
  | Some chn =>
      (* Get the selected node group or first node group in the super group *)
      let found : outcome gschooser_t pnodegroup_t :=
        match ln_type chn with
        | chlt_ng => Ret (ln_ng chn) c
        | chlt_sg =>
            match ln_sg chn with
            | None => Undef "chn.sg: null pointer dereferenced" c
            | Some sg0 => Ret (get_first_ng (groups sg0)) c
            end
        | chlt_gm => Ret None c
        end in
      match found with
      | Undef why c' => Undef why c'
      | Ret None c' => Ret tt c'
      | Ret (Some g) c' =>
          (* Select the current node *)
          let '(i, v1) := View.get_ng_id (Some g) v in
          Ret tt (set_gsgv
                    (Some (if decide (i ≠ (-1)%Z)
                           then View.emit (JumpToNode i) v1 else v1)) c')
      end
  end
  end end.

(** [void on_edit_line(uint32 n)] *)
Definition on_edit_line (is_sel : nat → bool) (n : nat) : C unit := λ c,
  match gsgv c with
  | None => Ret tt c
  | Some v =>
  if bool_decide (length (ch_nodes c) < n)%nat || negb (is_sel n)
  then Ret tt c
  else
  match ch_nodes c !! line_before n with
  | None => Undef "ch_nodes[n-1]: index out of range" c
  | Some chn =>
      match ln_type chn with
      | chlt_sg =>
          (run in_view (View.edit_sg_description E (ln_sg chn)) in ret tt)%M c
      | _ => Ret tt c
      end
  end
  end.

End members.
End Chooser.

(** ** A worked instance

    The scenario of the specification: a function with the four blocks
    A, B, C, D (A→B, A→C, B→D, C→D) and a definition file that groups
    {A, B} and {C, D} under the super group "path1".  [demo_env] answers
    the external calls for it; the definitions are used to run the model
    on concrete inputs. *)
Module Demo.
Local Open Scope Z_scope.

Definition ndA : nodedef_t := {| nid := 0; start := 0x1000; end_ea := 0x1010 |}.
Definition ndB : nodedef_t := {| nid := 1; start := 0x1010; end_ea := 0x1020 |}.
Definition ndC : nodedef_t := {| nid := 2; start := 0x1020; end_ea := 0x1030 |}.
Definition ndD : nodedef_t := {| nid := 3; start := 0x1030; end_ea := 0x1040 |}.

Definition ng1 : nodegroup_t := {| ng_addr := 11; ng_defs := [ndA; ndB] |}.
Definition ng2 : nodegroup_t := {| ng_addr := 12; ng_defs := [ndC; ndD] |}.

Definition path1 : supergroup_t :=
  {| sg_addr := 21; id := "path1"; name := "path1"; is_synthetic := false;
     groups := [ng1; ng2] |}.

(** The group manager as parsed from "f1.bbgroup", lookups not yet built. *)
Definition parsed_gm : groupman_t :=
  {| source_file := "f1.bbgroup";
     path_sgl := [path1];
     all_nds := list_to_map [(0, ndA); (1, ndB); (2, ndC); (3, ndD)];
     node_locs := ∅ |}.

(** A definition file that parses but defines no address. *)
Definition hollow_gm : groupman_t :=
  {| source_file := "hollow.bbgroup";
     path_sgl := [{| sg_addr := 22; id := "none"; name := "none";
                     is_synthetic := false; groups := [] |}];
     all_nds := ∅;
     node_locs := ∅ |}.

(** A definition file written for a function that has no blocks left. *)
Definition nd_old : nodedef_t :=
  {| nid := 0; start := 0x2000; end_ea := 0x2010 |}.

Definition stale_gm : groupman_t :=
  {| source_file := "stale.bbgroup";
     path_sgl := [{| sg_addr := 23; id := "old"; name := "old";
                     is_synthetic := false;
                     groups := [{| ng_addr := 13;
                                   ng_defs := [nd_old] |}] |}];
     all_nds := ∅;
     node_locs := ∅ |}.

Definition with_lookups (g : groupman_t) : groupman_t :=
  {| source_file := source_file g;
     path_sgl := path_sgl g;
     all_nds := all_nds g;
     node_locs :=
       list_to_map
         (concat (map (λ s, concat (map (λ n,
            map (λ d, (nid d, {| sg := s; ng := n |})) (ng_defs n))
            (groups s))) (path_sgl g))) |}.

Definition chart : qflow_chart_t :=
  {| fc_title := "f1";
     fc_blocks :=
       [ {| bb_start := 0x1000; bb_end := 0x1010; bb_succ := [1; 2] |};
         {| bb_start := 0x1010; bb_end := 0x1020; bb_succ := [3] |};
         {| bb_start := 0x1020; bb_end := 0x1030; bb_succ := [3] |};
         {| bb_start := 0x1030; bb_end := 0x1040; bb_succ := [] |} ] |}.

Definition no_blocks : qflow_chart_t := {| fc_title := "f2"; fc_blocks := [] |}.

Definition blank (t : string) : gnode_t := {| text := t; hint := "" |}.

Definition demo_env : env_t :=
  {| BADADDR := 0xFFFFFFFF;
     parse := λ file _ g,
       if bool_decide (file = "f1.bbgroup") then (true, parsed_gm)
       else if bool_decide (file = "hollow.bbgroup") then (true, hollow_gm)
       else if bool_decide (file = "stale.bbgroup") then (true, stale_gm)
       else (false, g);
     initialize_lookups := with_lookups;
     combine_ngl := λ _ g, g;
     get_display_name := λ s _, name s;
     set_sg_name := λ _ _ g, g;
     get_func_flowchart := λ ea _,
       if bool_decide (ea = 0x1000) then (true, chart) else (true, no_blocks);
     sanitize_groupman := λ _ g fc, (bool_decide (fc_blocks fc ≠ []), g);
     func_to_mgraph := λ _ mg nm fc _,
       ({| mg_nodes := [0; 1; 2; 3];
           mg_edges := [(0, 1); (0, 2); (1, 3); (2, 3)] |},
        <[0 := blank "A"]> (<[1 := blank "B"]> (<[2 := blank "C"]>
          (<[3 := blank "D"]> nm))));
     fc_to_combined_mg := λ _ g nm ids mg fc,
       (<[0 := blank "path1 (2)"]> (<[1 := blank "path1 (2)"]> nm),
        ids ++ [(ng1, 0); (ng2, 1)],
        {| mg_nodes := [0; 1]; mg_edges := [(0, 1)] |});
     get_func := λ ea,
       if bool_decide (0x1000 ≤ ea < 0x1040) then Some {| startEA := 0x1000 |}
       else if bool_decide (0x2000 ≤ ea < 0x2010)
       then Some {| startEA := 0x2000 |}
       else None;
     askstr := λ _ _, None;
     stristr := λ _ _, false;
     viewer_add_menu_item := λ _, true;
     create_tform := λ _, Some 1;
     create_graph_viewer := Some 2;
     MAXSTR := 1024 |}.

Definition demo_idm : View.menu_items_t :=
  {| View.idm_single_view_mode := 4;
     View.idm_combined_view_mode := 5;
     View.idm_clear_sel := 2;
     View.idm_clear_highlight := 3;
     View.idm_set_sel_mode := 11;
     View.idm_edit_sg_desc := 10;
     View.idm_test := 6;
     View.idm_highlight_similar := 7;
     View.idm_find_highlight := 8;
     View.idm_combine_ngs := 9;
     View.idm_show_options := 1 |}.

(** The view in combined mode, as it stands after the first refresh. *)
Definition combined_view : View.gsgraphview_t :=
  {| View.cur_node := 0;
     View.gv := Some 2;
     View.form := Some 1;
     View.gm := with_lookups parsed_gm;
     View.options := load_options
       {| append_node_id := false; manual_refresh_mode := false;
          highlight_syntethic_nodes := false;
          show_options_dialog_next_time := false;
          enlarge_group_name := false; debug := false;
          start_view_mode := gvrfm_soft |};
     View.node_map := {[ 0 := blank "path1 (2)"; 1 := blank "path1 (2)" ]};
     View.ng2id := [(ng1, 0); (ng2, 1)];
     View.func_fc := chart;
     View.refresh_mode := gvrfm_combined_mode;
     View.cur_view_mode := gvrfm_combined_mode;
     View.parent_ref := true;
     View.idm := demo_idm;
     View.in_sel_mode := true;
     View.highlighted_nodes := {[ 1 := 0xC0FFC0 ]};
     View.selected_nodes := {[ 0 := NODE_SEL_COLOR ]};
     View.menu_ids := ∅;
     View.menu_id := 11;
     View.last_pattern := "";
     View.alive := true;
     View.log := [] |}.

(** The same view switched to the ungrouped projection, one node selected. *)
Definition single_view : View.gsgraphview_t :=
  View.set_selected_nodes {[ 2 := NODE_SEL_COLOR ]}
    (View.set_highlighted_nodes ∅
      (View.set_cur_view_mode gvrfm_single_mode
        (View.set_refresh_mode gvrfm_single_mode
          (View.set_ng2id []
            (View.set_node_map
               {[ 0 := blank "A"; 1 := blank "B"; 2 := blank "C";
                  3 := blank "D" ]} combined_view))))).

(** A view whose selection names a node that has no node data. *)
Definition orphan_view : View.gsgraphview_t :=
  View.set_selected_nodes {[ 7 := NODE_SEL_COLOR ]} combined_view.

Definition demo_ambient : View.ambient_t :=
  {| View.amb_menu_ids := ∅;
     View.amb_menu_id := 0;
     View.amb_last_pattern := "";
     View.amb_view_mode := gvrfm_soft;
     View.amb_idm := demo_idm |}.

(** The chooser before the first load. *)
Definition fresh_chooser : Chooser.gschooser_t :=
  {| Chooser.ch_nodes := [];
     Chooser.gsgv := None;
     Chooser.gm := None;
     Chooser.heap := ∅;
     Chooser.last_loaded_file := "";
     Chooser.func_fc := no_blocks;
     Chooser.options :=
       {| append_node_id := false; manual_refresh_mode := false;
          highlight_syntethic_nodes := false;
          show_options_dialog_next_time := false;
          enlarge_group_name := false; debug := false;
          start_view_mode := gvrfm_soft |};
     Chooser.log := [] |}.

(** The chooser after "f1.bbgroup" was loaded and the viewer asked the
    new view for its first refresh. *)
Definition loaded_chooser : Chooser.gschooser_t :=
  final (Chooser.load_file_show_graph demo_env demo_ambient "f1.bbgroup"
           fresh_chooser).

Definition shown_chooser : Chooser.gschooser_t :=
  Chooser.set_gsgv
    ((λ v, (View.gr_callback demo_env
              (View.grcode_user_refresh {| mg_nodes := []; mg_edges := [] |})
              v).2) <$> Chooser.gsgv loaded_chooser)
    loaded_chooser.

(** The combined view with both of its nodes selected. *)
Definition both_selected : View.gsgraphview_t :=
  View.set_selected_nodes {[ 0 := NODE_SEL_COLOR; 1 := NODE_SEL_COLOR ]}
    combined_view.

(** The combined view with two of its menu items in the registry. *)
Definition menu_view : View.gsgraphview_t :=
  View.set_menu_ids {[ 9 := "Combine nodes"; 11 := "Start selection mode" ]}
    combined_view.

(** [demo_env] with a user who answers every prompt with "loop", and a
    buffer of four characters for the last pattern. *)
Definition asking_env : env_t :=
  {| BADADDR := BADADDR demo_env;
     parse := parse demo_env;
     initialize_lookups := initialize_lookups demo_env;
     combine_ngl := combine_ngl demo_env;
     get_display_name := get_display_name demo_env;
     set_sg_name := set_sg_name demo_env;
     get_func_flowchart := get_func_flowchart demo_env;
     sanitize_groupman := sanitize_groupman demo_env;
     func_to_mgraph := func_to_mgraph demo_env;
     fc_to_combined_mg := fc_to_combined_mg demo_env;
     get_func := get_func demo_env;
     askstr := λ _ _, Some "loop";
     stristr := stristr demo_env;
     viewer_add_menu_item := viewer_add_menu_item demo_env;
     create_tform := create_tform demo_env;
     create_graph_viewer := create_graph_viewer demo_env;
     MAXSTR := 4 |}.

(** A chooser that holds the group manager of "f1.bbgroup" at address 1,
    its four lines, and the combined view. *)
Definition picking_chooser : Chooser.gschooser_t :=
  {| Chooser.ch_nodes :=
       {| Chooser.ln_type := Chooser.chlt_gm; Chooser.ln_gm := Some 1%positive;
          Chooser.ln_sg := None; Chooser.ln_ng := None;
          Chooser.ln_ngl := None |}
       :: Chooser.sg_lines 1%positive path1;
     Chooser.gsgv := Some combined_view;
     Chooser.gm := Some 1%positive;
     Chooser.heap := {[ 1%positive := with_lookups parsed_gm ]};
     Chooser.last_loaded_file := "f1.bbgroup";
     Chooser.func_fc := chart;
     Chooser.options := View.options combined_view;
     Chooser.log := [] |}.

(** The view that [show_graph] opens for "f1.bbgroup". *)
Definition opened_view : View.gsgraphview_t :=
  View.init demo_env 2 1
    (View.gsgraphview_new chart (load_options (View.options combined_view))
       parsed_gm (View.amb_view_mode demo_ambient) (View.amb_idm demo_ambient)
       (View.amb_menu_ids demo_ambient) (View.amb_menu_id demo_ambient)
       (View.amb_last_pattern demo_ambient)).

End Demo.

(** * Vocabulary of the statements *)

(** ** The graph view *)

(** [on_menu(i)] is a combine request when the chain of comparisons in
    [on_menu] reaches the "Combine nodes" branch: [i] is the id of that
    item and of none of the items compared before it. *)
Definition is_combine_request (i : Z) (v : View.gsgraphview_t) : Prop :=
  i = View.idm_combine_ngs (View.idm v)
  ∧ i ≠ View.idm_clear_sel (View.idm v)
  ∧ i ≠ View.idm_clear_highlight (View.idm v)
  ∧ i ≠ View.idm_set_sel_mode (View.idm v)
  ∧ i ≠ View.idm_single_view_mode (View.idm v)
  ∧ i ≠ View.idm_combined_view_mode (View.idm v)
  ∧ i ≠ View.idm_show_options (View.idm v)
  ∧ i ≠ View.idm_highlight_similar (View.idm v)
  ∧ i ≠ View.idm_find_highlight (View.idm v)
  ∧ i ≠ View.idm_edit_sg_desc (View.idm v).

(** The two messages of the combine branch. *)
Definition MSG_ONLY_COMBINED : string :=
  STR_GS_MSG +:+ "Groupping is only available in combined mode\n".
Definition MSG_NOT_ENOUGH : string :=
  STR_GS_MSG +:+ "Not enough selected nodes\n".

(** The five members that describe the graph on display. *)
Definition all_cleared (v : View.gsgraphview_t) : Prop :=
  View.node_map v = ∅
  ∧ View.ng2id v = []
  ∧ View.highlighted_nodes v = ∅
  ∧ View.selected_nodes v = ∅
  ∧ View.cur_node v = (-1)%Z.

(** The node data that the graph builder of mode [rm] produces when it is
    handed empty maps and the cleared graph. *)
Definition built_from_empty (E : env_t) (rm : gvrefresh_modes_e)
  (mg : mutable_graph_t) (v : View.gsgraphview_t)
  : gmap Z gnode_t * ng2nid_t :=
  match rm with
  | gvrfm_single_mode =>
      ((func_to_mgraph E (BADADDR E) (mg_clear mg) ∅ (View.func_fc v)
          (append_node_id (View.options v))).2, [])
  | gvrfm_combined_mode =>
      (fc_to_combined_mg E (BADADDR E) (View.gm v) ∅ [] (mg_clear mg)
         (View.func_fc v)).1
  | gvrfm_soft => (∅, [])
  end.

(** The ids of the entries of [ng2id]. *)
Definition ng2id_ids (m : ng2nid_t) : list Z := map snd m.

(** The [nid -> NodeLocation] index of a group manager covers its
    hierarchy: every node definition of a node group of a super group is
    recorded with that super group and that node group (section 3 of the
    specification: "which SuperGroup and NodeGroup a given NodeDef id
    belongs to"). *)
Definition index_covers (g : groupman_t) : Prop :=
  Forall (λ s,
    Forall (λ n,
      Forall (λ d, node_locs g !! nid d = Some {| sg := s; ng := n |})
        (ng_defs n))
      (groups s))
    (path_sgl g).

(** The view that a rebuild starts from. *)
Definition rebuild_start (v : View.gsgraphview_t) : View.gsgraphview_t :=
  View.set_cur_view_mode (View.refresh_mode v) (View.reset_states v).

(** ** The chooser *)

(** The pointer [gm] is null or points to a live object. *)
Definition gm_valid (c : Chooser.gschooser_t) : Prop :=
  match Chooser.gm c with
  | None => True
  | Some a => is_Some (Chooser.heap c !! a)
  end.

(** The heap once [delete gm] has run. *)
Definition reclaimed (c : Chooser.gschooser_t) : gmap positive groupman_t :=
  match Chooser.gm c with
  | Some a => delete a (Chooser.heap c)
  | None => Chooser.heap c
  end.

(** The address that [new groupman_t()] returns in [load_file]. *)
Definition new_addr (c : Chooser.gschooser_t) : positive :=
  fresh (dom (reclaimed c)).

(** The calls that a member function added to the log of the chooser. *)
Definition new_events {A} (c : Chooser.gschooser_t)
  (o : outcome Chooser.gschooser_t A) : list event :=
  drop (length (Chooser.log c)) (Chooser.log (final o)).

(** In a sequence of calls, [initialize_lookups] is guarded when each of
    its calls comes right after a call of [sanitize_groupman] on the same
    object that returned [true]. *)
Definition lookups_guarded (evs : list event) : Prop :=
  ∀ l1 l2 a, evs = l1 ++ CallInitializeLookups a :: l2 →
             ∃ l0, l1 = l0 ++ [CallSanitize a true].

(** The same as a check that runs; [prev] is the call before [evs]. *)
Fixpoint guardedb (prev : option event) (evs : list event) : bool :=
  match evs with
  | [] => true
  | e :: evs' =>
      match e with
      | CallInitializeLookups a =>
          match prev with
          | Some (CallSanitize a' true) => bool_decide (a = a')
          | _ => false
          end
      | _ => true
      end && guardedb (Some e) evs'
  end.

Definition MSG_PARSE_FAILED : string :=
  STR_GS_MSG +:+ "Error: failed to parse group file '%s'\n".
Definition MSG_NO_ADDRESSES : string :=
  STR_GS_MSG +:+ "Invalid input file! No addresses defined\n".

(** The log of [c] grows by a guarded sequence of calls. *)
Definition grows_guarded (l l' : list event) : Prop :=
  ∃ evs, l' = l ++ evs ∧ guardedb None evs = true.

(** A member function is guarded when, from every state, the calls it
    logs form a guarded sequence. *)
Definition guarded_step {A} (m : M Chooser.gschooser_t A) : Prop :=
  ∀ c, grows_guarded (Chooser.log c) (Chooser.log (final (m c))).

(** ** The colour assignment *)

(** The sizes of the batches drawn for a list of super groups: one batch
    for each super group that is not skipped as synthetic. *)
Fixpoint kept_sizes (highlight_synthetic : bool) (sgs : list supergroup_t)
  : list nat :=
  match sgs with
  | [] => []
  | s :: sgs' =>
      if is_synthetic s && negb highlight_synthetic
      then kept_sizes highlight_synthetic sgs'
      else length (groups s) :: kept_sizes highlight_synthetic sgs'
  end.

(** The sizes of the batches that [highlight_node] draws for line [n] of
    the chooser: the node groups of every super group for the line of the
    file, the node groups of the super group for a super group line, a
    single colour for a node group line.  [None] when the view is not
    open or a pointer of the line is null. *)
Definition line_batches (c : Chooser.gschooser_t) (n : nat)
  : option (list nat) :=
  v ← Chooser.gsgv c;
  _ ← View.gv v;
  chn ← Chooser.ch_nodes c !! n;
  match Chooser.ln_type chn with
  | Chooser.chlt_gm =>
      a ← Chooser.gm c;
      g ← Chooser.heap c !! a;
      Some (kept_sizes (highlight_syntethic_nodes (View.options v))
              (path_sgl g))
  | Chooser.chlt_sg => ngl ← Chooser.ln_ngl chn; Some [length ngl]
  | Chooser.chlt_ng => _ ← Chooser.ln_ng chn; Some [1%nat]
  end.

(** ** Frames *)

(** [v'] differs from [v] in its log at most. *)
Definition only_logs (v v' : View.gsgraphview_t) : Prop :=
  v' = View.set_log (View.log v') v.

(** The refresh mode that an operation leaves: the one it found, or one
    of the two view modes. *)
Definition refresh_mode_stays_hard (v v' : View.gsgraphview_t) : Prop :=
  View.refresh_mode v' = View.refresh_mode v
  ∨ View.refresh_mode v' = gvrfm_single_mode
  ∨ View.refresh_mode v' = gvrfm_combined_mode.

(** A member function keeps the relation [R] when the state it ends in,
    returning or not, is related to the state it started from. *)
Definition keeps {S A} (R : S → S → Prop) (m : M S A) : Prop :=
  ∀ s, R s (final (m s)).

(** ** Loads *)

(** The four tests of [load_file] that abort the load: the file parses,
    it defines an address, the address lies in a function, and the
    flowchart of the function is built.  [fc0] is the flowchart member
    before the call. *)
Definition load_succeeds (E : env_t) (filename : string)
  (fc0 : qflow_chart_t) : bool :=
  (parse E filename false groupman_new).1
  && match get_first_nd (parse E filename false groupman_new).2 with
     | None => false
     | Some nd =>
         match get_func E (start nd) with
         | None => false
         | Some f => (get_func_flowchart E (startEA f) fc0).1
         end
     end.

(** The lines that [populate_chooser_lines] builds for the group manager
    [g] at address [a]. *)
Definition chooser_lines (a : positive) (g : groupman_t)
  : list Chooser.gschooser_line_t :=
  {| Chooser.ln_type := Chooser.chlt_gm; Chooser.ln_gm := Some a;
     Chooser.ln_sg := None; Chooser.ln_ng := None; Chooser.ln_ngl := None |}
  :: concat (map (Chooser.sg_lines a) (path_sgl g)).

(** The chooser once the viewer has asked its view, the one behind
    [gsgv], for a refresh of the graph [mg]. *)
Definition first_refresh (E : env_t) (mg : mutable_graph_t)
  (c : Chooser.gschooser_t) : Chooser.gschooser_t :=
  Chooser.set_gsgv
    ((λ v, (View.gr_callback E (View.grcode_user_refresh mg) v).2)
       <$> Chooser.gsgv c) c.

(** A line carries the pointers that its type promises. *)
Definition line_well_formed (chn : Chooser.gschooser_line_t) : Prop :=
  match Chooser.ln_type chn with
  | Chooser.chlt_gm => True
  | Chooser.chlt_sg =>
      ∃ s, Chooser.ln_sg chn = Some s ∧ Chooser.ln_ngl chn = Some (groups s)
  | Chooser.chlt_ng =>
      ∃ s g, Chooser.ln_sg chn = Some s ∧ Chooser.ln_ng chn = Some g
             ∧ g ∈ groups s ∧ Chooser.ln_ngl chn = Some (groups s)
  end.

(** ** The context menu *)

(** [v'] differs from [v] at most in the menu registry, the menu counter,
    the menu ids of the view, the selection mode flag and the log. *)
Definition menu_frame (v v' : View.gsgraphview_t) : Prop :=
  v' = View.set_menu_ids (View.menu_ids v')
         (View.set_menu_id (View.menu_id v')
            (View.set_idm (View.idm v')
               (View.set_in_sel_mode (View.in_sel_mode v')
                  (View.set_log (View.log v') v)))).

(** The registry of [add_menu] holds ids that the counter has handed out:
    the counter starts at 0, it is an [int], and an id is the counter
    after an increment. *)
Definition menu_registry_ok (v : View.gsgraphview_t) : Prop :=
  (0 ≤ View.menu_id v ≤ INT_MAX)%Z
  ∧ map_Forall (λ i _, (0 < i ≤ View.menu_id v)%Z) (View.menu_ids v).

#[global] Instance menu_registry_ok_dec v : Decision (menu_registry_ok v).
Proof. unfold menu_registry_ok. apply _. Defined.

(** The menu ids that [init] assigns when the counter stands at [k] and
    every item is accepted by the viewer. *)
Definition init_menu_items (k : Z) : View.menu_items_t :=
  {| View.idm_show_options := k + 1;
     View.idm_clear_sel := k + 2;
     View.idm_clear_highlight := k + 3;
     View.idm_single_view_mode := k + 4;
     View.idm_combined_view_mode := k + 5;
     View.idm_test := k + 6;
     View.idm_highlight_similar := k + 7;
     View.idm_find_highlight := k + 8;
     View.idm_combine_ngs := k + 9;
     View.idm_edit_sg_desc := k + 10;
     View.idm_set_sel_mode := k + 11 |}%Z.

(** * Properties of the graph view *)

Section view_properties.
Import View.
Context (E : env_t).
Local Open Scope Z_scope.

(** *** Selection *)

Lemma selected_nodes_refresh_view v :
  selected_nodes (refresh_view v) = selected_nodes v.
Proof. reflexivity. Qed.

Lemma selected_nodes_msg fmt args v :
  selected_nodes (msg fmt args v) = selected_nodes v.
Proof. reflexivity. Qed.

(** One toggle on a node that is not selected inserts it. *)
Lemma toggle_select_node_fresh v n d :
  selected_nodes v !! n = None →
  selected_nodes (toggle_select_node n d v)
  = <[n := NODE_SEL_COLOR]> (selected_nodes v).
Proof.
  intros Hn. unfold toggle_select_node. rewrite Hn. by destruct d.
Qed.

(** One toggle on a selected node erases it. *)
Lemma toggle_select_node_present v n d c :
  selected_nodes v !! n = Some c →
  selected_nodes (toggle_select_node n d v) = delete n (selected_nodes v).
Proof.
  intros Hn. unfold toggle_select_node. rewrite Hn. by destruct d.
Qed.

(** A toggle leaves the entries of the other nodes alone. *)
Lemma toggle_select_node_other v n m d :
  m ≠ n →
  selected_nodes (toggle_select_node n d v) !! m = selected_nodes v !! m.
Proof.
  intros Hm. destruct (selected_nodes v !! n) as [c|] eqn:Hn.
  - rewrite (toggle_select_node_present _ _ _ c Hn).
    by rewrite lookup_delete_ne.
  - rewrite (toggle_select_node_fresh _ _ _ Hn).
    by rewrite lookup_insert_ne.
Qed.

(** C9: for a node id that is not selected, the first
    [toggle_select_node] adds it with the colour [NODE_SEL_COLOR], the
    second one removes it and leaves the selected set as it was, and
    neither call changes the entry of another node. *)
Theorem toggle_select_node_twice v n d1 d2 :
  selected_nodes v !! n = None →
  let v1 := toggle_select_node n d1 v in
  let v2 := toggle_select_node n d2 v1 in
  selected_nodes v1 !! n = Some NODE_SEL_COLOR
  ∧ selected_nodes v1 = <[n := NODE_SEL_COLOR]> (selected_nodes v)
  ∧ selected_nodes v2 !! n = None
  ∧ selected_nodes v2 = selected_nodes v
  ∧ ∀ m, m ≠ n →
      selected_nodes v1 !! m = selected_nodes v !! m
      ∧ selected_nodes v2 !! m = selected_nodes v !! m.
Proof.
  intros Hn v1 v2.
  assert (H1 : selected_nodes v1 = <[n := NODE_SEL_COLOR]> (selected_nodes v))
    by by apply toggle_select_node_fresh.
  assert (H1n : selected_nodes v1 !! n = Some NODE_SEL_COLOR)
    by (rewrite H1; apply lookup_insert_eq).
  assert (H2 : selected_nodes v2 = selected_nodes v).
  { unfold v2. rewrite (toggle_select_node_present _ _ _ _ H1n), H1.
    by apply delete_insert_id. }
  split; [done|]. split; [done|]. split; [by rewrite H2|]. split; [done|].
  intros m Hm. split.
  - by apply toggle_select_node_other.
  - unfold v2, v1. by rewrite !toggle_select_node_other.
Qed.


(** *** Reverse lookups *)

(** [get_ng_from_ngid] returns a group that [ng2id] maps to the id. *)
Lemma ng_with_id_sound ngid m g :
  ng_with_id ngid m = Some g → (g, ngid) ∈ m.
Proof.
  induction m as [|[g' i] m IH]; simpl; [done|].
  case_decide as Hi.
  - intros [= ->]. subst. apply list_elem_of_here.
  - intros Hg. apply list_elem_of_further. by apply IH.
Qed.

(** It fails only when no group carries the id. *)
Lemma ng_with_id_none ngid m :
  ng_with_id ngid m = None ↔ ∀ g, (g, ngid) ∉ m.
Proof.
  induction m as [|[g' i] m IH]; simpl.
  - split; [|done]. intros _ g Hg. by apply not_elem_of_nil in Hg.
  - case_decide as Hi.
    + subst. split; [done|]. intros Hno. destruct (Hno g'). left.
    + rewrite IH. split.
      * intros Hno g Hg. apply elem_of_cons in Hg as [[= -> ->]|Hg]; [done|].
        by apply (Hno g).
      * intros Hno g Hg. apply (Hno g). by right.
Qed.

(** The first entry with the id is the one found. *)
Lemma ng_with_id_first ngid l1 g l2 :
  ngid ∉ ng2id_ids l1 →
  ng_with_id ngid (l1 ++ (g, ngid) :: l2) = Some g.
Proof.
  induction l1 as [|[g' i] l1 IH]; simpl; intros Hl1.
  - by rewrite decide_True.
  - rewrite decide_False.
    + apply IH. intros Hin. apply Hl1. by right.
    + intros ->. apply Hl1. left.
Qed.

(** C10: [ngid_to_sg] does not read its argument.  For any two arguments
    it returns the same result: the super group that the group manager
    records for the first node definition of the node group that [ng2id]
    maps to [cur_node], and [NULL] when one of the three lookups fails,
    as it does when [ng2id] has no entry for [cur_node].  When the entry
    for [cur_node] is a non-empty node group of a super group of the
    group manager, and the index of the group manager covers its
    hierarchy, the result is that super group: the one that contains the
    node group. *)
Theorem ngid_to_sg_ignores_argument v (ngid1 ngid2 : Z) :
  ngid_to_sg ngid1 v = ngid_to_sg ngid2 v
  ∧ ngid_to_sg ngid1 v
    = (g ← get_ng_from_ngid (cur_node v) v;
       nd ← get_first_node g;
       loc ← find_nodeid_loc (gm v) (nid nd);
       Some (sg loc))
  ∧ (cur_node v ∉ ng2id_ids (ng2id v) → ngid_to_sg ngid1 v = None)
  ∧ ∀ l1 l2 g s0,
      ng2id v = l1 ++ (g, cur_node v) :: l2 →
      cur_node v ∉ ng2id_ids l1 →
      index_covers (gm v) →
      s0 ∈ path_sgl (gm v) → g ∈ groups s0 → ng_defs g ≠ [] →
      ngid_to_sg ngid1 v = Some s0 ∧ ngid_to_sg ngid2 v = Some s0.
Proof.
  split; [reflexivity|]. split; [|split].
  - unfold ngid_to_sg.
    destruct (get_ng_from_ngid (cur_node v) v) as [g|]; simpl; [|done].
    destruct (get_first_node g) as [nd|]; simpl; [|done].
    by destruct (find_nodeid_loc (gm v) (nid nd)).
  - intros Hno. unfold ngid_to_sg, get_ng_from_ngid.
    destruct (ng_with_id (cur_node v) (ng2id v)) as [g|] eqn:Hg; [|done].
    destruct Hno. apply ng_with_id_sound in Hg. unfold ng2id_ids.
    apply list_elem_of_fmap. by exists (g, cur_node v).
  - intros l1 l2 g s0 Hids Hl1 Hindex Hs0 Hg Hdefs.
    assert (Hrun : ∀ ngid, ngid_to_sg ngid v = Some s0); [|by split].
    intros ngid. unfold ngid_to_sg, get_ng_from_ngid.
    rewrite Hids, (ng_with_id_first _ _ _ _ Hl1).
    unfold get_first_node, find_nodeid_loc.
    destruct (ng_defs g) as [|nd defs] eqn:Hnd; [done|]. simpl.
    unfold index_covers in Hindex.
    rewrite Forall_forall in Hindex. specialize (Hindex s0 Hs0).
    rewrite Forall_forall in Hindex. specialize (Hindex g Hg).
    rewrite Forall_forall in Hindex. rewrite (Hindex nd); [done|].
    rewrite Hnd. left.
Qed.

(** *** Background colour of a node *)

(** Without node data the callback hands nothing back. *)
Lemma user_text_without_node_data v n want :
  get_node n v = None →
  (gr_callback E (grcode_user_text n want) v).1 = gr_plain 0.
Proof. intros Hn. simpl. unfold gr_user_text. by rewrite Hn. Qed.

(** The callback changes nothing in the view. *)
Lemma user_text_keeps_view v n want :
  (gr_callback E (grcode_user_text n want) v).2 = v.
Proof. reflexivity. Qed.

(** C8 (as amended): when the renderer asks for the background colour of
    a node that has node data in [node_map], the callback returns 1 and
    the colour of the selection if the node is selected; otherwise the
    colour of the highlight if the node is highlighted; otherwise it sets
    no background colour. *)
Theorem user_text_selection_over_highlight v n gnode :
  get_node n v = Some gnode →
  let r := (gr_callback E (grcode_user_text n true) v).1 in
  result r = 1
  ∧ out_text r = Some (text gnode)
  ∧ (∀ c, selected_nodes v !! n = Some c → out_bgcolor r = Some c)
  ∧ (∀ c, selected_nodes v !! n = None → highlighted_nodes v !! n = Some c →
          out_bgcolor r = Some c)
  ∧ (selected_nodes v !! n = None → highlighted_nodes v !! n = None →
     out_bgcolor r = None).
Proof.
  intros Hn. simpl. unfold gr_user_text. rewrite Hn. simpl.
  repeat split.
  - by intros c ->.
  - by intros c -> ->.
  - by intros -> ->.
Qed.


End view_properties.

Lemma ngid_to_sg_ignores_argument_witness :
  View.ngid_to_sg 1 Demo.combined_view = Some Demo.path1
  ∧ View.ngid_to_sg 42 Demo.combined_view = Some Demo.path1.
Proof.
  destruct (ngid_to_sg_ignores_argument Demo.combined_view 1%Z 42%Z)
    as (_ & _ & _ & Hfound).
  apply (Hfound [] [(Demo.ng2, 1%Z)] Demo.ng1 Demo.path1).
  - reflexivity.
  - apply not_elem_of_nil.
  - repeat constructor.
  - left.
  - left.
  - discriminate.
Defined.

Lemma toggle_select_node_twice_witness :
  View.selected_nodes Demo.combined_view !! 1%Z = None
  ∧ View.selected_nodes
      (View.toggle_select_node 1%Z true
         (View.toggle_select_node 1%Z true Demo.combined_view))
    = View.selected_nodes Demo.combined_view.
Proof.
  split; [reflexivity|].
  apply (toggle_select_node_twice Demo.combined_view 1%Z true true).
  reflexivity.
Defined.

Lemma user_text_selection_over_highlight_witness :
  View.get_node 0%Z Demo.combined_view = Some (Demo.blank "path1 (2)")
  ∧ View.out_bgcolor
      (View.gr_callback Demo.demo_env (View.grcode_user_text 0 true)
         Demo.combined_view).1
    = Some NODE_SEL_COLOR.
Proof.
  split; [reflexivity|].
  destruct (user_text_selection_over_highlight Demo.demo_env
              Demo.combined_view 0%Z
              (Demo.blank "path1 (2)") eq_refl) as (_ & _ & Hsel & _).
  apply Hsel. reflexivity.
Defined.

(** C8, as stated, fails for a node id without node data: node 7 is in
    the selected set of [Demo.orphan_view], yet the callback returns 0 and
    sets no colour. *)
Lemma user_text_orphan_node_counterexample :
  View.selected_nodes Demo.orphan_view !! 7%Z = Some NODE_SEL_COLOR
  ∧ View.out_bgcolor
      (View.gr_callback Demo.demo_env (View.grcode_user_text 7 true)
         Demo.orphan_view).1 = None
  ∧ View.result
      (View.gr_callback Demo.demo_env (View.grcode_user_text 7 true)
         Demo.orphan_view).1 = 0%Z.
Proof. by vm_compute. Qed.

Section menu_properties.
Import View.
Context (E : env_t).
Local Open Scope Z_scope.

(** *** Combine requests *)

(** A combine request runs the "Combine nodes" branch and nothing else. *)
Lemma on_menu_combine_request v i :
  is_combine_request i v →
  on_menu E i v = Ret tt (on_menu_combine_ngs E v).
Proof.
  intros (Hi & H1 & H2 & H3 & H4 & H5 & H6 & H7 & H8 & H9).
  unfold on_menu. repeat case_decide; congruence.
Qed.

(** A rejected request adds one message and changes nothing else. *)
Lemma msg_only_logs text v :
  gm (msg text [] v) = gm v
  ∧ log (msg text [] v) = log v ++ [Msg text []]
  ∧ selected_nodes (msg text [] v) = selected_nodes v
  ∧ ng2id (msg text [] v) = ng2id v
  ∧ refresh_mode (msg text [] v) = refresh_mode v.
Proof. done. Qed.

(** The first test of the branch: outside the combined mode the branch
    prints its message and returns. *)
Lemma on_menu_combine_ngs_wrong_mode v :
  cur_view_mode v ≠ gvrfm_combined_mode →
  on_menu_combine_ngs E v = msg MSG_ONLY_COMBINED [] v.
Proof. intros Hmode. unfold on_menu_combine_ngs. by case_decide. Qed.

(** C6: a combine request issued while the view mode is not the combined
    one is rejected: the message "Groupping is only available in combined
    mode" is printed, [combine_ngl] is not called and the group manager is
    as before; the view changes in its log only. *)
Theorem combine_rejected_outside_combined_mode v i :
  is_combine_request i v →
  cur_view_mode v ≠ gvrfm_combined_mode →
  on_menu E i v = Ret tt (msg MSG_ONLY_COMBINED [] v)
  ∧ gm (final (on_menu E i v)) = gm v
  ∧ log (final (on_menu E i v)) = log v ++ [Msg MSG_ONLY_COMBINED []].
Proof.
  intros Hreq Hmode. rewrite (on_menu_combine_request _ _ Hreq).
  by rewrite (on_menu_combine_ngs_wrong_mode _ Hmode).
Qed.

(** The converse reading of C6: when a combine request does call
    [combine_ngl], the view is in combined mode. *)
Lemma combine_called_only_in_combined_mode v i ngl :
  is_combine_request i v →
  CallCombineNgl ngl ∈ drop (length (log v)) (log (final (on_menu E i v))) →
  cur_view_mode v = gvrfm_combined_mode.
Proof.
  intros Hreq Hin.
  destruct (decide (cur_view_mode v = gvrfm_combined_mode)) as [|Hmode]; [done|].
  rewrite (on_menu_combine_request _ _ Hreq) in Hin.
  rewrite (on_menu_combine_ngs_wrong_mode _ Hmode) in Hin.
  change (log (final (Ret tt (msg MSG_ONLY_COMBINED [] v))))
    with (log v ++ [Msg MSG_ONLY_COMBINED []]) in Hin.
  rewrite drop_app_length in Hin.
  apply list_elem_of_singleton in Hin. discriminate.
Qed.

(** C2 (as amended): a combine request with fewer than two selected
    nodes is rejected: one message is printed, [combine_ngl] is not
    called and the group manager is as before.  The message is "Not
    enough selected nodes" when the view is in combined mode and
    "Groupping is only available in combined mode" otherwise. *)
Theorem combine_rejected_below_two_selected v i :
  is_combine_request i v →
  (size (selected_nodes v) < 2)%nat →
  let text := if decide (cur_view_mode v = gvrfm_combined_mode)
              then MSG_NOT_ENOUGH else MSG_ONLY_COMBINED in
  on_menu E i v = Ret tt (msg text [] v)
  ∧ gm (final (on_menu E i v)) = gm v
  ∧ log (final (on_menu E i v)) = log v ++ [Msg text []].
Proof.
  intros Hreq Hsize. rewrite (on_menu_combine_request _ _ Hreq).
  unfold on_menu_combine_ngs.
  destruct (decide (cur_view_mode v = gvrfm_combined_mode)) as [Hmode|Hmode].
  - rewrite decide_False by (intros Hne; by apply Hne).
    rewrite decide_True by lia. done.
  - by rewrite decide_True.
Qed.

(** With two or more selected nodes in combined mode the request goes
    through: [combine_ngl] receives the node groups of the selected ids
    in ascending order of the ids. *)
Lemma combine_accepted v i :
  is_combine_request i v →
  cur_view_mode v = gvrfm_combined_mode →
  (2 ≤ size (selected_nodes v))%nat →
  let ngl := map (λ n, get_ng_from_ngid n v)
               (keys_ascending (selected_nodes v)) in
  gm (final (on_menu E i v)) = combine_ngl E ngl (gm v)
  ∧ log (final (on_menu E i v))
    = log v ++ [CallCombineNgl ngl; RefreshChooser STR_GS_PANEL; RefreshViewer].
Proof.
  intros Hreq Hmode Hsize. rewrite (on_menu_combine_request _ _ Hreq).
  unfold on_menu_combine_ngs.
  rewrite decide_False by (intros Hne; by apply Hne).
  rewrite decide_False by lia. simpl.
  split; [done|]. by rewrite <- !app_assoc.
Qed.

End menu_properties.

Lemma combine_rejected_outside_combined_mode_witness :
  View.log (final (View.on_menu Demo.demo_env 9 Demo.single_view))
  = View.log Demo.single_view ++ [Msg MSG_ONLY_COMBINED []].
Proof.
  apply (combine_rejected_outside_combined_mode Demo.demo_env
           Demo.single_view 9).
  - vm_compute. repeat split; discriminate.
  - discriminate.
Defined.

Lemma combine_rejected_below_two_selected_witness :
  View.log (final (View.on_menu Demo.demo_env 9 Demo.combined_view))
  = View.log Demo.combined_view ++ [Msg MSG_NOT_ENOUGH []].
Proof.
  apply (combine_rejected_below_two_selected Demo.demo_env
           Demo.combined_view 9).
  - vm_compute. repeat split; discriminate.
  - vm_compute. lia.
Defined.

(** C2, as stated, fails outside the combined mode: with one selected
    node in the ungrouped view the request is rejected, but the message
    is the one about the view mode, not "Not enough selected nodes". *)
Lemma combine_single_mode_counterexample :
  is_combine_request 9 Demo.single_view
  ∧ (size (View.selected_nodes Demo.single_view) < 2)%nat
  ∧ View.log (final (View.on_menu Demo.demo_env 9 Demo.single_view))
    = [Msg MSG_ONLY_COMBINED []]
  ∧ Msg MSG_NOT_ENOUGH []
    ∉ View.log (final (View.on_menu Demo.demo_env 9 Demo.single_view)).
Proof.
  split; [vm_compute; repeat split; discriminate|].
  split; [vm_compute; lia|].
  split; [reflexivity|].
  intros Hin. vm_compute in Hin.
  apply list_elem_of_singleton in Hin. discriminate.
Qed.

Section refresh_properties.
Import View.
Context (E : env_t).
Local Open Scope Z_scope.

(** *** View mode transitions *)

(** [reset_states] empties the five members. *)
Lemma reset_states_all_cleared v : all_cleared (reset_states v).
Proof. by repeat split. Qed.

(** It touches nothing else. *)
Lemma reset_states_keeps v :
  refresh_mode (reset_states v) = refresh_mode v
  ∧ cur_view_mode (reset_states v) = cur_view_mode v
  ∧ gm (reset_states v) = gm v
  ∧ func_fc (reset_states v) = func_fc v
  ∧ options (reset_states v) = options v
  ∧ log (reset_states v) = log v.
Proof. by repeat split. Qed.

(** What the two switches leave in the view: the builder's node data, and
    the other members as they were. *)
Lemma switch_to_single_view_mode_fields mg v :
  let r := switch_to_single_view_mode E mg v in
  node_map r.2
  = (func_to_mgraph E (BADADDR E) mg (node_map v) (func_fc v)
       (append_node_id (options v))).2
  ∧ ng2id r.2 = ng2id v
  ∧ highlighted_nodes r.2 = highlighted_nodes v
  ∧ selected_nodes r.2 = selected_nodes v
  ∧ cur_node r.2 = cur_node v
  ∧ cur_view_mode r.2 = cur_view_mode v.
Proof.
  unfold switch_to_single_view_mode.
  change (node_map (msg _ _ v)) with (node_map v).
  change (func_fc (msg _ _ v)) with (func_fc v).
  change (options (msg _ _ v)) with (options v).
  by destruct (func_to_mgraph _ _ _ _ _ _).
Qed.

Lemma switch_to_combined_view_mode_fields mg v :
  let r := switch_to_combined_view_mode E mg v in
  (node_map r.2, ng2id r.2)
  = (fc_to_combined_mg E (BADADDR E) (gm v) (node_map v) (ng2id v) mg
       (func_fc v)).1
  ∧ highlighted_nodes r.2 = highlighted_nodes v
  ∧ selected_nodes r.2 = selected_nodes v
  ∧ cur_node r.2 = cur_node v
  ∧ cur_view_mode r.2 = cur_view_mode v.
Proof.
  unfold switch_to_combined_view_mode.
  change (node_map (msg _ _ v)) with (node_map v).
  change (ng2id (msg _ _ v)) with (ng2id v).
  change (func_fc (msg _ _ v)) with (func_fc v).
  change (gm (msg _ _ v)) with (gm v).
  by destruct (fc_to_combined_mg _ _ _ _ _ _ _) as [[? ?] ?].
Qed.

Lemma rebuild_start_fields v :
  node_map (rebuild_start v) = ∅
  ∧ ng2id (rebuild_start v) = []
  ∧ highlighted_nodes (rebuild_start v) = ∅
  ∧ selected_nodes (rebuild_start v) = ∅
  ∧ cur_node (rebuild_start v) = -1
  ∧ cur_view_mode (rebuild_start v) = refresh_mode v
  ∧ refresh_mode (rebuild_start v) = refresh_mode v
  ∧ gm (rebuild_start v) = gm v
  ∧ func_fc (rebuild_start v) = func_fc v
  ∧ options (rebuild_start v) = options v.
Proof. by repeat split. Qed.

(** A rebuild is computed from the reset view alone. *)
Lemma gr_user_refresh_rebuild mg v :
  refresh_mode v ≠ gvrfm_soft →
  gr_user_refresh E mg v
  = let r := if decide (refresh_mode v = gvrfm_single_mode)
             then switch_to_single_view_mode E (mg_clear mg) (rebuild_start v)
             else switch_to_combined_view_mode E (mg_clear mg)
                    (rebuild_start v) in
    ({| result := 1; out_mg := Some r.1; out_text := None;
        out_bgcolor := None; out_hint := None |}, r.2).
Proof.
  intros Hmode. unfold gr_user_refresh.
  rewrite (bool_decide_eq_true_2 _ Hmode), orb_true_r.
  change (refresh_mode (set_cur_view_mode _ (reset_states v)))
    with (refresh_mode v).
  change (refresh_mode (reset_states v)) with (refresh_mode v).
  fold (rebuild_start v).
  destruct (refresh_mode v) eqn:Hrm; [done| |].
  - rewrite !decide_True by done.
    by destruct (switch_to_single_view_mode _ _ _).
  - rewrite decide_False by done. rewrite decide_True by done.
    rewrite decide_False by done.
    by destruct (switch_to_combined_view_mode _ _ _).
Qed.

(** C1: when the viewer asks for a refresh and the requested mode is the
    single or the combined one, [reset_states] empties the node map, the
    node group ids, the highlighted and the selected nodes and the current
    node before the graph builder runs: the builder starts from empty
    maps, the view that results has no highlighted and no selected node
    and no current node, and nothing of it depends on what the five
    members held before. *)
Theorem mode_switch_resets_states v mg :
  refresh_mode v ≠ gvrfm_soft →
  let v' := (gr_callback E (grcode_user_refresh mg) v).2 in
  all_cleared (reset_states v)
  ∧ cur_view_mode v' = refresh_mode v
  ∧ highlighted_nodes v' = ∅
  ∧ selected_nodes v' = ∅
  ∧ cur_node v' = -1
  ∧ (node_map v', ng2id v') = built_from_empty E (refresh_mode v) mg v
  ∧ ∀ w, reset_states w = reset_states v →
         gr_callback E (grcode_user_refresh mg) w
         = gr_callback E (grcode_user_refresh mg) v.
Proof.
  intros Hmode v'. split; [apply reset_states_all_cleared|].
  assert (Hv' : v' = (gr_user_refresh E mg v).2) by reflexivity.
  rewrite (gr_user_refresh_rebuild mg v Hmode) in Hv'.
  cbv zeta in Hv'. cbn [snd] in Hv'.
  destruct (rebuild_start_fields v)
    as (Hnm & Hids & Hhl & Hsel & Hcur & Hcvm & _ & Hgm & Hfc & Hopt).
  assert (Hfields :
    cur_view_mode v' = refresh_mode v ∧ highlighted_nodes v' = ∅
    ∧ selected_nodes v' = ∅ ∧ cur_node v' = -1
    ∧ (node_map v', ng2id v') = built_from_empty E (refresh_mode v) mg v).
  { rewrite Hv'. clear Hv'. cbv zeta. unfold built_from_empty.
    destruct (refresh_mode v) eqn:Hrm; [done| |].
    - rewrite decide_True by done.
      destruct (switch_to_single_view_mode_fields (mg_clear mg)
                  (rebuild_start v)) as (-> & -> & -> & -> & -> & ->).
      by rewrite Hnm, Hids, Hhl, Hsel, Hcur, Hcvm, Hfc, Hopt.
    - rewrite decide_False by done.
      destruct (switch_to_combined_view_mode_fields (mg_clear mg)
                  (rebuild_start v)) as (-> & -> & -> & -> & ->).
      by rewrite Hnm, Hids, Hhl, Hsel, Hcur, Hcvm, Hfc, Hgm. }
  destruct Hfields as (? & ? & ? & ? & ?). repeat (split; [done|]).
  intros w Hw.
  assert (Hrm : refresh_mode w = refresh_mode v).
  { change (refresh_mode (reset_states w) = refresh_mode (reset_states v)).
    by rewrite Hw. }
  change (gr_user_refresh E mg w = gr_user_refresh E mg v).
  rewrite !gr_user_refresh_rebuild by congruence.
  unfold rebuild_start. by rewrite Hw, Hrm.
Qed.

End refresh_properties.

Lemma mode_switch_resets_states_witness :
  View.refresh_mode (View.redo_layout gvrfm_single_mode Demo.combined_view)
  ≠ gvrfm_soft
  ∧ View.selected_nodes
      (View.gr_callback Demo.demo_env
         (View.grcode_user_refresh {| mg_nodes := [0; 1]%Z;
                                      mg_edges := [(0, 1)%Z] |})
         (View.redo_layout gvrfm_single_mode Demo.combined_view)).2 = ∅.
Proof.
  split; [discriminate|].
  destruct (mode_switch_resets_states Demo.demo_env
              (View.redo_layout gvrfm_single_mode Demo.combined_view)
              {| mg_nodes := [0; 1]%Z; mg_edges := [(0, 1)%Z] |})
    as (_ & _ & _ & Hsel & _); [discriminate|].
  exact Hsel.
Defined.

Section window_properties.
Import View.
Context (E : env_t).

(** *** Menu set-up

    Registering the menu items touches the menu members and the log; the
    group manager that the view points to stays the one it was given. *)

Lemma add_menu_gm label v : gm (add_menu E label v).2 = gm v.
Proof.
  unfold add_menu. destruct (bool_decide (label = "-")); [done|].
  by destruct (viewer_add_menu_item E label).
Qed.

Lemma del_menu_gm i v : gm (del_menu i v) = gm v.
Proof.
  unfold del_menu. case_decide; [done|]. by destruct (menu_ids v !! i).
Qed.

Lemma set_sel_mode_gm b v : gm (set_sel_mode E b v) = gm v.
Proof.
  unfold set_sel_mode.
  set (v1 := if decide _ then _ else _).
  assert (Hv1 : gm v1 = gm v).
  { unfold v1. case_decide; [apply del_menu_gm|done]. }
  pose proof (add_menu_gm
                (if b then "End selection mode" else "Start selection mode")
                v1) as H.
  destruct (add_menu E _ v1) as [i v2]. simpl in *. congruence.
Qed.

Lemma init_gm gv0 form0 v : gm (init E gv0 form0 v) = gm v.
Proof.
  unfold init.
  repeat match goal with
  | |- context [add_menu E ?l ?w] =>
      let H := fresh "H" in
      pose proof (add_menu_gm l w) as H;
      destruct (add_menu E l w) as [? ?]; simpl in H
  end.
  rewrite set_sel_mode_gm. simpl. congruence.
Qed.

End window_properties.

(** * Properties of the chooser *)

Section chooser_properties.
Import Chooser.
Context (E : env_t).

#[local] Arguments View.init : simpl never.
#[local] Arguments View.gsgraphview_new : simpl never.

(** *** The check and the property

    A sequence of calls that passes the check is guarded. *)
Lemma guardedb_sound evs : guardedb None evs = true → lookups_guarded evs.
Proof.
  assert (H : ∀ evs prev, guardedb prev evs = true →
     ∀ l1 l2 a, evs = l1 ++ CallInitializeLookups a :: l2 →
       match l1 with
       | [] => prev = Some (CallSanitize a true)
       | _ => ∃ l0, l1 = l0 ++ [CallSanitize a true]
       end).
  { clear evs. induction evs as [|e evs IH]; intros prev Hg l1 l2 a Heq.
    - by destruct l1.
    - simpl in Hg. apply andb_true_iff in Hg as [He Hg].
      destruct l1 as [|e1 l1]; simpl in Heq; injection Heq as -> ->.
      + destruct prev as [[]|]; try done. destruct ok; try done.
        apply bool_decide_eq_true in He. by subst.
      + specialize (IH _ Hg l1 l2 a eq_refl). destruct l1 as [|e2 l1].
        * injection IH as ->. by exists [].
        * destruct IH as [l0 ->]. by exists (e1 :: l0). }
  intros Hg l1 l2 a Heq. specialize (H evs None Hg l1 l2 a Heq).
  by destruct l1.
Qed.

(** A log that grew by a checked sequence grew by the new events. *)
Lemma grows_guarded_new_events {A} c (o : outcome gschooser_t A) :
  grows_guarded (log c) (log (final o)) →
  log (final o) = log c ++ new_events c o
  ∧ lookups_guarded (new_events c o).
Proof.
  intros (evs & Hlog & Hg). unfold new_events.
  rewrite Hlog, drop_app_length. split; [done|]. by apply guardedb_sound.
Qed.

(** *** Guarded logs compose *)

Lemma guardedb_weaken prev evs :
  guardedb None evs = true → guardedb prev evs = true.
Proof. destruct evs as [|[] evs]; simpl; try done. Qed.

Lemma guardedb_app prev evs1 evs2 :
  guardedb prev evs1 = true → guardedb None evs2 = true →
  guardedb prev (evs1 ++ evs2) = true.
Proof.
  revert prev. induction evs1 as [|e evs1 IH]; intros prev H1 H2; simpl.
  - by apply guardedb_weaken.
  - simpl in H1. apply andb_true_iff in H1 as [-> H1]. simpl. by apply IH.
Qed.

Lemma grows_guarded_refl l : grows_guarded l l.
Proof. exists []. by rewrite app_nil_r. Qed.

Lemma grows_guarded_trans l1 l2 l3 :
  grows_guarded l1 l2 → grows_guarded l2 l3 → grows_guarded l1 l3.
Proof.
  intros (e1 & -> & H1) (e2 & -> & H2). exists (e1 ++ e2).
  split; [by rewrite app_assoc|by apply guardedb_app].
Qed.

Lemma guarded_ret {A} (a : A) : guarded_step (ret a).
Proof. intros c. apply grows_guarded_refl. Qed.

Lemma guarded_undefined {A} why : guarded_step (@undefined _ A why).
Proof. intros c. apply grows_guarded_refl. Qed.

Lemma guarded_bind {A B} (m : M gschooser_t A) (k : A → M gschooser_t B) :
  guarded_step m → (∀ a, guarded_step (k a)) → guarded_step (bind m k).
Proof.
  intros Hm Hk c. unfold bind. specialize (Hm c).
  destruct (m c) as [a c'|why c']; simpl in *; [|done].
  eapply grows_guarded_trans; [exact Hm|apply Hk].
Qed.

(** A step that leaves the log alone. *)
Lemma guarded_quiet {A} (m : M gschooser_t A) :
  (∀ c, log (final (m c)) = log c) → guarded_step m.
Proof. intros Hq c. rewrite Hq. apply grows_guarded_refl. Qed.

(** A step that logs calls other than [initialize_lookups]. *)
Lemma guarded_append (f : gschooser_t → gschooser_t) :
  (∀ c, ∃ evs, log (f c) = log c ++ evs
               ∧ Forall (λ e, ∀ a, e ≠ CallInitializeLookups a) evs) →
  guarded_step (modify f).
Proof.
  intros Hf c. destruct (Hf c) as (evs & Hlog & Hevs).
  exists evs. split; [done|]. clear Hlog.
  generalize (@None event). induction Hevs as [|e evs He _ IH]; [done|].
  intros prev. simpl. rewrite IH, andb_true_r.
  destruct e; try done. by destruct (He obj).
Qed.

Lemma guarded_emit e :
  (∀ a, e ≠ CallInitializeLookups a) → guarded_step (modify (emit e)).
Proof.
  intros He. apply guarded_append. intros c. exists [e]. split; [done|].
  by apply Forall_singleton.
Qed.

Lemma guarded_delete_gm : guarded_step delete_gm.
Proof.
  apply guarded_quiet. intros c. unfold delete_gm.
  destruct (gm c); [|done]. by destruct (heap c !! _).
Qed.

Lemma guarded_new_gm : guarded_step new_gm.
Proof. by apply guarded_quiet. Qed.

Lemma guarded_deref_gm : guarded_step deref_gm.
Proof.
  apply guarded_quiet. intros c. unfold deref_gm.
  destruct (gm c); [|done]. by destruct (heap c !! _).
Qed.

Lemma guarded_store a g : guarded_step (store a g).
Proof. by apply guarded_quiet. Qed.

Lemma guarded_populate_chooser_lines : guarded_step populate_chooser_lines.
Proof.
  apply guarded_bind; [apply guarded_deref_gm|].
  intros r. by apply guarded_quiet.
Qed.

(** The step that matters: [initialize_lookups] is called in the
    branch that the result of [sanitize_groupman] opens, right after it. *)
Lemma guarded_sanitize_then_lookups {A} a (ok : bool) g (k : M gschooser_t A) :
  guarded_step k →
  guarded_step
    (bind (modify (emit (CallSanitize a ok))) (λ _,
     bind (if ok
           then bind (modify (emit (CallInitializeLookups a)))
                  (λ _, store a g)
           else ret tt) (λ _, k))).
Proof.
  intros Hk c. unfold bind, modify, store, ret. destruct ok; simpl.
  - eapply grows_guarded_trans; [|apply Hk]. simpl.
    exists [CallSanitize a true; CallInitializeLookups a].
    split; [by rewrite <- app_assoc|]. simpl. by rewrite bool_decide_eq_true_2.
  - eapply grows_guarded_trans; [|apply Hk]. simpl.
    by exists [CallSanitize a false].
Qed.

(** [show_graph] logs window calls only. *)
Lemma show_graph_events amb fc g o :
  Forall (λ e, ∀ a, e ≠ CallInitializeLookups a)
    (View.show_graph E amb fc g o).1.
Proof.
  unfold View.show_graph. simpl.
  destruct (create_tform E 0); simpl; [by repeat constructor|].
  destruct (create_tform E 1); simpl; by repeat constructor.
Qed.

(** Follow the structure of a member function: binds, branches, and the
    primitive steps above. *)
Ltac guarded_one :=
  first
    [ apply guarded_ret
    | apply guarded_undefined
    | apply guarded_delete_gm
    | apply guarded_new_gm
    | apply guarded_deref_gm
    | apply guarded_store
    | apply guarded_populate_chooser_lines
    | apply guarded_sanitize_then_lookups
    | apply guarded_emit; discriminate
    | apply guarded_quiet; reflexivity
    | apply guarded_bind; [|intros ?]
    | match goal with
      | |- guarded_step (if ?b then _ else _) => destruct b
      | |- guarded_step (match ?x with _ => _ end) => destruct x
      end ].

Ltac guarded := repeat guarded_one.

Lemma guarded_load_file filename : guarded_step (load_file E filename).
Proof. unfold load_file, msg. guarded. Qed.

Lemma guarded_load_file_show_graph amb filename :
  guarded_step (load_file_show_graph E amb filename).
Proof.
  unfold load_file_show_graph.
  repeat first [ apply guarded_load_file | guarded_one ].
  - apply guarded_quiet. intros c. unfold modify. simpl.
    by destruct (show_options_dialog_next_time _).
  - apply guarded_append. intros c. eexists. split; [reflexivity|].
    apply show_graph_events.
Qed.

(** C5: on every path through [load_file] and [load_file_show_graph],
    from every state of the chooser, a call of [initialize_lookups] comes
    right after a call of [sanitize_groupman] on the same group manager
    that returned [true]; no other call of [initialize_lookups] is made. *)
Theorem initialize_lookups_only_after_sanitize amb filename c :
  (log (final (load_file E filename c))
   = log c ++ new_events c (load_file E filename c)
   ∧ lookups_guarded (new_events c (load_file E filename c)))
  ∧ (log (final (load_file_show_graph E amb filename c))
     = log c ++ new_events c (load_file_show_graph E amb filename c)
     ∧ lookups_guarded
         (new_events c (load_file_show_graph E amb filename c))).
Proof.
  split; apply grows_guarded_new_events.
  - apply guarded_load_file.
  - apply guarded_load_file_show_graph.
Qed.

(** *** What [load_file] leaves behind *)

(** The first two statements of [load_file], on a pointer that is null or
    live: the old object is freed and [gm] points to a new, empty one. *)
Lemma load_file_allocates c :
  gm_valid c →
  bind delete_gm (λ _, bind new_gm (λ _, deref_gm)) c
  = Ret (new_addr c, groupman_new)
      (set_gm (Some (new_addr c))
         (set_heap (<[new_addr c := groupman_new]> (reclaimed c)) c)).
Proof.
  unfold gm_valid, new_addr, reclaimed, bind, delete_gm, new_gm, deref_gm.
  destruct (gm c) as [a|]; simpl.
  - intros [g ->]. simpl. by rewrite lookup_insert_eq.
  - intros _. by rewrite lookup_insert_eq.
Qed.

(** On a dangling pointer the very first statement is a second [delete]
    of the same object. *)
Lemma load_file_dangling filename c a :
  gm c = Some a → heap c !! a = None →
  load_file E filename c
  = Undef "delete gm: the object was freed before" c.
Proof.
  intros Hgm Hheap. unfold load_file, bind, delete_gm. by rewrite Hgm, Hheap.
Qed.

Lemma new_addr_fresh c : reclaimed c !! new_addr c = None.
Proof. unfold new_addr. apply not_elem_of_dom. apply is_fresh. Qed.

(** The parse failure path: the message is printed, the new object is
    freed, and [gm] keeps its address. *)
Lemma load_file_parse_failure filename c g1 :
  gm_valid c →
  parse E filename false groupman_new = (false, g1) →
  ∃ c', load_file E filename c = Ret false c'
    ∧ log c' = log c ++ [CallParse (new_addr c) filename;
                         Msg MSG_PARSE_FAILED [AStr filename]]
    ∧ heap c' = reclaimed c
    ∧ gm c' = Some (new_addr c)
    ∧ heap c' !! new_addr c = None.
Proof.
  intros Hv Hp.
  assert (Hrun := load_file_allocates c Hv).
  unfold load_file, bind in *.
  destruct (delete_gm c) as [[] c1|]; [|done].
  destruct (new_gm c1) as [[] c2|]; [|done].
  rewrite Hrun. clear Hrun. unfold modify, store, modify. simpl.
  rewrite Hp. simpl. unfold delete_gm. simpl. rewrite lookup_insert_eq.
  eexists. split; [reflexivity|]. simpl.
  rewrite !delete_insert_eq, (delete_id _ _ (new_addr_fresh c)).
  repeat split; [by rewrite <- app_assoc|apply new_addr_fresh].
Qed.

(** So the load that follows a parse failure deletes the freed object
    once more. *)
Lemma load_file_after_parse_failure filename next c g1 :
  gm_valid c →
  parse E filename false groupman_new = (false, g1) →
  ∃ c', load_file E filename c = Ret false c'
    ∧ load_file E next c'
      = Undef "delete gm: the object was freed before" c'.
Proof.
  intros Hv Hp.
  destruct (load_file_parse_failure filename c g1 Hv Hp)
    as (c' & Hrun & _ & _ & Hgm & Hheap).
  exists c'. split; [done|]. by apply load_file_dangling with (new_addr c).
Qed.

(** C3, the path of a file that parses but defines no address: the load
    is aborted and the message is printed, but the chooser keeps the
    group manager that the parser filled: [gm] points to it and the
    object is alive. *)
Theorem load_file_no_addresses_keeps_groupman filename c g1 :
  gm_valid c →
  parse E filename false groupman_new = (true, g1) →
  get_first_nd g1 = None →
  ∃ c', load_file E filename c = Ret false c'
    ∧ log c' = log c ++ [CallParse (new_addr c) filename;
                         Msg MSG_NO_ADDRESSES []]
    ∧ gm c' = Some (new_addr c)
    ∧ heap c' !! new_addr c = Some g1.
Proof.
  intros Hv Hp Hnd.
  assert (Hrun := load_file_allocates c Hv).
  unfold load_file, bind in *.
  destruct (delete_gm c) as [[] c1|]; [|done].
  destruct (new_gm c1) as [[] c2|]; [|done].
  rewrite Hrun. clear Hrun. unfold modify, store, modify. simpl.
  rewrite Hp. simpl. rewrite Hnd.
  eexists. split; [reflexivity|]. simpl.
  repeat split; [by rewrite <- app_assoc|apply lookup_insert_eq].
Qed.

(** The path of a failed sanitization: [load_file] prints nothing and
    returns [true], with the group manager as [sanitize_groupman] left it
    and without lookups. *)
Lemma load_file_sanitize_failure filename c g1 nd f fc g2 :
  gm_valid c →
  parse E filename false groupman_new = (true, g1) →
  get_first_nd g1 = Some nd →
  get_func E (start nd) = Some f →
  get_func_flowchart E (startEA f) (func_fc c) = (true, fc) →
  sanitize_groupman E (BADADDR E) g1 fc = (false, g2) →
  ∃ c', load_file E filename c = Ret true c'
    ∧ log c' = log c ++ [CallParse (new_addr c) filename;
                         CallSanitize (new_addr c) false]
    ∧ gm c' = Some (new_addr c)
    ∧ heap c' !! new_addr c = Some g2
    ∧ func_fc c' = fc
    ∧ options c' = options c.
Proof.
  intros Hv Hp Hnd Hf Hfc Hs.
  assert (Hrun := load_file_allocates c Hv).
  unfold load_file, bind in *.
  destruct (delete_gm c) as [[] c1|]; [|done].
  destruct (new_gm c1) as [[] c2|]; [|done].
  rewrite Hrun. clear Hrun. unfold modify, store, modify, get_state. simpl.
  rewrite Hp. simpl. rewrite Hnd, Hf. simpl. rewrite Hfc. simpl.
  rewrite Hs. simpl. unfold populate_chooser_lines, bind, deref_gm, modify.
  simpl. rewrite lookup_insert_eq.
  eexists. split; [reflexivity|]. simpl.
  repeat split; [by rewrite <- !app_assoc|apply lookup_insert_eq].
Qed.

(** C4, the path of a failed sanitization through
    [load_file_show_graph]: no message is printed, the load returns
    [true], and the graph view is created and opened on the group manager
    that was not sanitized. *)
Theorem sanitize_failure_still_shows_graph amb filename c g1 nd f fc g2 form0 :
  gm_valid c →
  parse E filename false groupman_new = (true, g1) →
  get_first_nd g1 = Some nd →
  get_func E (start nd) = Some f →
  get_func_flowchart E (startEA f) (func_fc c) = (true, fc) →
  sanitize_groupman E (BADADDR E) g1 fc = (false, g2) →
  create_tform E 0 = Some form0 →
  ∃ c' v, load_file_show_graph E amb filename c = Ret true c'
    ∧ gsgv c' = Some v
    ∧ View.gm v = g2
    ∧ log c' = log c ++ [CallParse (new_addr c) filename;
                         CallSanitize (new_addr c) false;
                         CreateTForm STR_GS_VIEW; CreateGraphViewer;
                         OpenTForm]
    ∧ last_loaded_file c' = filename.
Proof.
  intros Hv Hp Hnd Hf Hfc Hs Hform.
  set (c0 := set_options (show_dialog (load_options (options c))) c).
  destruct (load_file_sanitize_failure filename c0 g1 nd f fc g2)
    as (c1 & Hrun & Hlog & Hgm & Hheap & Hfc1 & Hopt); try done.
  unfold load_file_show_graph, bind, modify.
  change (load_file E filename _) with (load_file E filename c0).
  rewrite Hrun. simpl. unfold deref_gm. rewrite Hgm, Hheap.
  unfold get_state, View.show_graph. simpl. rewrite Hform. simpl.
  eexists _, _. split; [reflexivity|]. simpl.
  split; [done|]. split.
  - change (View.gm (View.set_parent_ref true ?x)) with (View.gm x).
    destruct (create_graph_viewer E); [by rewrite init_gm|done].
  - split; [|done]. rewrite Hlog. by rewrite <- app_assoc.
Qed.

End chooser_properties.

Lemma load_file_no_addresses_keeps_groupman_witness :
  ∃ c', Chooser.load_file Demo.demo_env "hollow.bbgroup" Demo.fresh_chooser
        = Ret false c'
    ∧ Chooser.heap c' !! new_addr Demo.fresh_chooser = Some Demo.hollow_gm.
Proof.
  destruct (load_file_no_addresses_keeps_groupman Demo.demo_env
              "hollow.bbgroup" Demo.fresh_chooser Demo.hollow_gm)
    as (c' & Hrun & _ & _ & Hheap); [exact I|reflexivity|reflexivity|].
  by exists c'.
Defined.

Lemma sanitize_failure_still_shows_graph_witness :
  ∃ c', Chooser.load_file_show_graph Demo.demo_env Demo.demo_ambient
          "stale.bbgroup" Demo.fresh_chooser = Ret true c'
    ∧ OpenTForm ∈ Chooser.log c'.
Proof.
  destruct (sanitize_failure_still_shows_graph Demo.demo_env
              Demo.demo_ambient "stale.bbgroup" Demo.fresh_chooser
              Demo.stale_gm
              Demo.nd_old {| startEA := start Demo.nd_old |}
              Demo.no_blocks Demo.stale_gm 1%Z)
    as (c' & v & Hrun & _ & _ & Hlog & _);
    [exact I|reflexivity..|].
  exists c'. split; [done|]. rewrite Hlog. set_solver.
Defined.

(** * Properties of the colour assignment *)

Section colour_properties.
Local Open Scope Z_scope.
Import ColorGen.

(** *** The generator *)

Lemma rgb_red r1 g1 b1 r2 g2 b2 :
  0 ≤ r1 < 256 → 0 ≤ g1 < 256 → 0 ≤ b1 < 256 →
  0 ≤ r2 < 256 → 0 ≤ g2 < 256 → 0 ≤ b2 < 256 →
  rgb r1 g1 b1 = rgb r2 g2 b2 → r1 = r2.
Proof. unfold rgb. lia. Qed.

Lemma wrap8_range x : 0 ≤ wrap8 x < 256.
Proof. unfold wrap8. apply Z.mod_pos_bound. lia. Qed.

(** Steps of 15 do not meet again within 256 steps: 15 is odd. *)
Lemma step15_inj r k1 k2 :
  0 ≤ k1 < 256 → 0 ≤ k2 < 256 →
  wrap8 (r + -15 * k1) = wrap8 (r + -15 * k2) → k1 = k2.
Proof.
  unfold wrap8. intros H1 H2 H. Z.to_euclidean_division_equations. lia.
Qed.

Lemma shade_inj c k1 k2 :
  0 ≤ k1 < 256 → 0 ≤ k2 < 256 →
  shade (-15 * k1) c = shade (-15 * k2) c → k1 = k2.
Proof.
  intros H1 H2 Heq. unfold shade in Heq.
  apply rgb_red in Heq; try apply wrap8_range.
  by apply (step15_inj c.1.1).
Qed.

Lemma variants_length cg cv n : length (variants cg cv n) = n.
Proof.
  revert cv. induction n as [|n IH]; intros cv; simpl; [done|].
  by rewrite IH.
Qed.

(** The variants of a batch are the shades of its base colour, one
    interval further at each call. *)
Lemma variants_elem cg cv n c :
  c ∈ variants cg cv n →
  ∃ j, 0 ≤ j < Z.of_nat n ∧ c = shade (L_INT cg * (calls cv + j)) (base cv).
Proof.
  revert cv. induction n as [|n IH]; intros cv; simpl.
  - intros H. by apply not_elem_of_nil in H.
  - intros [->|H]%elem_of_cons.
    + exists 0. split; [lia|]. by rewrite Z.add_0_r.
    + apply IH in H as (j & Hj & ->). simpl.
      exists (j + 1). split; [lia|]. f_equal. lia.
Qed.

Lemma variants_NoDup cg cv n :
  L_INT cg = -15 → 0 ≤ calls cv → calls cv + Z.of_nat n ≤ 256 →
  NoDup (variants cg cv n).
Proof.
  intros HL. revert cv. induction n as [|n IH]; intros cv H0 Hn; simpl.
  - constructor.
  - constructor.
    + intros (j & Hj & Heq)%variants_elem. simpl in Heq. rewrite HL in Heq.
      apply shade_inj in Heq; lia.
    + apply IH; simpl; lia.
Qed.

Lemma get_colorvar_L_INT cg : L_INT (get_colorvar cg).2 = L_INT cg.
Proof. done. Qed.

(** Every batch has the size asked for, and a batch of at most 64
    colours repeats none. *)
Lemma batches_distinct cg sizes :
  L_INT cg = -15 →
  Forall2 (λ cs size, length cs = size ∧ ((size ≤ 64)%nat → NoDup cs))
    (batches cg sizes) sizes.
Proof.
  revert cg. induction sizes as [|n sizes IH]; intros cg HL; simpl.
  - constructor.
  - constructor; [|by apply IH].
    split; [apply variants_length|].
    intros Hn. apply variants_NoDup; simpl; [done|lia|lia].
Qed.

(** *** The highlight calls of the view *)

Lemma lazy_print_single_options g t ids v :
  View.options (View.lazy_print_single g t ids v) = View.options v.
Proof.
  revert t v. induction ids as [|n ids IH]; intros t v; simpl; [done|].
  destruct (all_nds g !! n); [|apply IH].
  rewrite IH. by case_decide.
Qed.

Lemma lazy_print_options ids v :
  View.options (View.lazy_print ids v) = View.options v.
Proof.
  unfold View.lazy_print. simpl. case_decide.
  - by rewrite lazy_print_single_options.
  - assert (H' : ∀ w, View.options
                       (foldl (λ w n, View.msg "%d " [AInt n] w) w ids)
                     = View.options w).
    { induction ids as [|n ids IH]; intros w; simpl; [done|]. by rewrite IH. }
    by rewrite H'.
Qed.

Lemma get_ng_id_options g v :
  View.options (View.get_ng_id g v).2 = View.options v.
Proof.
  unfold View.get_ng_id.
  destruct g; repeat case_decide; simpl; try done;
    by destruct (debug (View.options v)).
Qed.

(** Highlighting a node group that exists always returns. *)
Lemma highlight_nodes_ng_returns g clr d v :
  ∃ b v', View.highlight_nodes_ng (Some g) clr d v = Ret b v'
          ∧ View.options v' = View.options v.
Proof.
  unfold View.highlight_nodes_ng.
  pose proof (get_ng_id_options (Some g) v) as Hid.
  destruct (View.get_ng_id (Some g) v) as [gr_nid v1]. simpl in Hid.
  repeat case_decide; destruct d; eexists _, _; (split; [reflexivity|]);
    rewrite ?lazy_print_options; done.
Qed.

(** The loop over a node group list hands out the variants of the batch
    in order, whatever the groups and the state of the view. *)
Lemma highlight_each_returns cg cv ngl v :
  ∃ cv' v', View.highlight_each cg cv ngl v
            = Ret (cv', variants cg cv (length ngl)) v'
            ∧ View.options v' = View.options v.
Proof.
  revert cv v. induction ngl as [|g ngl IH]; intros cv v; simpl.
  - by eexists _, _.
  - unfold bind.
    destruct (highlight_nodes_ng_returns g
                (shade (L_INT cg * calls cv) (base cv)) true v)
      as (b & v1 & -> & Hopt1).
    destruct (IH {| base := base cv; calls := calls cv + 1 |} v1)
      as (cv' & v2 & -> & Hopt2).
    eexists _, _. split; [reflexivity|]. congruence.
Qed.

Lemma highlight_nodes_ngl_returns ngl cg d v :
  ∃ v', View.highlight_nodes_ngl ngl cg d v
        = Ret ((get_colorvar cg).2,
               variants (get_colorvar cg).2 (get_colorvar cg).1 (length ngl)) v'
        ∧ View.options v' = View.options v.
Proof.
  unfold View.highlight_nodes_ngl, bind. simpl.
  destruct (highlight_each_returns
              {| L_INT := L_INT cg; next_base := S (next_base cg) |}
              (get_colorvar cg).1 ngl v) as (cv' & v1 & Hrun & Hopt).
  simpl in Hrun. rewrite Hrun. destruct d; by eexists.
Qed.

Lemma highlight_sgs_returns cg cv sgs v :
  ∃ cg' v', View.highlight_sgs cg cv sgs v
            = Ret (cg', batches cg
                          (kept_sizes
                             (highlight_syntethic_nodes (View.options v)) sgs))
                v'
            ∧ View.options v' = View.options v.
Proof.
  revert cg cv v. induction sgs as [|s sgs IH]; intros cg cv v; simpl.
  - by eexists _, _.
  - destruct (is_synthetic s && negb _) eqn:Hskip; [apply IH|].
    unfold bind.
    destruct (highlight_each_returns
                {| L_INT := L_INT cg; next_base := S (next_base cg) |}
                (get_colorvar cg).1 (groups s) v) as (cv' & v1 & Hrun & Hopt).
    simpl in Hrun. rewrite Hrun. simpl.
    destruct (IH {| L_INT := L_INT cg; next_base := S (next_base cg) |}
                cv' v1) as (cg' & v2 & -> & Hopt2).
    eexists _, _. split; [by rewrite Hopt|]. congruence.
Qed.

(** *** The chooser *)

(** [highlight_node] returns for every line it can read, and the colours
    it hands out are those of the batches of the line, drawn from a new
    generator. *)
Lemma highlight_node_returns c n sizes :
  line_batches c n = Some sizes →
  ∃ c', Chooser.highlight_node n c = Ret (batches DECL_CG sizes) c'.
Proof.
  unfold line_batches, Chooser.highlight_node.
  destruct (Chooser.gsgv c) as [v|] eqn:Hv; simpl; [|done].
  destruct (View.gv v) as [gv0|]; simpl; [|done].
  destruct (Chooser.ch_nodes c !! n) as [chn|]; simpl; [|done].
  unfold bind at 1. unfold Chooser.in_view at 1. rewrite Hv.
  unfold modify at 1.
  pose (v0 := View.set_highlighted_nodes ∅ v).
  assert (Hv0 : View.options v0 = View.options v) by done.
  destruct (Chooser.ln_type chn).
  - (* the line of the file *)
    destruct (Chooser.gm c) as [a|] eqn:Hgm; simpl; [|done].
    destruct (Chooser.heap c !! a) as [g|] eqn:Hheap; simpl; [|done].
    intros [= <-].
    unfold bind, Chooser.deref_gm, Chooser.in_view, ret. simpl.
    rewrite Hgm, Hheap.
    destruct (highlight_sgs_returns DECL_CG colorvargen_new (path_sgl g) v0)
      as (cg' & v1 & Hrun & Hopt).
    unfold View.highlight_nodes_sgl, bind, ret. simpl.
    fold v0. rewrite Hrun, Hv0. simpl.
    destruct (manual_refresh_mode _); by eexists.
  - (* a super group line *)
    destruct (Chooser.ln_ngl chn) as [ngl|]; simpl; [|done].
    intros [= <-].
    unfold bind, Chooser.in_view, ret. simpl.
    destruct (highlight_nodes_ngl_returns ngl DECL_CG true v0)
      as (v1 & Hrun & Hopt).
    fold v0. rewrite Hrun. simpl.
    destruct (manual_refresh_mode _); by eexists.
  - (* a node group line *)
    destruct (Chooser.ln_ng chn) as [g|]; simpl; [|done].
    intros [= <-].
    unfold bind, Chooser.in_view, ret. simpl.
    destruct (highlight_nodes_ng_returns g
                (shade (L_INT (get_colorvar DECL_CG).2
                        * calls (get_colorvar DECL_CG).1)
                   (base (get_colorvar DECL_CG).1)) true v0)
      as (b & v1 & Hrun & Hopt).
    simpl in Hrun. fold v0. rewrite Hrun. simpl.
    destruct (manual_refresh_mode _); by eexists.
Qed.


End colour_properties.


(** * Further properties of the graph view *)

Section lookup_properties.
Import View.
Local Open Scope Z_scope.

(** *** The scan of [ng2id] *)

(** X1: [get_ng_from_ngid] returns the first group, in the iteration
    order of [ng2id], whose id is the one asked for: it returns [g] exactly
    when [ng2id] splits into entries with other ids, the entry of [g] with
    this id, and a rest. *)
Theorem get_ng_from_ngid_first_match v ngid g :
  get_ng_from_ngid ngid v = Some g
  ↔ ∃ l1 l2, ng2id v = l1 ++ (g, ngid) :: l2 ∧ ngid ∉ ng2id_ids l1.
Proof.
  unfold get_ng_from_ngid, ng2id_ids. generalize (ng2id v). clear v.
  intros m. induction m as [|[g' i] m IH]; simpl.
  - split; [done|]. intros (l1 & l2 & Heq & _). by destruct l1.
  - case_decide as Hi.
    + subst i. split.
      * intros [= ->]. exists [], m. split; [done|]. apply not_elem_of_nil.
      * intros (l1 & l2 & Heq & Hl1). destruct l1 as [|[g1 i1] l1].
        -- by injection Heq as ->.
        -- injection Heq as -> -> _. destruct Hl1. simpl. left.
    + rewrite IH. split.
      * intros (l1 & l2 & -> & Hl1). exists ((g', i) :: l1), l2.
        split; [done|]. simpl. intros [?|?]%elem_of_cons; [congruence|done].
      * intros (l1 & l2 & Heq & Hl1). destruct l1 as [|[g1 i1] l1].
        -- injection Heq as _ ->. done.
        -- injection Heq as -> -> ->. exists l1, l2. split; [done|].
           intros Hin. apply Hl1. simpl. by right.
Qed.

End lookup_properties.

Section frame_properties.
Import View.
Context (E : env_t).
Local Open Scope Z_scope.

(** *** Operations that only write to the log *)

Lemma only_logs_refl v : only_logs v v.
Proof. by destruct v. Qed.

Lemma only_logs_trans v1 v2 v3 :
  only_logs v1 v2 → only_logs v2 v3 → only_logs v1 v3.
Proof. unfold only_logs. intros H12 H23. rewrite H23 at 1. by rewrite H12. Qed.

Lemma only_logs_msg fmt args v : only_logs v (msg fmt args v).
Proof. reflexivity. Qed.

Lemma only_logs_emit e v : only_logs v (emit e v).
Proof. reflexivity. Qed.

(** What an operation that only logs leaves alone. *)
Lemma only_logs_fields v v' :
  only_logs v v' →
  selected_nodes v' = selected_nodes v
  ∧ highlighted_nodes v' = highlighted_nodes v
  ∧ node_map v' = node_map v
  ∧ ng2id v' = ng2id v
  ∧ cur_node v' = cur_node v
  ∧ cur_view_mode v' = cur_view_mode v
  ∧ refresh_mode v' = refresh_mode v
  ∧ gm v' = gm v
  ∧ options v' = options v
  ∧ in_sel_mode v' = in_sel_mode v
  ∧ idm v' = idm v.
Proof. intros ->. by repeat split. Qed.

Lemma lazy_print_single_only_logs g t ids v :
  only_logs v (lazy_print_single g t ids v).
Proof.
  revert t v. induction ids as [|n ids IH]; intros t v; simpl.
  - apply only_logs_refl.
  - destruct (all_nds g !! n); [|apply IH].
    eapply only_logs_trans; [|apply IH].
    case_decide; [|apply only_logs_msg].
    eapply only_logs_trans; apply only_logs_msg.
Qed.

Lemma lazy_print_only_logs ids v : only_logs v (lazy_print ids v).
Proof.
  unfold lazy_print.
  eapply only_logs_trans; [|apply only_logs_msg].
  eapply only_logs_trans; [apply only_logs_msg|].
  case_decide; [apply lazy_print_single_only_logs|].
  generalize (msg (STR_GS_MSG +:+ "Lazy highlight( ") [] v).
  induction ids as [|n ids IH]; intros w; simpl; [apply only_logs_refl|].
  eapply only_logs_trans; [apply only_logs_msg|apply IH].
Qed.

Lemma get_ng_id_only_logs g v : only_logs v (get_ng_id g v).2.
Proof.
  unfold get_ng_id.
  destruct g; repeat case_decide; simpl;
    try apply only_logs_refl;
    destruct (debug (options v)); apply only_logs_refl || apply only_logs_msg.
Qed.

(** *** The generic bind rule *)

Lemma keeps_bind {S A B} (R : S → S → Prop) `{!PreOrder R}
  (m : M S A) (k : A → M S B) :
  keeps R m → (∀ a, keeps R (k a)) → keeps R (bind m k).
Proof.
  intros Hm Hk s. unfold bind. specialize (Hm s).
  destruct (m s) as [a s'|why s']; simpl in *; [|done].
  etrans; [exact Hm|apply Hk].
Qed.

Lemma keeps_ret {S A} (R : S → S → Prop) `{!PreOrder R} (a : A) :
  keeps R (@ret S A a).
Proof. intros s. simpl. reflexivity. Qed.

Lemma keeps_undefined {S A} (R : S → S → Prop) `{!PreOrder R} why :
  keeps R (@undefined S A why).
Proof. intros s. simpl. reflexivity. Qed.

Lemma keeps_modify {S} (R : S → S → Prop) (f : S → S) :
  (∀ s, R s (f s)) → keeps R (modify f).
Proof. intros Hf s. apply Hf. Qed.

(** *** The refresh mode *)

#[local] Instance refresh_mode_stays_hard_preorder :
  PreOrder refresh_mode_stays_hard.
Proof.
  split.
  - intros v. by left.
  - intros v1 v2 v3 H12 H23. unfold refresh_mode_stays_hard in *.
    destruct H23 as [->|[->| ->]]; auto.
Qed.

Lemma stays_hard_only_logs v v' :
  only_logs v v' → refresh_mode_stays_hard v v'.
Proof. intros ->. by left. Qed.

Lemma stays_hard_same v v' :
  refresh_mode v' = refresh_mode v → refresh_mode_stays_hard v v'.
Proof. by left. Qed.

Lemma stays_hard_refresh_view v : refresh_mode_stays_hard v (refresh_view v).
Proof. right. by left. Qed.

Lemma stays_hard_toggle_select_node n d v :
  refresh_mode_stays_hard v (toggle_select_node n d v).
Proof.
  unfold toggle_select_node.
  destruct (selected_nodes v !! n), d; (by left) || (right; by left).
Qed.

Lemma stays_hard_clear_selection d v :
  refresh_mode_stays_hard v (clear_selection d v).
Proof. destruct d; (by left) || (right; by left). Qed.

Lemma stays_hard_clear_highlighting d v :
  refresh_mode_stays_hard v (clear_highlighting d v).
Proof. destruct d; (by left) || (right; by left). Qed.

Lemma stays_hard_lazy_print ids v w :
  refresh_mode w = refresh_mode v →
  refresh_mode_stays_hard v (lazy_print ids w).
Proof.
  intros Hw. left.
  destruct (only_logs_fields _ _ (lazy_print_only_logs ids w))
    as (_ & _ & _ & _ & _ & _ & -> & _).
  done.
Qed.

Lemma stays_hard_highlight_nodes_ng g clr d :
  keeps refresh_mode_stays_hard (highlight_nodes_ng g clr d).
Proof.
  intros v. unfold highlight_nodes_ng.
  pose proof (get_ng_id_only_logs g v) as Hid.
  destruct (get_ng_id g v) as [gr_nid v1]. simpl in Hid.
  destruct (only_logs_fields _ _ Hid) as (_ & _ & _ & _ & _ & _ & Hrm & _).
  case_decide.
  - case_decide; [by left|].
    destruct d; simpl; [by apply stays_hard_lazy_print|right; by left].
  - case_decide; [|by left].
    destruct g; [|by left].
    destruct d; simpl; [by apply stays_hard_lazy_print|right; by left].
Qed.

Lemma stays_hard_highlight_each cg cv ngl :
  keeps refresh_mode_stays_hard (highlight_each cg cv ngl).
Proof.
  revert cv. induction ngl as [|g ngl IH]; intros cv; simpl.
  - apply keeps_ret, _.
  - apply keeps_bind; [apply _|apply stays_hard_highlight_nodes_ng|].
    intros _. apply keeps_bind; [apply _|apply IH|].
    intros r. apply keeps_ret, _.
Qed.

Lemma stays_hard_highlight_nodes_ngl ngl cg d :
  keeps refresh_mode_stays_hard (highlight_nodes_ngl ngl cg d).
Proof.
  unfold highlight_nodes_ngl. simpl.
  apply keeps_bind; [apply _|apply stays_hard_highlight_each|].
  intros r. apply keeps_bind; [apply _| |intros; apply keeps_ret, _].
  destruct d; [apply keeps_ret, _|].
  apply keeps_modify. apply stays_hard_refresh_view.
Qed.

Lemma stays_hard_find_loop pattern cg found sgs :
  keeps refresh_mode_stays_hard (find_loop E pattern cg found sgs).
Proof.
  revert cg found. induction sgs as [|s sgs IH]; intros cg found; simpl.
  - apply keeps_ret, _.
  - destruct (_ || _); [|apply IH].
    apply keeps_bind; [apply _|apply stays_hard_highlight_nodes_ngl|].
    intros r. apply IH.
Qed.

Lemma stays_hard_find_and_highlight_nodes d :
  keeps refresh_mode_stays_hard (find_and_highlight_nodes E d).
Proof.
  intros v. unfold find_and_highlight_nodes.
  destruct (askstr E _ _) as [pattern|]; [|by left].
  set (v3 := clear_highlighting true _).
  pose proof (stays_hard_find_loop pattern DECL_CG None (path_sgl (gm v3)) v3)
    as Hloop.
  assert (H3 : refresh_mode_stays_hard v v3) by by left.
  destruct (find_loop _ _ _ _ _ v3) as [found v4|why v4]; simpl in Hloop;
    [|by etrans].
  assert (H5 : refresh_mode_stays_hard v (if d then v4 else refresh_view v4)).
  { destruct d; [by etrans|]. right. by left. }
  destruct found as [ngl|]; [|by destruct d].
  destruct (get_first_ng ngl) as [g|]; cbn -[get_ng_id].
  - pose proof (get_ng_id_only_logs (Some g) (if d then v4 else refresh_view v4))
      as Hid.
    destruct (get_ng_id _ _) as [n v6]. cbn in Hid |- *.
    apply stays_hard_only_logs in Hid.
    case_decide; [|etrans; [exact H5|exact Hid]].
    etrans; [exact H5|]. etrans; [exact Hid|]. by left.
  - by case_decide.
Qed.

Lemma stays_hard_retitle_groups title ngl v :
  refresh_mode_stays_hard v (retitle_groups title ngl v).
Proof.
  left. revert v. induction ngl as [|g ngl IH]; intros v; simpl; [done|].
  pose proof (get_ng_id_only_logs (Some g) v) as Hid.
  unfold get_ng_id in *.
  repeat case_decide; simpl in *;
    try destruct (debug (options v)); try destruct (get_node _ _);
    rewrite IH; done.
Qed.

Lemma stays_hard_edit_sg_description psg :
  keeps refresh_mode_stays_hard (edit_sg_description E psg).
Proof.
  intros v. unfold edit_sg_description.
  destruct psg as [sg0|]; [|by left].
  destruct (askstr E _ _) as [desc|]; [|by left]. cbn -[retitle_groups].
  set (v2 := set_gm _ _).
  pose proof (stays_hard_retitle_groups
                (get_display_name E
                   {| sg_addr := sg_addr sg0; id := id sg0; name := desc;
                      is_synthetic := is_synthetic sg0;
                      groups := groups sg0 |} None) (groups sg0) v2) as H3.
  assert (H2 : refresh_mode_stays_hard v v2) by by left.
  destruct (manual_refresh_mode _); [by etrans|]. right. by left.
Qed.

Lemma refresh_mode_add_menu label v :
  refresh_mode (add_menu E label v).2 = refresh_mode v.
Proof.
  unfold add_menu. destruct (bool_decide (label = "-")); [done|].
  by destruct (viewer_add_menu_item E label).
Qed.

Lemma refresh_mode_del_menu i v : refresh_mode (del_menu i v) = refresh_mode v.
Proof.
  unfold del_menu. case_decide; [done|]. by destruct (menu_ids v !! i).
Qed.

Lemma refresh_mode_set_sel_mode b v :
  refresh_mode (set_sel_mode E b v) = refresh_mode v.
Proof.
  unfold set_sel_mode.
  set (v1 := if decide _ then _ else _).
  assert (Hv1 : refresh_mode v1 = refresh_mode v).
  { unfold v1. case_decide; [apply refresh_mode_del_menu|done]. }
  pose proof (refresh_mode_add_menu
                (if b then "End selection mode" else "Start selection mode")
                v1) as H.
  destruct (add_menu E _ v1) as [i v2]. simpl in *. congruence.
Qed.

Lemma stays_hard_on_menu_combine_ngs v :
  refresh_mode_stays_hard v (on_menu_combine_ngs E v).
Proof.
  unfold on_menu_combine_ngs.
  destruct (decide (cur_view_mode v ≠ gvrfm_combined_mode)) as [|Hmode];
    [by left|].
  case_decide; [by left|].
  right. right. simpl. by destruct (decide (cur_view_mode v = gvrfm_combined_mode)).
Qed.

Lemma stays_hard_on_menu_edit_sg_desc :
  keeps refresh_mode_stays_hard (on_menu_edit_sg_desc E).
Proof.
  intros v. unfold on_menu_edit_sg_desc.
  destruct (_ || _); [by left|].
  destruct (ngid_to_sg _ _) as [sg0|]; [|by left].
  pose proof (stays_hard_edit_sg_description (Some sg0) v) as H.
  by destruct (edit_sg_description E (Some sg0) v) as [[] w|why w].
Qed.

Lemma stays_hard_on_menu i : keeps refresh_mode_stays_hard (on_menu E i).
Proof.
  intros v. unfold on_menu.
  destruct (decide (i = idm_clear_sel (idm v)));
    [apply stays_hard_clear_selection|].
  destruct (decide (i = idm_clear_highlight (idm v)));
    [apply stays_hard_clear_highlighting|].
  destruct (decide (i = idm_set_sel_mode (idm v)));
    [left; apply refresh_mode_set_sel_mode|].
  destruct (decide (i = idm_single_view_mode (idm v))); [right; by left|].
  destruct (decide (i = idm_combined_view_mode (idm v))); [right; by right|].
  destruct (decide (i = idm_show_options (idm v))); [by left|].
  destruct (decide (i = idm_highlight_similar (idm v))).
  { left. simpl. unfold highlight_similar_selection.
    by destruct (bool_decide _). }
  destruct (decide (i = idm_find_highlight (idm v)));
    [apply stays_hard_find_and_highlight_nodes|].
  destruct (decide (i = idm_edit_sg_desc (idm v)));
    [apply stays_hard_on_menu_edit_sg_desc|].
  destruct (decide (i = idm_combine_ngs (idm v)));
    [apply stays_hard_on_menu_combine_ngs|].
  destruct (decide (i = idm_test (idm v))); by left.
Qed.

Lemma refresh_mode_gr_user_refresh mg v :
  refresh_mode (gr_user_refresh E mg v).2 = refresh_mode v.
Proof.
  unfold gr_user_refresh. destruct (_ || _); [|done].
  repeat case_decide; simpl.
  - unfold switch_to_single_view_mode.
    by destruct (func_to_mgraph _ _ _ _ _ _).
  - unfold switch_to_combined_view_mode.
    by destruct (fc_to_combined_mg _ _ _ _ _ _ _) as [[? ?] ?].
  - done.
Qed.

Lemma stays_hard_gr_callback code v :
  refresh_mode_stays_hard v (gr_callback E code v).2.
Proof.
  destruct code; simpl; try (by left).
  - destruct item1 as [it|]; [|by left].
    destruct (_ && _); [apply stays_hard_toggle_select_node|by left].
  - left. apply refresh_mode_gr_user_refresh.
  - left. by destruct (parent_ref v).
Qed.

(** X2: no operation of the view asks for a soft refresh.  If the
    refresh mode is not [gvrfm_soft], it is not [gvrfm_soft] after any
    menu command and after any graph callback, so every refresh that the
    viewer asks for afterwards rebuilds the graph. *)
Theorem refresh_mode_never_turns_soft v i code :
  refresh_mode v ≠ gvrfm_soft →
  refresh_mode (final (on_menu E i v)) ≠ gvrfm_soft
  ∧ refresh_mode (gr_callback E code v).2 ≠ gvrfm_soft.
Proof.
  intros Hv. split.
  - destruct (stays_hard_on_menu i v) as [->|[->| ->]]; done.
  - destruct (stays_hard_gr_callback code v) as [->|[->| ->]]; done.
Qed.

(** X3: a selection made with immediate refresh does not outlive the
    refresh.  [toggle_select_node] without delay calls [refresh_view],
    which sets the refresh mode to [gvrfm_single_mode]; the next
    [grcode_user_refresh] therefore rebuilds the graph in single mode,
    whatever the mode on display was, and empties the selection. *)
Theorem immediate_refresh_drops_selection v n mg :
  let v1 := toggle_select_node n false v in
  let v2 := (gr_callback E (grcode_user_refresh mg) v1).2 in
  refresh_mode v1 = gvrfm_single_mode
  ∧ cur_view_mode v2 = gvrfm_single_mode
  ∧ selected_nodes v2 = ∅
  ∧ highlighted_nodes v2 = ∅.
Proof.
  intros v1 v2.
  assert (H1 : refresh_mode v1 = gvrfm_single_mode).
  { unfold v1, toggle_select_node. by destruct (selected_nodes v !! n). }
  split; [done|].
  assert (Hv2 : v2 = (gr_user_refresh E mg v1).2) by done.
  rewrite gr_user_refresh_rebuild in Hv2 by by rewrite H1.
  cbv zeta in Hv2. cbn [snd] in Hv2. rewrite H1 in Hv2.
  rewrite decide_True in Hv2 by done.
  destruct (switch_to_single_view_mode_fields E (mg_clear mg)
              (rebuild_start v1)) as (_ & _ & Hhl & Hsel & _ & Hcvm).
  rewrite Hv2, Hhl, Hsel, Hcvm.
  destruct (rebuild_start_fields v1) as (_ & _ & -> & -> & _ & -> & _).
  done.
Qed.

(** A click changes the selection only in selection mode and only on a
    node: outside selection mode, on an edge, or with no item, the
    callback [grcode_clicked] leaves the view as it is. *)
Lemma click_outside_selection_mode v item1 :
  in_sel_mode v = false ∨ item1 = None
  ∨ (∃ it, item1 = Some it ∧ is_node it = false) →
  gr_callback E (grcode_clicked item1) v = (gr_plain 0, v).
Proof.
  intros [Hsel|[->|(it & -> & Hit)]]; simpl; [|done|].
  - destruct item1; [|done]. by rewrite Hsel.
  - by rewrite Hit, andb_false_r.
Qed.

End frame_properties.

Lemma refresh_mode_never_turns_soft_witness :
  View.refresh_mode
    (final (View.on_menu Demo.demo_env 2 Demo.combined_view)) ≠ gvrfm_soft
  ∧ View.refresh_mode
      (View.gr_callback Demo.demo_env (View.grcode_clicked None)
         Demo.combined_view).2 ≠ gvrfm_soft.
Proof.
  apply (refresh_mode_never_turns_soft Demo.demo_env Demo.combined_view 2%Z
           (View.grcode_clicked None)).
  discriminate.
Defined.

Section highlight_properties.
Import View.
Local Open Scope Z_scope.

(** *** What a highlight writes *)

Lemma foldl_insert_lookup (clr : bgcolor_t) ids (m : gmap Z bgcolor_t) n :
  foldl (λ m n, <[n := clr]> m) m ids !! n
  = if decide (n ∈ ids) then Some clr else m !! n.
Proof.
  revert m. induction ids as [|k ids IH]; intros m; cbn [foldl].
  - by rewrite decide_False by apply not_elem_of_nil.
  - rewrite IH. destruct (decide (n ∈ ids)) as [Hin|Hin].
    + by rewrite decide_True by by right.
    + destruct (decide (k = n)) as [->|Hk].
      * rewrite decide_True by left. apply lookup_insert_eq.
      * rewrite decide_False by by intros [?|?]%elem_of_cons.
        by rewrite lookup_insert_ne.
Qed.

Lemma lazy_print_keeps ids v :
  highlighted_nodes (lazy_print ids v) = highlighted_nodes v
  ∧ selected_nodes (lazy_print ids v) = selected_nodes v
  ∧ cur_view_mode (lazy_print ids v) = cur_view_mode v
  ∧ ng2id (lazy_print ids v) = ng2id v.
Proof.
  destruct (only_logs_fields _ _ (lazy_print_only_logs ids v))
    as (-> & -> & _ & -> & _ & -> & _).
  done.
Qed.


(** The run of [highlight_nodes] in combined view mode. *)
Lemma highlight_nodes_ng_combined_run g clr d v :
  cur_view_mode v = gvrfm_combined_mode →
  let i := ng2nid_get_ng_id (ng2id v) g in
  (i = -1 → highlight_nodes_ng (Some g) clr d v = Ret false v)
  ∧ (i ≠ -1 →
     ∃ v', highlight_nodes_ng (Some g) clr d v = Ret true v'
       ∧ highlighted_nodes v' = <[i := clr]> (highlighted_nodes v)
       ∧ selected_nodes v' = selected_nodes v
       ∧ cur_view_mode v' = cur_view_mode v
       ∧ ng2id v' = ng2id v).
Proof.
  intros Hmode i. unfold highlight_nodes_ng, get_ng_id.
  rewrite !decide_True by done. fold i. split; intros Hi.
  - by rewrite decide_True.
  - rewrite decide_False by done.
    destruct d; eexists; (split; [reflexivity|]); [|done].
    by destruct (lazy_print_keeps [i]
                   (set_highlighted_nodes (<[i := clr]> (highlighted_nodes v)) v))
      as (-> & -> & -> & ->).
Qed.

(** X5: in combined view mode [highlight_nodes] colours the one graph
    node that [ng2id] records for the group, whatever that node stood for
    before, and returns [true]; for a group that [ng2id] does not know it
    returns [false] and changes nothing.  The selection is left alone. *)
Theorem highlight_nodes_combined_mode g clr d v :
  cur_view_mode v = gvrfm_combined_mode →
  let i := ng2nid_get_ng_id (ng2id v) g in
  if decide (i = -1)
  then highlight_nodes_ng (Some g) clr d v = Ret false v
  else ∃ v', highlight_nodes_ng (Some g) clr d v = Ret true v'
         ∧ highlighted_nodes v' = <[i := clr]> (highlighted_nodes v)
         ∧ selected_nodes v' = selected_nodes v.
Proof.
  intros Hmode i.
  destruct (highlight_nodes_ng_combined_run g clr d v Hmode) as [Hnone Hsome].
  case_decide as Hi; [by apply Hnone|].
  destruct (Hsome Hi) as (v' & ? & ? & ? & _). by exists v'.
Qed.

(** With delayed refresh [highlight_nodes] leaves the refresh mode. *)
Lemma highlight_nodes_ng_delayed g clr v :
  refresh_mode (final (highlight_nodes_ng g clr true v)) = refresh_mode v.
Proof.
  unfold highlight_nodes_ng.
  pose proof (get_ng_id_only_logs g v) as Hid.
  destruct (get_ng_id g v) as [gr_nid v1]. cbn [snd] in Hid.
  destruct (only_logs_fields _ _ Hid) as (_ & _ & _ & _ & _ & _ & Hrm & _).
  assert (Hprint : ∀ ids w, refresh_mode (lazy_print ids w) = refresh_mode w).
  { intros ids w.
    by destruct (only_logs_fields _ _ (lazy_print_only_logs ids w))
      as (_ & _ & _ & _ & _ & _ & -> & _). }
  case_decide.
  - case_decide; [done|]. cbn [final]. by rewrite Hprint.
  - case_decide; [|done]. destruct g; [|done]. cbn [final]. by rewrite Hprint.
Qed.

(** The loop over a node group list in combined view mode: the nodes
    highlighted afterwards are those highlighted before and the graph
    nodes of the groups of the list. *)
Lemma highlight_each_combined cg cv ngl v :
  cur_view_mode v = gvrfm_combined_mode →
  ∃ r v', highlight_each cg cv ngl v = Ret r v'
    ∧ cur_view_mode v' = gvrfm_combined_mode
    ∧ ng2id v' = ng2id v
    ∧ selected_nodes v' = selected_nodes v
    ∧ refresh_mode v' = refresh_mode v
    ∧ ∀ i, is_Some (highlighted_nodes v' !! i)
           ↔ is_Some (highlighted_nodes v !! i)
             ∨ ∃ g, g ∈ ngl ∧ ng2nid_get_ng_id (ng2id v) g = i ∧ i ≠ -1.
Proof.
  revert cv v. induction ngl as [|g ngl IH]; intros cv v Hmode; simpl.
  - eexists _, _. split; [reflexivity|]. repeat split; try done.
    + by left.
    + intros [?|(g & Hg & _)]; [done|]. by apply not_elem_of_nil in Hg.
  - unfold bind.
    pose proof (highlight_nodes_ng_delayed (Some g)
                  (ColorGen.shade (ColorGen.L_INT cg * ColorGen.calls cv)
                     (ColorGen.base cv)) v) as Hrm1.
    destruct (highlight_nodes_ng_combined_run g
                (ColorGen.shade (ColorGen.L_INT cg * ColorGen.calls cv)
                   (ColorGen.base cv)) true v Hmode) as [Hnone Hsome].
    destruct (decide (ng2nid_get_ng_id (ng2id v) g = -1)) as [Hi|Hi].
    + rewrite (Hnone Hi).
      destruct (IH {| ColorGen.base := ColorGen.base cv;
                      ColorGen.calls := ColorGen.calls cv + 1 |} v Hmode)
        as (r & v' & -> & Hm & Hids & Hsel & Hrm & Hhl).
      eexists _, _. split; [reflexivity|]. repeat split; try done.
      * intros H. apply Hhl in H as [?|(g' & ? & ? & ?)]; [by left|].
        right. exists g'. split; [by right|done].
      * intros [?|(g' & [->|?]%elem_of_cons & ? & ?)]; apply Hhl;
          [by left|congruence|]. right. by exists g'.
    + destruct (Hsome Hi) as (v1 & Hrun1 & Hhl1 & Hsel1 & Hm1 & Hids1).
      rewrite Hrun1 in Hrm1 |- *. cbn [final] in Hrm1.
      rewrite Hmode in Hm1.
      destruct (IH {| ColorGen.base := ColorGen.base cv;
                      ColorGen.calls := ColorGen.calls cv + 1 |} v1 Hm1)
        as (r & v' & -> & Hm & Hids & Hsel & Hrm & Hhl).
      eexists _, _. split; [reflexivity|].
      split; [done|]. split; [congruence|]. split; [congruence|].
      split; [congruence|].
      intros i. rewrite Hhl, Hhl1, Hids1. split.
      * intros [H|(g' & ? & ? & ?)].
        -- destruct (decide (ng2nid_get_ng_id (ng2id v) g = i)) as [<-|Hne].
           ++ right. exists g. split; [left|done].
           ++ left. by rewrite lookup_insert_ne in H.
        -- right. exists g'. split; [by right|done].
      * intros [H|(g' & [->|?]%elem_of_cons & Hg' & ?)].
        -- left. destruct (decide (ng2nid_get_ng_id (ng2id v) g = i)) as [<-|Hne].
           ++ rewrite lookup_insert_eq. by eexists.
           ++ by rewrite lookup_insert_ne.
        -- left. rewrite Hg', lookup_insert_eq. by eexists.
        -- right. by exists g'.
Qed.

(** X18: in combined view mode the list overload of [highlight_nodes]
    returns and only adds highlights: afterwards a node is highlighted
    exactly when it was highlighted before or [ng2id] records it for a node
    group of the list; a group that [ng2id] does not know is passed over.
    The selection is left alone, and the refresh mode changes only without
    delayed refresh, to [gvrfm_single_mode]. *)
Theorem highlight_nodes_list_combined_mode ngl cg d v :
  cur_view_mode v = gvrfm_combined_mode →
  ∃ r v', highlight_nodes_ngl ngl cg d v = Ret r v'
    ∧ selected_nodes v' = selected_nodes v
    ∧ refresh_mode v' = (if d then refresh_mode v else gvrfm_single_mode)
    ∧ ∀ i, is_Some (highlighted_nodes v' !! i)
           ↔ is_Some (highlighted_nodes v !! i)
             ∨ ∃ g, g ∈ ngl ∧ ng2nid_get_ng_id (ng2id v) g = i ∧ i ≠ -1.
Proof.
  intros Hmode. unfold highlight_nodes_ngl.
  destruct (ColorGen.get_colorvar cg) as [cv cg'].
  destruct (highlight_each_combined cg' cv ngl v Hmode)
    as (r & v' & Hrun & _ & _ & Hsel & Hrm & Hhl).
  unfold bind. rewrite Hrun.
  destruct d; eexists _, _; (split; [reflexivity|]);
    (split; [exact Hsel|]); (split; [done|]); exact Hhl.
Qed.

End highlight_properties.

Lemma highlight_nodes_list_combined_mode_witness :
  ∃ r v', View.highlight_nodes_ngl (groups Demo.path1) DECL_CG true
            Demo.combined_view = Ret r v'
    ∧ View.selected_nodes v' = View.selected_nodes Demo.combined_view
    ∧ View.refresh_mode v' = View.refresh_mode Demo.combined_view.
Proof.
  destruct (highlight_nodes_list_combined_mode (groups Demo.path1) DECL_CG
              true Demo.combined_view) as (r & v' & Hrun & Hsel & Hrm & _);
    [reflexivity|].
  exists r, v'. split; [exact Hrun|]. split; [exact Hsel|exact Hrm].
Defined.


Lemma highlight_nodes_combined_mode_witness :
  ∃ v', View.highlight_nodes_ng (Some Demo.ng2) 0xC0FFC0%Z true
          Demo.combined_view = Ret true v'
    ∧ View.highlighted_nodes v'
      = <[1%Z := 0xC0FFC0%Z]> (View.highlighted_nodes Demo.combined_view)
    ∧ View.selected_nodes v' = View.selected_nodes Demo.combined_view.
Proof.
  exact (highlight_nodes_combined_mode Demo.ng2 0xC0FFC0%Z true
           Demo.combined_view eq_refl).
Defined.

(** * Further properties of the menu commands *)

Section command_properties.
Import View.
Context (E : env_t).
Local Open Scope Z_scope.

(** *** Find group *)

(** No super group matches: the search loop does nothing. *)
Lemma find_loop_no_match pattern cg found sgs v :
  (∀ s, s ∈ sgs → stristr E (name s) pattern = false
                  ∧ stristr E (id s) pattern = false) →
  find_loop E pattern cg found sgs v = Ret found v.
Proof.
  induction sgs as [|s sgs IH]; intros Hno; simpl; [done|].
  destruct (Hno s) as [-> ->]; [left|]. simpl.
  apply IH. intros s' Hs'. apply Hno. by right.
Qed.


(** *** Combine nodes *)

(** The keys of a map in iteration order. *)
Lemma keys_ascending_spec {A} (m : gmap Z A) :
  StronglySorted Z.le (keys_ascending m)
  ∧ NoDup (keys_ascending m)
  ∧ length (keys_ascending m) = size m
  ∧ ∀ n, n ∈ keys_ascending m ↔ is_Some (m !! n).
Proof.
  unfold keys_ascending.
  assert (Hp := merge_sort_Permutation Z.le (map fst (map_to_list m))).
  split; [apply (StronglySorted_merge_sort Z.le)|].
  split; [rewrite Hp; apply NoDup_fst_map_to_list|].
  split; [by rewrite Hp, length_map, length_map_to_list|].
  intros n. rewrite Hp. rewrite list_elem_of_fmap. split.
  - intros ([k x] & -> & Hkx%elem_of_map_to_list). by eexists.
  - intros [x Hx]. exists (n, x). split; [done|].
    by apply elem_of_map_to_list.
Qed.

(** X7: an accepted "Combine nodes" hands [combine_ngl] one entry for
    each selected node, in ascending order of the node ids and without
    repetition: the node group that [ng2id] records for the id, or a null
    pointer if it records none.  The selection is not cleared, and the
    layout is redone in combined mode. *)
Theorem combine_passes_selection v :
  cur_view_mode v = gvrfm_combined_mode →
  (2 ≤ size (selected_nodes v))%nat →
  let v' := on_menu_combine_ngs E v in
  ∃ ids,
    log v' = log v ++ [CallCombineNgl (map (λ n, get_ng_from_ngid n v) ids);
                       RefreshChooser STR_GS_PANEL; RefreshViewer]
    ∧ StronglySorted Z.le ids
    ∧ NoDup ids
    ∧ (∀ n, n ∈ ids ↔ is_Some (selected_nodes v !! n))
    ∧ gm v' = combine_ngl E (map (λ n, get_ng_from_ngid n v) ids) (gm v)
    ∧ selected_nodes v' = selected_nodes v
    ∧ refresh_mode v' = gvrfm_combined_mode.
Proof.
  intros Hmode Hsize v'. exists (keys_ascending (selected_nodes v)).
  destruct (keys_ascending_spec (selected_nodes v)) as (Hs & Hnd & _ & Hin).
  unfold v', on_menu_combine_ngs.
  rewrite decide_False by (intros Hne; by apply Hne).
  rewrite decide_False by lia.
  cbn. rewrite <- !app_assoc. by rewrite Hmode.
Qed.

(** *** Edit group description *)

(** What the loop of [edit_sg_description] does to the node data. *)
Lemma retitle_groups_nodes title ngl v :
  let v' := retitle_groups title ngl v in
  (∀ n, hint <$> node_map v' !! n = hint <$> node_map v !! n)
  ∧ (∀ n, text <$> node_map v' !! n = text <$> node_map v !! n
          ∨ text <$> node_map v' !! n = Some title)
  ∧ selected_nodes v' = selected_nodes v
  ∧ highlighted_nodes v' = highlighted_nodes v
  ∧ ng2id v' = ng2id v
  ∧ gm v' = gm v
  ∧ options v' = options v.
Proof.
  cbv zeta. revert v.
  induction ngl as [|g ngl IH]; intros v; cbn [retitle_groups].
  { repeat split; try done. by left. }
  pose proof (get_ng_id_only_logs (Some g) v) as Hid.
  destruct (get_ng_id (Some g) v) as [ngid v1]. cbn [snd] in Hid.
  destruct (only_logs_fields _ _ Hid)
    as (Hsel & Hhl & Hnm & Hids & _ & _ & _ & Hgm & Hopt & _).
  assert (Hskip :
    (∀ n, hint <$> node_map (retitle_groups title ngl v1) !! n
          = hint <$> node_map v !! n)
    ∧ (∀ n, text <$> node_map (retitle_groups title ngl v1) !! n
            = text <$> node_map v !! n
            ∨ text <$> node_map (retitle_groups title ngl v1) !! n
              = Some title)
    ∧ selected_nodes (retitle_groups title ngl v1) = selected_nodes v
    ∧ highlighted_nodes (retitle_groups title ngl v1) = highlighted_nodes v
    ∧ ng2id (retitle_groups title ngl v1) = ng2id v
    ∧ gm (retitle_groups title ngl v1) = gm v
    ∧ options (retitle_groups title ngl v1) = options v).
  { destruct (IH v1) as (H1 & H2 & -> & -> & -> & -> & ->).
    rewrite <- Hnm. by repeat split. }
  case_decide; [exact Hskip|].
  unfold get_node. destruct (node_map v1 !! ngid) as [gnode|] eqn:Hnode;
    [|exact Hskip].
  destruct (IH (set_node_map
                  (<[ngid := {| text := title; hint := hint gnode |}]>
                     (node_map v1)) v1)) as (H1 & H2 & -> & -> & -> & -> & ->).
  cbn [node_map set_node_map] in H1, H2.
  split; [|split; [|by repeat split]].
  - intros n. rewrite H1. destruct (decide (ngid = n)) as [<-|Hn].
    + by rewrite lookup_insert_eq, <- Hnm, Hnode.
    + by rewrite lookup_insert_ne, Hnm.
  - intros n. destruct (H2 n) as [Hn2|Hn2]; [|by right]. rewrite Hn2.
    destruct (decide (ngid = n)) as [<-|Hn].
    + right. by rewrite lookup_insert_eq.
    + left. by rewrite lookup_insert_ne, Hnm.
Qed.

Lemma edit_sg_description_returns sg0 v :
  is_Some (returned (edit_sg_description E (Some sg0) v)).
Proof.
  unfold edit_sg_description. by destruct (askstr E _ _).
Qed.

(** X8: [edit_sg_description] on a super group returns whether the
    user entered a description.  It never adds or removes node data and
    never changes a hint; the text of a node is either what it was or the
    display name of the renamed super group.  When the user cancels,
    the node data and the group manager are untouched.  Selection and
    highlights are never touched. *)
Theorem edit_sg_description_nodes sg0 v :
  let answer := askstr E (get_display_name E sg0 (Some STR_DUMMY_SG_NAME))
                  "Please enter new description" in
  let o := edit_sg_description E (Some sg0) v in
  let v' := final o in
  returned o = Some (bool_decide (is_Some answer))
  ∧ (∀ n, hint <$> node_map v' !! n = hint <$> node_map v !! n)
  ∧ match answer with
    | None => node_map v' = node_map v ∧ gm v' = gm v
    | Some desc =>
        gm v' = set_sg_name E sg0 desc (gm v)
        ∧ ∀ n, text <$> node_map v' !! n = text <$> node_map v !! n
               ∨ text <$> node_map v' !! n
                 = Some (get_display_name E
                           {| sg_addr := sg_addr sg0; id := id sg0;
                              name := desc;
                              is_synthetic := is_synthetic sg0;
                              groups := groups sg0 |} None)
    end
  ∧ selected_nodes v' = selected_nodes v
  ∧ highlighted_nodes v' = highlighted_nodes v.
Proof.
  intros answer o v'. unfold v', o, edit_sg_description. fold answer.
  destruct answer as [desc|]; [|by repeat split].
  cbn [groups].
  set (title := get_display_name E _ None).
  set (v2 := set_gm _ _).
  destruct (retitle_groups_nodes title (groups sg0) v2)
    as (Hh & Ht & Hsel & Hhl & _ & Hgm & _).
  cbv zeta in *.
  assert (Hfinal : ∀ w, node_map (if manual_refresh_mode (options w) then w
                                  else refresh_view w) = node_map w
            ∧ gm (if manual_refresh_mode (options w) then w
                  else refresh_view w) = gm w
            ∧ selected_nodes (if manual_refresh_mode (options w) then w
                              else refresh_view w) = selected_nodes w
            ∧ highlighted_nodes (if manual_refresh_mode (options w) then w
                                 else refresh_view w) = highlighted_nodes w)
    by (intros w; by destruct (manual_refresh_mode (options w))).
  cbn [final returned].
  destruct (Hfinal (retitle_groups title (groups sg0) v2))
    as (-> & -> & -> & ->).
  split; [done|]. split; [exact Hh|]. split; [|by split].
  split; [by rewrite Hgm|exact Ht].
Qed.

End command_properties.


Lemma combine_passes_selection_witness :
  ∃ ids,
    View.log (View.on_menu_combine_ngs Demo.demo_env Demo.both_selected)
    = View.log Demo.both_selected
      ++ [CallCombineNgl
            (map (λ n, View.get_ng_from_ngid n Demo.both_selected) ids);
          RefreshChooser STR_GS_PANEL; RefreshViewer]
    ∧ NoDup ids.
Proof.
  destruct (combine_passes_selection Demo.demo_env Demo.both_selected)
    as (ids & Hlog & _ & Hnd & _).
  - reflexivity.
  - vm_compute. apply le_n.
  - exists ids. split; [exact Hlog|exact Hnd].
Defined.

(** * Further properties of the context menu *)

Section menu_registry_properties.
Import View.
Context (E : env_t).
Local Open Scope Z_scope.

(** *** What the menu operations leave alone *)

Lemma menu_frame_refl v : menu_frame v v.
Proof. by destruct v. Qed.

Lemma menu_frame_trans v1 v2 v3 :
  menu_frame v1 v2 → menu_frame v2 v3 → menu_frame v1 v3.
Proof. unfold menu_frame. intros H1 H2. rewrite H2, H1. reflexivity. Qed.

Lemma menu_frame_fields v v' :
  menu_frame v v' →
  selected_nodes v' = selected_nodes v
  ∧ highlighted_nodes v' = highlighted_nodes v
  ∧ node_map v' = node_map v
  ∧ ng2id v' = ng2id v
  ∧ cur_node v' = cur_node v
  ∧ cur_view_mode v' = cur_view_mode v
  ∧ refresh_mode v' = refresh_mode v
  ∧ gm v' = gm v
  ∧ options v' = options v
  ∧ parent_ref v' = parent_ref v
  ∧ gv v' = gv v
  ∧ form v' = form v.
Proof. intros ->. by repeat split. Qed.

Lemma menu_frame_add_menu label v : menu_frame v (add_menu E label v).2.
Proof.
  unfold add_menu. destruct (bool_decide (label = "-")); [by destruct v|].
  destruct (viewer_add_menu_item E label); by destruct v.
Qed.

Lemma menu_frame_del_menu i v : menu_frame v (del_menu i v).
Proof.
  unfold del_menu. case_decide; [apply menu_frame_refl|].
  destruct (menu_ids v !! i); [by destruct v|apply menu_frame_refl].
Qed.

Lemma menu_frame_set_sel_mode b v : menu_frame v (set_sel_mode E b v).
Proof.
  unfold set_sel_mode.
  set (v1 := if decide _ then _ else _).
  assert (Hv1 : menu_frame v v1).
  { unfold v1. case_decide; [apply menu_frame_del_menu|apply menu_frame_refl]. }
  pose proof (menu_frame_add_menu
                (if b then "End selection mode" else "Start selection mode")
                v1) as H.
  destruct (add_menu E _ v1) as [i v2]. simpl in H.
  eapply menu_frame_trans; [exact Hv1|].
  eapply menu_frame_trans; [exact H|]. by destruct v2.
Qed.

Lemma menu_frame_set_idm i v : menu_frame v (set_idm i v).
Proof. by destruct v. Qed.

Lemma menu_frame_init gv0 form0 v :
  menu_frame (set_form (Some form0) (set_gv (Some gv0) v))
    (init E gv0 form0 v).
Proof.
  unfold init.
  set (v0 := emit _ _).
  assert (H0 : menu_frame (set_form (Some form0) (set_gv (Some gv0) v)) v0)
    by by destruct v.
  revert H0. generalize v0. clear v0. intros w0 H0.
  repeat match goal with
  | Hacc : menu_frame _ ?w |- context [add_menu E ?l ?w] =>
      let H := fresh "H" in
      pose proof (menu_frame_trans _ _ _ Hacc (menu_frame_add_menu l w)) as H;
      clear Hacc;
      destruct (add_menu E l w) as [? ?]; cbn [snd] in H
  | Hacc : menu_frame _ ?w |- context [add_menu E ?l (set_idm ?i ?w)] =>
      let H := fresh "H" in
      pose proof (menu_frame_trans _ _ _ Hacc (menu_frame_set_idm i w)) as H;
      clear Hacc
  end.
  eapply menu_frame_trans; [eassumption|apply menu_frame_set_sel_mode].
Qed.

(** *** The registry and the counter *)

Lemma add_menu_sep v :
  add_menu E "-" v = (-1, emit (ViewerAddMenuItem "-" (menu_id v)) v).
Proof. done. Qed.

Lemma add_menu_item label v :
  label ≠ "-" →
  add_menu E label v
  = let i := menu_id v + 1 in
    let v2 := emit (ViewerAddMenuItem label i)
                (set_menu_ids (<[i := label]> (menu_ids v))
                   (set_menu_id i v)) in
    if viewer_add_menu_item E label then (i, v2)
    else (-1, set_menu_ids (delete i (menu_ids v)) v2).
Proof.
  intros Hl. unfold add_menu. rewrite bool_decide_eq_false_2 by done.
  cbv zeta. destruct (viewer_add_menu_item E label); [done|].
  cbn [menu_id menu_ids emit set_log set_menu_ids set_menu_id].
  by rewrite delete_insert_eq.
Qed.

(** The counter and the menu ids of the view after [add_menu]. *)
Lemma add_menu_counter label v :
  idm (add_menu E label v).2 = idm v
  ∧ in_sel_mode (add_menu E label v).2 = in_sel_mode v
  ∧ menu_id (add_menu E label v).2
    = (if bool_decide (label = "-") then menu_id v else menu_id v + 1)
  ∧ (label ≠ "-" → viewer_add_menu_item E label = true →
     (add_menu E label v).1 = menu_id v + 1).
Proof.
  destruct (decide (label = "-")) as [->|Hl].
  - by rewrite add_menu_sep.
  - rewrite add_menu_item, bool_decide_eq_false_2 by done. cbv zeta.
    by destruct (viewer_add_menu_item E label).
Qed.

Lemma registry_ok_lookup v :
  menu_registry_ok v
  ↔ 0 ≤ menu_id v ≤ INT_MAX
    ∧ ∀ i, is_Some (menu_ids v !! i) → 0 < i ≤ menu_id v.
Proof.
  unfold menu_registry_ok. rewrite map_Forall_lookup. split.
  - intros [Hk Hreg]. split; [done|]. intros i [x Hx]. by apply (Hreg i x).
  - intros [Hk Hreg]. split; [done|]. intros i x Hx. apply Hreg. by eexists.
Qed.

Lemma registry_ok_add_menu label v :
  menu_registry_ok v →
  (label ≠ "-" → menu_id v < INT_MAX) →
  menu_registry_ok (add_menu E label v).2.
Proof.
  rewrite !registry_ok_lookup. intros [Hk Hreg] Hroom.
  destruct (decide (label = "-")) as [->|Hl].
  - by rewrite add_menu_sep.
  - specialize (Hroom Hl). rewrite add_menu_item by done. cbv zeta.
    destruct (viewer_add_menu_item E label); split; simpl; try lia.
    + intros i [x Hx]. apply lookup_insert_Some in Hx as [[<- _]|[_ Hx]];
        [lia|]. specialize (Hreg i (mk_is_Some _ _ Hx)). lia.
    + intros i [x Hx]. apply lookup_delete_Some in Hx as [_ Hx].
      specialize (Hreg i (mk_is_Some _ _ Hx)). lia.
Qed.

Lemma registry_ok_del_menu i v :
  menu_registry_ok v → menu_registry_ok (del_menu i v).
Proof.
  rewrite !registry_ok_lookup. intros [Hk Hreg].
  unfold del_menu. case_decide; [done|].
  destruct (menu_ids v !! i) as [label|] eqn:Hi; [|done].
  split; [done|]. simpl. intros j [x Hx].
  apply lookup_delete_Some in Hx as [_ Hx]. apply Hreg. by eexists.
Qed.

Lemma menu_id_del_menu i v : menu_id (del_menu i v) = menu_id v.
Proof.
  unfold del_menu. case_decide; [done|]. by destruct (menu_ids v !! i).
Qed.

Lemma registry_ok_set_sel_mode b v :
  menu_registry_ok v → menu_id v < INT_MAX →
  menu_registry_ok (set_sel_mode E b v).
Proof.
  intros Hok Hroom. unfold set_sel_mode.
  set (v1 := if decide _ then _ else _).
  assert (Hv1 : menu_registry_ok v1 ∧ menu_id v1 = menu_id v).
  { unfold v1. case_decide; [|done].
    split; [by apply registry_ok_del_menu|apply menu_id_del_menu]. }
  destruct Hv1 as [Hv1 Hid].
  pose proof (registry_ok_add_menu
                (if b then "End selection mode" else "Start selection mode")
                v1 Hv1) as H.
  destruct (add_menu E _ v1) as [i v2]. apply H. intros _. by rewrite Hid.
Qed.

Lemma registry_ok_init gv0 form0 v :
  menu_registry_ok v → menu_id v + 11 ≤ INT_MAX →
  menu_registry_ok (init E gv0 form0 v).
Proof.
  intros Hok Hroom. unfold init.
  set (v0 := emit _ _).
  assert (H0 : menu_registry_ok v0) by done.
  assert (Hid0 : menu_id v0 = menu_id v) by done.
  revert H0 Hid0. generalize v0. clear v0 Hok. intros w0 H0 Hid0.
  repeat match goal with
  | Hacc : menu_registry_ok ?w |- context [add_menu E ?l ?w] =>
      let H := fresh "H" in
      let Hid := fresh "Hid" in
      pose proof (add_menu_counter l w) as (_ & _ & Hid & _);
      first [ rewrite bool_decide_eq_true_2 in Hid by done
            | rewrite bool_decide_eq_false_2 in Hid by done ];
      assert (H : menu_registry_ok (add_menu E l w).2)
        by (apply registry_ok_add_menu; [exact Hacc|intros _; lia]);
      clear Hacc;
      destruct (add_menu E l w) as [? ?];
      cbn [fst snd menu_id set_idm] in *
  | Hacc : menu_registry_ok ?w
    |- context [add_menu E ?l (set_idm ?i ?w)] =>
      let H := fresh "H" in
      let Hid := fresh "Hid" in
      assert (H : menu_registry_ok (set_idm i w)) by exact Hacc;
      assert (Hid : menu_id (set_idm i w) = menu_id w) by reflexivity;
      clear Hacc
  end.
  apply registry_ok_set_sel_mode; [done|lia].
Qed.

(** X9: the registry of menu items only holds ids that the counter has
    handed out, and while the counter, an [int], has room for the
    increments, [add_menu], [del_menu], [set_sel_mode] and [init] keep it
    that way.  Hence the id that [add_menu] returns for an item is either
    -1 or an id that was not registered before, and the menu callback
    turns down the id -1 without running any command. *)
Theorem menu_registry_invariant v label i b gv0 form0 :
  menu_registry_ok v →
  menu_registry_ok (del_menu i v)
  ∧ (menu_id v < INT_MAX →
     menu_registry_ok (add_menu E label v).2
     ∧ menu_registry_ok (set_sel_mode E b v)
     ∧ ((add_menu E label v).1 = -1
        ∨ menu_ids v !! (add_menu E label v).1 = None))
  ∧ (menu_id v + 11 ≤ INT_MAX → menu_registry_ok (init E gv0 form0 v))
  ∧ s_menu_item_callback E (-1) v = Ret false v.
Proof.
  intros Hok.
  split; [by apply registry_ok_del_menu|].
  split; [|split; [by apply registry_ok_init|]].
  - intros Hroom.
    split; [by apply registry_ok_add_menu|].
    split; [by apply registry_ok_set_sel_mode|].
    apply registry_ok_lookup in Hok as [Hk Hreg].
    destruct (decide (label = "-")) as [->|Hl]; [by left|].
    rewrite add_menu_item by done. cbv zeta.
    destruct (viewer_add_menu_item E label); [right|by left]. simpl.
    destruct (menu_ids v !! (menu_id v + 1)) as [x|] eqn:Hx; [|done].
    specialize (Hreg _ (mk_is_Some _ _ Hx)). lia.
  - apply registry_ok_lookup in Hok as [Hk Hreg].
    unfold s_menu_item_callback.
    destruct (menu_ids v !! (-1)) as [x|] eqn:Hx; [|done].
    specialize (Hreg _ (mk_is_Some _ _ Hx)). lia.
Qed.

(** X10: adding a menu item and deleting the id that [add_menu]
    returned brings the registry back.  While the counter is below
    [INT_MAX] and the viewer accepts the item, the id is the incremented
    counter, it is registered under the label, and [del_menu] removes the
    item of that label from the viewer; the counter does not go back. *)
Theorem add_menu_del_menu label v :
  menu_registry_ok v →
  menu_id v < INT_MAX →
  label ≠ "-" →
  viewer_add_menu_item E label = true →
  let r := add_menu E label v in
  let v' := del_menu r.1 r.2 in
  r.1 = menu_id v + 1
  ∧ menu_ids r.2 !! r.1 = Some label
  ∧ menu_ids v' = menu_ids v
  ∧ menu_id v' = menu_id v + 1
  ∧ log v' = log v ++ [ViewerAddMenuItem label r.1; ViewerDelMenuItem label].
Proof.
  intros [Hk Hreg]%registry_ok_lookup Hroom Hl Hok r v'. unfold v', r.
  rewrite add_menu_item by done. cbv zeta. rewrite Hok. cbn [fst snd].
  assert (Hfresh : menu_ids v !! (menu_id v + 1) = None).
  { destruct (menu_ids v !! (menu_id v + 1)) as [x|] eqn:Hx; [|done].
    specialize (Hreg _ (mk_is_Some _ _ Hx)). lia. }
  unfold del_menu. rewrite decide_False by lia. simpl.
  rewrite lookup_insert_eq. simpl.
  rewrite delete_insert_eq, delete_id by done.
  by rewrite <- app_assoc.
Qed.

(** The menu ids of the view after [set_sel_mode]. *)
Lemma set_sel_mode_counter b v :
  (∀ label, viewer_add_menu_item E label = true) →
  idm (set_sel_mode E b v) = set_idm_set_sel_mode (menu_id v + 1) (idm v)
  ∧ menu_id (set_sel_mode E b v) = menu_id v + 1
  ∧ in_sel_mode (set_sel_mode E b v) = b.
Proof.
  intros Hok. unfold set_sel_mode.
  set (v1 := if decide _ then _ else _).
  assert (Hv1 : menu_id v1 = menu_id v ∧ idm v1 = idm v).
  { unfold v1, del_menu. repeat case_decide; try done.
    by destruct (menu_ids v !! _). }
  destruct Hv1 as [Hid Hidm].
  assert (Hl : (if b then "End selection mode" else "Start selection mode")
               ≠ "-") by by destruct b.
  rewrite add_menu_item by done. cbv zeta. rewrite Hok. simpl.
  by rewrite Hid, Hidm.
Qed.

(** The run of [init] on the counter and the menu ids. *)
Lemma init_counter gv0 form0 v :
  (∀ label, viewer_add_menu_item E label = true) →
  idm (init E gv0 form0 v) = init_menu_items (menu_id v)
  ∧ menu_id (init E gv0 form0 v) = menu_id v + 11
  ∧ in_sel_mode (init E gv0 form0 v) = in_sel_mode v.
Proof.
  intros Hok. unfold init.
  set (v0 := emit _ _).
  assert (H0 : menu_id v0 = menu_id v ∧ in_sel_mode v0 = in_sel_mode v
               ∧ idm v0 = idm v) by done.
  revert H0. generalize v0. clear v0. intros w0 H0.
  repeat match goal with
  | |- context [add_menu E ?l ?w] =>
      let H := fresh "H" in
      let Hidm := fresh "Hidm" in
      let Hsel := fresh "Hsel" in
      let Hid := fresh "Hid" in
      pose proof (add_menu_counter l w) as H;
      destruct H as (Hidm & Hsel & Hid & H);
      first [ rewrite bool_decide_eq_true_2 in Hid by done; clear H
            | rewrite bool_decide_eq_false_2 in Hid by done;
              specialize (H ltac:(done) (Hok l)) ];
      destruct (add_menu E l w) as [? ?];
      cbn [fst snd idm menu_id in_sel_mode set_idm] in *
  end.
  destruct H0 as (Hid' & Hsel' & Hidm').
  match goal with
  | Hlast : idm ?w = Build_menu_items_t _ _ _ _ _ _ _ _ _ _ _ |- _ =>
      destruct (set_sel_mode_counter (in_sel_mode w) w Hok) as (-> & -> & ->);
      split; [|split; [lia|congruence]];
      rewrite Hlast
  end.
  unfold init_menu_items, set_idm_set_sel_mode.
  cbn [idm_single_view_mode idm_combined_view_mode idm_clear_sel
       idm_clear_highlight idm_set_sel_mode idm_edit_sg_desc idm_test
       idm_highlight_similar idm_find_highlight idm_combine_ngs
       idm_show_options].
  f_equal; lia.
Qed.

(** X11: when the viewer accepts every item and the counter, an [int]
    that starts at 0, has room for eleven increments, [init] gives the
    eleven commands of the context menu eleven consecutive ids above the
    counter it found, in the order in which it adds them.  No two
    commands share an id and none has the id -1, so the chain of
    comparisons in [on_menu] reaches the branch of each id; in particular
    the id of "Combine nodes" is a combine request. *)
Theorem init_assigns_distinct_ids gv0 form0 v :
  (∀ label, viewer_add_menu_item E label = true) →
  0 ≤ menu_id v →
  menu_id v + 11 ≤ INT_MAX →
  let v' := init E gv0 form0 v in
  idm v' = init_menu_items (menu_id v)
  ∧ menu_id v' = menu_id v + 11
  ∧ menu_id v' ≤ INT_MAX
  ∧ in_sel_mode v' = in_sel_mode v
  ∧ is_combine_request (menu_id v + 9) v'.
Proof.
  intros Hok Hk Hroom v'.
  destruct (init_counter gv0 form0 v Hok) as (Hidm & Hid & Hsel).
  fold v' in Hidm, Hid, Hsel.
  split; [done|]. split; [done|]. split; [lia|]. split; [done|].
  unfold is_combine_request. rewrite Hidm. unfold init_menu_items.
  cbn [idm_single_view_mode idm_combined_view_mode idm_clear_sel
       idm_clear_highlight idm_set_sel_mode idm_edit_sg_desc idm_test
       idm_highlight_similar idm_find_highlight idm_combine_ngs
       idm_show_options].
  repeat split; lia.
Qed.

(** *** Opening the view *)

(** The view that [show_graph] returns. *)
Lemma show_graph_fields amb fc g o v :
  (show_graph E amb fc g o).2 = Some v →
  refresh_mode v = start_view_mode o
  ∧ selected_nodes v = ∅
  ∧ highlighted_nodes v = ∅
  ∧ cur_node v = -1
  ∧ parent_ref v = false
  ∧ gm v = g
  ∧ (is_Some (gv v) ↔ is_Some (create_graph_viewer E)).
Proof.
  set (w := gsgraphview_new fc o g (amb_view_mode amb) (amb_idm amb)
              (amb_menu_ids amb) (amb_menu_id amb) (amb_last_pattern amb)).
  assert (Hview : ∀ form0,
            v = match create_graph_viewer E with
                | Some gv0 => init E gv0 form0 w
                | None => w
                end →
            refresh_mode v = start_view_mode o
            ∧ selected_nodes v = ∅ ∧ highlighted_nodes v = ∅
            ∧ cur_node v = -1 ∧ parent_ref v = false ∧ gm v = g
            ∧ (is_Some (gv v) ↔ is_Some (create_graph_viewer E))).
  { intros form0 ->. destruct (create_graph_viewer E) as [gv0|].
    - destruct (menu_frame_fields _ _ (menu_frame_init gv0 form0 w))
        as (-> & -> & _ & _ & -> & _ & -> & -> & _ & -> & -> & _).
      repeat split; try done; by eexists.
    - repeat split; try done; by intros [? ?]. }
  unfold show_graph. cbn [show_graph_from]. fold w.
  destruct (create_tform E 0) as [f0|]; [|destruct (create_tform E 1) as [f1|]];
    cbn [fst snd app].
  - intros [= <-]. by apply (Hview f0).
  - intros [= <-]. by apply (Hview f1).
  - done.
Qed.

(** X12: [show_graph] tries [create_tform] twice.  It returns no view
    exactly when both attempts fail; a failed attempt closes the form it
    got before the next one.  The view it returns starts in the refresh
    mode of the options, with nothing selected or highlighted, without a
    current node and without a reference to its parent; it has a graph
    viewer exactly when [create_graph_viewer] gave one. *)
Theorem show_graph_attempts amb fc g o :
  let shown := show_graph E amb fc g o in
  let opened := [CreateTForm STR_GS_VIEW; CreateGraphViewer; OpenTForm] in
  let closed := [CreateTForm STR_GS_VIEW; CloseTForm] in
  (shown.2 = None ↔ create_tform E 0 = None ∧ create_tform E 1 = None)
  ∧ shown.1
    = match create_tform E 0, create_tform E 1 with
      | Some _, _ => opened
      | None, Some _ => closed ++ opened
      | None, None => closed ++ closed
      end
  ∧ ∀ v, shown.2 = Some v →
      refresh_mode v = start_view_mode o
      ∧ selected_nodes v = ∅
      ∧ highlighted_nodes v = ∅
      ∧ cur_node v = -1
      ∧ parent_ref v = false
      ∧ gm v = g
      ∧ (is_Some (gv v) ↔ is_Some (create_graph_viewer E)).
Proof.
  intros shown opened closed.
  split; [|split; [|apply show_graph_fields]]; unfold shown, show_graph;
    cbn [show_graph_from];
    destruct (create_tform E 0) as [f0|];
    [|destruct (create_tform E 1) as [f1|]| |destruct (create_tform E 1) as [f1|]];
    cbn [fst snd app]; try done.
  - split; [done|by intros [? _]].
  - split; [done|by intros [_ ?]].
Qed.

End menu_registry_properties.

Lemma menu_registry_invariant_witness :
  menu_registry_ok (View.add_menu Demo.demo_env "Test" Demo.menu_view).2
  ∧ menu_registry_ok (View.init Demo.demo_env 2 1 Demo.menu_view)
  ∧ View.s_menu_item_callback Demo.demo_env (-1) Demo.menu_view
    = Ret false Demo.menu_view.
Proof.
  destruct (menu_registry_invariant Demo.demo_env Demo.menu_view "Test"
              3%Z true 2%Z 1%Z) as (_ & Hadd & Hinit & Hcb).
  - apply (bool_decide_unpack _). vm_compute. exact I.
  - split; [apply Hadd; reflexivity|].
    split; [apply Hinit; vm_compute; discriminate|exact Hcb].
Defined.

Lemma add_menu_del_menu_witness :
  (View.add_menu Demo.demo_env "Test" Demo.menu_view).1 = 12%Z
  ∧ View.menu_ids
      (View.del_menu 12
         (View.add_menu Demo.demo_env "Test" Demo.menu_view).2)
    = View.menu_ids Demo.menu_view.
Proof.
  destruct (add_menu_del_menu Demo.demo_env "Test" Demo.menu_view)
    as (Hid & _ & Hids & _).
  - apply (bool_decide_unpack _). vm_compute. exact I.
  - reflexivity.
  - discriminate.
  - reflexivity.
  - split; [exact Hid|exact Hids].
Defined.

Lemma init_assigns_distinct_ids_witness :
  View.idm (View.init Demo.demo_env 2 1 Demo.menu_view)
  = init_menu_items 11
  ∧ is_combine_request 20 (View.init Demo.demo_env 2 1 Demo.menu_view).
Proof.
  destruct (init_assigns_distinct_ids Demo.demo_env 2%Z 1%Z
              Demo.menu_view) as (Hidm & _ & _ & _ & Hreq).
  - intros label. reflexivity.
  - vm_compute. discriminate.
  - vm_compute. discriminate.
  - split; [exact Hidm|exact Hreq].
Defined.

Lemma show_graph_attempts_witness :
  (View.show_graph Demo.demo_env Demo.demo_ambient Demo.chart
     Demo.parsed_gm (load_options (View.options Demo.combined_view))).2
  = Some Demo.opened_view
  ∧ View.refresh_mode Demo.opened_view = gvrfm_combined_mode
  ∧ View.parent_ref Demo.opened_view = false.
Proof.
  assert (Hshown :
    (View.show_graph Demo.demo_env Demo.demo_ambient Demo.chart
       Demo.parsed_gm (load_options (View.options Demo.combined_view))).2
    = Some Demo.opened_view).
  { unfold View.show_graph, Demo.opened_view. cbn [View.show_graph_from].
    change (create_tform Demo.demo_env 0) with (Some 1%Z). cbv iota beta.
    change (create_graph_viewer Demo.demo_env) with (Some 2%Z).
    cbv iota beta. cbn [snd]. exact eq_refl. }
  destruct (show_graph_attempts Demo.demo_env Demo.demo_ambient Demo.chart
              Demo.parsed_gm (load_options (View.options Demo.combined_view)))
    as (_ & _ & Hview).
  destruct (Hview Demo.opened_view Hshown) as (Hrm & _ & _ & _ & Hpr & _).
  split; [exact Hshown|]. split; [exact Hrm|exact Hpr].
Defined.

(** * Further properties of the chooser *)

Section load_properties.
Import Chooser.
Context (E : env_t).

#[local] Arguments View.init : simpl never.
#[local] Arguments View.gsgraphview_new : simpl never.

(** *** The outcome of a load *)

(** The run of [load_file] from a pointer that is null or live. *)
Lemma load_file_run filename c :
  gm_valid c →
  ∃ c', load_file E filename c = Ret (load_succeeds E filename (func_fc c)) c'
    ∧ gm c' = Some (new_addr c)
    ∧ (is_Some (heap c' !! new_addr c)
       ↔ (parse E filename false groupman_new).1 = true)
    ∧ (∀ a, a ≠ new_addr c → heap c' !! a = reclaimed c !! a)
    ∧ gsgv c' = gsgv c
    ∧ options c' = options c
    ∧ last_loaded_file c' = last_loaded_file c
    ∧ (load_succeeds E filename (func_fc c) = false →
       ch_nodes c' = ch_nodes c).
Proof.
  intros Hv.
  assert (Hrun := load_file_allocates c Hv).
  unfold load_file, load_succeeds, bind in *.
  destruct (delete_gm c) as [[] c1|]; [|done].
  destruct (new_gm c1) as [[] c2|]; [|done].
  rewrite Hrun. clear Hrun. unfold modify, store, modify, get_state. simpl.
  destruct (parse E filename false groupman_new) as [[] g1]; simpl.
  - destruct (get_first_nd g1) as [nd|]; simpl.
    + destruct (get_func E (start nd)) as [f|]; simpl.
      * destruct (get_func_flowchart E (startEA f) (func_fc c)) as [[] fc];
          simpl.
        -- destruct (sanitize_groupman E (BADADDR E) g1 fc) as [[] g2]; simpl;
             unfold populate_chooser_lines, bind, deref_gm, modify; simpl;
             rewrite ?lookup_insert_eq; simpl; rewrite ?lookup_insert_eq;
             eexists; (split; [reflexivity|]); simpl;
             rewrite ?lookup_insert_eq;
             (repeat split; try done; try by eexists);
             intros a Ha; by rewrite !lookup_insert_ne.
        -- eexists; (split; [reflexivity|]); simpl;
             rewrite ?lookup_insert_eq;
             (repeat split; try done; try by eexists);
             intros a Ha; by rewrite !lookup_insert_ne.
      * eexists; (split; [reflexivity|]); simpl;
          rewrite ?lookup_insert_eq;
          (repeat split; try done; try by eexists);
          intros a Ha; by rewrite !lookup_insert_ne.
    + eexists; (split; [reflexivity|]); simpl;
        rewrite ?lookup_insert_eq;
        (repeat split; try done; try by eexists);
        intros a Ha; by rewrite !lookup_insert_ne.
  - unfold delete_gm. simpl. rewrite lookup_insert_eq.
    eexists. split; [reflexivity|]. simpl.
    rewrite !delete_insert_eq, (delete_id _ _ (new_addr_fresh c)).
    repeat split; try done.
    + rewrite new_addr_fresh. by intros [? ?].
Qed.

(** X13: from a pointer [gm] that is null or live, [load_file] always
    returns, and it returns [true] exactly when the file parses, defines
    an address, the address lies in a function and the flowchart is built;
    the result of [sanitize_groupman] makes no difference.  Afterwards
    [gm] points to a live object unless the parse failed, in which case it
    dangles. *)
Theorem load_file_outcome filename c :
  gm_valid c →
  ∃ c', load_file E filename c = Ret (load_succeeds E filename (func_fc c)) c'
    ∧ gm c' = Some (new_addr c)
    ∧ (gm_valid c' ↔ (parse E filename false groupman_new).1 = true).
Proof.
  intros Hv.
  destruct (load_file_run filename c Hv) as (c' & Hrun & Hgm & Hlive & _).
  exists c'. split; [done|]. split; [done|].
  unfold gm_valid. by rewrite Hgm.
Qed.

(** X14: the path of a load that succeeds.  The group manager that the
    chooser keeps is the one that [sanitize_groupman] returned with its
    lookups built, the chooser lines are rebuilt from it, the flowchart
    member is the one of the function, and the three calls are made in
    this order: parse, sanitize, build lookups. *)
Theorem load_file_success filename c g1 nd f fc g2 :
  gm_valid c →
  parse E filename false groupman_new = (true, g1) →
  get_first_nd g1 = Some nd →
  get_func E (start nd) = Some f →
  get_func_flowchart E (startEA f) (func_fc c) = (true, fc) →
  sanitize_groupman E (BADADDR E) g1 fc = (true, g2) →
  ∃ c', load_file E filename c = Ret true c'
    ∧ gm c' = Some (new_addr c)
    ∧ heap c' !! new_addr c = Some (initialize_lookups E g2)
    ∧ ch_nodes c' = chooser_lines (new_addr c) (initialize_lookups E g2)
    ∧ func_fc c' = fc
    ∧ log c' = log c ++ [CallParse (new_addr c) filename;
                         CallSanitize (new_addr c) true;
                         CallInitializeLookups (new_addr c)].
Proof.
  intros Hv Hp Hnd Hf Hfc Hs.
  assert (Hrun := load_file_allocates c Hv).
  unfold load_file, bind in *.
  destruct (delete_gm c) as [[] c1|]; [|done].
  destruct (new_gm c1) as [[] c2|]; [|done].
  rewrite Hrun. clear Hrun. unfold modify, store, modify, get_state. simpl.
  rewrite Hp. simpl. rewrite Hnd, Hf. simpl. rewrite Hfc. simpl.
  rewrite Hs. simpl. unfold populate_chooser_lines, bind, deref_gm, modify.
  simpl. rewrite lookup_insert_eq.
  eexists. split; [reflexivity|]. simpl.
  repeat split; [apply lookup_insert_eq|by rewrite <- !app_assoc].
Qed.

(** *** The chooser lines *)

Lemma sg_lines_length a s : length (sg_lines a s) = S (length (groups s)).
Proof. unfold sg_lines. simpl. by rewrite length_map. Qed.

Lemma sg_lines_well_formed a s : Forall line_well_formed (sg_lines a s).
Proof.
  unfold sg_lines. constructor.
  - by exists s.
  - apply Forall_forall. intros chn (g & -> & Hg)%list_elem_of_fmap.
    by exists s, g.
Qed.

(** The shape of the lines built for a group manager. *)
Lemma chooser_lines_shape a g :
  length (chooser_lines a g)
  = S (sum_list (map (λ s, S (length (groups s))) (path_sgl g)))
  ∧ (ln_type <$> head (chooser_lines a g)) = Some chlt_gm
  ∧ Forall line_well_formed (chooser_lines a g).
Proof.
  unfold chooser_lines. split; [|split; [done|]].
  - cbn [length]. f_equal.
    induction (path_sgl g) as [|s sgs IH]; cbn [map concat sum_list]; [done|].
    rewrite length_app, sg_lines_length, IH. done.
  - constructor; [done|].
    induction (path_sgl g) as [|s sgs IH]; cbn [map concat]; [constructor|].
    apply Forall_app_2; [apply sg_lines_well_formed|apply IH].
Qed.

(** X15: with a live group manager, [populate_chooser_lines] replaces
    the lines, whatever they were, by one line for the file followed, for
    each super group, by one line for it and one line for each of its node
    groups; every line carries the pointers that [highlight_node]
    dereferences for its type.  Nothing else of the chooser changes. *)
Theorem populate_chooser_lines_shape c a g :
  gm c = Some a → heap c !! a = Some g →
  ∃ c', populate_chooser_lines c = Ret tt c'
    ∧ c' = set_ch_nodes (ch_nodes c') c
    ∧ on_get_size c'
      = S (sum_list (map (λ s, S (length (groups s))) (path_sgl g)))
    ∧ (ln_type <$> head (ch_nodes c')) = Some chlt_gm
    ∧ Forall line_well_formed (ch_nodes c').
Proof.
  intros Hgm Hheap.
  unfold populate_chooser_lines, bind, deref_gm, modify.
  rewrite Hgm, Hheap. eexists. split; [reflexivity|].
  split; [done|]. apply (chooser_lines_shape a g).
Qed.

(** A well-formed line has batches to draw. *)
Lemma line_batches_well_formed c v a g n chn :
  gsgv c = Some v → is_Some (View.gv v) →
  gm c = Some a → heap c !! a = Some g →
  ch_nodes c !! n = Some chn → line_well_formed chn →
  is_Some (line_batches c n).
Proof.
  intros Hv [gv0 Hgv] Hgm Hheap Hn Hwf.
  unfold line_batches. rewrite Hv. simpl. rewrite Hgv. simpl.
  rewrite Hn. simpl. unfold line_well_formed in Hwf.
  destruct (ln_type chn).
  - rewrite Hgm. simpl. rewrite Hheap. simpl. by eexists.
  - destruct Hwf as (s & _ & ->). by eexists.
  - destruct Hwf as (s & g' & _ & -> & _). by eexists.
Qed.

(** In range, [highlight_node] returns. *)
Lemma highlight_node_in_range c v a g n :
  gsgv c = Some v → is_Some (View.gv v) →
  gm c = Some a → heap c !! a = Some g →
  Forall line_well_formed (ch_nodes c) →
  (n < length (ch_nodes c))%nat →
  is_Some (returned (highlight_node n c)).
Proof.
  intros Hv Hgv Hgm Hheap Hwf Hn.
  destruct (lookup_lt_is_Some_2 _ _ Hn) as [chn Hchn].
  assert (Hline : line_well_formed chn).
  { eapply Forall_forall; [exact Hwf|]. eapply list_elem_of_lookup_2, Hchn. }
  destruct (line_batches_well_formed c v a g n chn Hv Hgv Hgm Hheap
              Hchn Hline) as [sizes Hsizes].
  destruct (highlight_node_returns c n sizes Hsizes) as (c' & ->).
  by eexists.
Qed.

(** X16: [highlight_node] checks the view but not the index.  Without
    a view, or with a view that has no graph viewer, it returns at once
    for every [n] and does nothing; with the view open, for any index from
    the number of lines on it reads [ch_nodes] out of range. *)
Theorem highlight_node_bounds c n :
  (gsgv c = None ∨ (∃ v, gsgv c = Some v ∧ View.gv v = None) →
   highlight_node n c = Ret [] c)
  ∧ ∀ v, gsgv c = Some v → is_Some (View.gv v) →
      (length (ch_nodes c) ≤ n)%nat →
      highlight_node n c = Undef "ch_nodes[n]: index out of range" c.
Proof.
  unfold highlight_node. split.
  - intros [->|(v & -> & ->)]; done.
  - intros v -> [gv0 ->] Hn. by rewrite (lookup_ge_None_2 _ _ Hn).
Qed.

(** X17: [on_select] passes [sel[0]-1] on as an unsigned index.  With the
    view open, a first selected line between 1 and the number of lines
    highlights that line; a first selected line 0 wraps around to
    [2^32-1] and reads [ch_nodes] out of range. *)
Theorem on_select_bounds c v s0 sel :
  gsgv c = Some v → is_Some (View.gv v) →
  (Z.of_nat (length (ch_nodes c)) < 2 ^ 32 - 1)%Z →
  ((1 ≤ s0 ≤ Z.of_nat (length (ch_nodes c)))%Z →
   on_select (s0 :: sel) c = highlight_node (Z.to_nat (s0 - 1)) c
   ∧ (Z.to_nat (s0 - 1) < length (ch_nodes c))%nat)
  ∧ (s0 = 0%Z →
     on_select (s0 :: sel) c = Undef "ch_nodes[n]: index out of range" c).
Proof.
  intros Hv [gv0 Hgv] Hlen. unfold on_select.
  change (2 ^ 32)%Z with 4294967296%Z in *. split.
  - intros Hs0. rewrite Z.mod_small by lia. split; [reflexivity|lia].
  - intros ->. unfold highlight_node. rewrite Hv, Hgv.
    change ((0 - 1) `mod` 4294967296)%Z with 4294967295%Z.
    rewrite lookup_ge_None_2; [reflexivity|lia].
Qed.

(** *** Load and show *)

(** The lines after a load that succeeds. *)
Lemma load_file_lines filename c c' :
  gm_valid c →
  load_file E filename c = Ret true c' →
  ∃ g, heap c' !! new_addr c = Some g
    ∧ ch_nodes c' = chooser_lines (new_addr c) g.
Proof.
  intros Hv.
  assert (Hrun := load_file_allocates c Hv).
  unfold load_file, bind in *.
  destruct (delete_gm c) as [[] c1|]; [|done].
  destruct (new_gm c1) as [[] c2|]; [|done].
  rewrite Hrun. clear Hrun. unfold modify, store, modify, get_state. simpl.
  destruct (parse E filename false groupman_new) as [[] g1]; simpl.
  - destruct (get_first_nd g1) as [nd|]; simpl; [|done].
    destruct (get_func E (start nd)) as [f|]; simpl; [|done].
    destruct (get_func_flowchart E (startEA f) (func_fc c)) as [[] fc];
      simpl; [|done].
    destruct (sanitize_groupman E (BADADDR E) g1 fc) as [[] g2]; simpl;
      unfold populate_chooser_lines, bind, deref_gm, modify; simpl;
      rewrite ?lookup_insert_eq; simpl; rewrite ?lookup_insert_eq;
      intros [= <-]; simpl; rewrite lookup_insert_eq; by eexists.
  - unfold delete_gm. simpl. by rewrite lookup_insert_eq.
Qed.

Lemma load_file_show_graph_unfold amb filename c :
  load_file_show_graph E amb filename c
  = match load_file E filename (set_options (load_options (options c)) c) with
    | Undef why c1 => Undef why c1
    | Ret false c1 => Ret false c1
    | Ret true c1 =>
        match deref_gm c1 with
        | Undef why c2 => Undef why c2
        | Ret r _ =>
            let shown := View.show_graph E amb (func_fc c1) r.2 (options c1) in
            let c2 := set_gsgv shown.2 (set_log (log c1 ++ shown.1) c1) in
            match shown.2 with
            | None => Ret false c2
            | Some v =>
                Ret true (set_last_loaded_file filename
                            (set_gsgv (Some (View.set_parent_ref true v)) c2))
            end
        end
    end.
Proof.
  unfold load_file_show_graph, bind, modify, get_state, ret. simpl.
  destruct (load_file E filename _) as [[] c1|]; simpl; [|done|done].
  destruct (deref_gm c1) as [r c2|] eqn:Hd; [|done].
  assert (c2 = c1) as ->.
  { unfold deref_gm in Hd. destruct (gm c1); [|done].
    destruct (heap c1 !! _); [|done]. by injection Hd. }
  by destruct (View.show_graph E amb (func_fc c1) r.2 (options c1)).2.
Qed.

(** X20: a load that fails in [load_file_show_graph] returns [false]
    and leaves the view pointer, the name of the last loaded file and the
    chooser lines as they were; the group manager that was loaded before
    is deleted all the same. *)
Theorem load_file_show_graph_failed_load amb filename c :
  gm_valid c →
  load_succeeds E filename (func_fc c) = false →
  ∃ c', load_file_show_graph E amb filename c = Ret false c'
    ∧ gsgv c' = gsgv c
    ∧ last_loaded_file c' = last_loaded_file c
    ∧ ch_nodes c' = ch_nodes c
    ∧ gm c' = Some (new_addr c)
    ∧ ∀ a, a ≠ new_addr c → heap c' !! a = reclaimed c !! a.
Proof.
  intros Hv Hfail. rewrite load_file_show_graph_unfold.
  destruct (load_file_run filename
              (set_options (load_options (options c)) c) Hv)
    as (c' & -> & Hgm & _ & Hheap & Hgsgv & _ & Hlast & Hlines).
  change (func_fc (set_options _ c)) with (func_fc c) in *.
  rewrite Hfail in *. exists c'. split; [done|].
  split; [done|]. split; [done|]. split; [by apply Hlines|]. done.
Qed.

(** The chooser after [load_file_show_graph] has returned [true]. *)
Lemma load_file_show_graph_run amb filename c c' :
  gm_valid c →
  load_file_show_graph E amb filename c = Ret true c' →
  ∃ v g, gsgv c' = Some v
    ∧ gm c' = Some (new_addr c)
    ∧ heap c' !! new_addr c = Some g
    ∧ ch_nodes c' = chooser_lines (new_addr c) g
    ∧ last_loaded_file c' = filename
    ∧ options c' = load_options (options c)
    ∧ ∃ v0, (View.show_graph E amb (func_fc c') g (options c')).2 = Some v0
            ∧ v = View.set_parent_ref true v0.
Proof.
  intros Hv. rewrite load_file_show_graph_unfold.
  destruct (load_file_run filename
              (set_options (load_options (options c)) c) Hv)
    as (c1 & Hrun & Hgm & _ & _ & _ & Hopt & _).
  pose proof (load_file_lines filename
                (set_options (load_options (options c)) c) c1 Hv) as Hlines.
  rewrite Hrun in *.
  destruct (load_succeeds E filename _); [|done].
  destruct (Hlines eq_refl) as (g & Hheap & Hch). clear Hlines.
  change (new_addr (set_options _ c)) with (new_addr c) in *.
  unfold deref_gm. rewrite Hgm, Hheap. cbn [snd].
  destruct (View.show_graph E amb (func_fc c1) g (options c1)) as [evs [v0|]]
    eqn:Hshown; cbn [fst snd]; [|done].
  intros [= <-]. exists (View.set_parent_ref true v0), g.
  cbn [gsgv gm heap ch_nodes last_loaded_file options func_fc
       set_last_loaded_file set_gsgv set_log].
  repeat split; try done.
  exists v0. by rewrite Hshown.
Qed.

(** X21: when [load_file_show_graph] returns [true], the chooser holds
    a view that starts in combined mode (the mode that [load_options]
    sets, whatever the options were), with nothing selected or
    highlighted, that shows the group manager just loaded and points back
    to the chooser; the file name is remembered as the last loaded file
    and the lines are those of that group manager. *)
Theorem load_file_show_graph_success amb filename c :
  gm_valid c →
  returned (load_file_show_graph E amb filename c) = Some true →
  let c' := final (load_file_show_graph E amb filename c) in
  ∃ v g, gsgv c' = Some v
    ∧ heap c' !! new_addr c = Some g
    ∧ gm c' = Some (new_addr c)
    ∧ View.gm v = g
    ∧ View.parent_ref v = true
    ∧ View.refresh_mode v = gvrfm_combined_mode
    ∧ View.selected_nodes v = ∅
    ∧ View.highlighted_nodes v = ∅
    ∧ last_loaded_file c' = filename
    ∧ ch_nodes c' = chooser_lines (new_addr c) g.
Proof.
  intros Hv Hret c'.
  assert (Hrun : load_file_show_graph E amb filename c = Ret true c').
  { unfold c'. by destruct (load_file_show_graph E amb filename c)
                    as [[] ?|]. }
  destruct (load_file_show_graph_run amb filename c c' Hv Hrun)
    as (v & g & Hgsgv & Hgm & Hheap & Hch & Hlast & Hopt & v0 & Hshown & ->).
  exists (View.set_parent_ref true v0), g.
  destruct (show_graph_fields E amb (func_fc c') g (options c') v0 Hshown)
    as (Hrm & Hsel & Hhl & _ & _ & Hg & _).
  rewrite Hopt in Hrm.
  repeat split; done.
Qed.

(** *** After the first refresh *)

(** The first refresh of a view that starts in combined mode. *)
Lemma first_refresh_view mg v :
  View.refresh_mode v = gvrfm_combined_mode →
  let v' := (View.gr_callback E (View.grcode_user_refresh mg) v).2 in
  View.cur_view_mode v' = gvrfm_combined_mode
  ∧ View.gv v' = View.gv v.
Proof.
  intros Hrm v'. unfold v'.
  change (View.gr_callback E (View.grcode_user_refresh mg) v)
    with (View.gr_user_refresh E mg v).
  rewrite gr_user_refresh_rebuild by by rewrite Hrm.
  cbv zeta. cbn [snd]. rewrite Hrm. rewrite decide_False by done.
  unfold View.switch_to_combined_view_mode.
  destruct (fc_to_combined_mg E _ _ _ _ _ _) as [[nm ids] mg'].
  cbn [snd]. split; [|done]. cbn. exact Hrm.
Qed.

(** The chooser after a load that succeeded and the first refresh. *)
Lemma after_load_and_refresh amb filename c mg :
  gm_valid c →
  returned (load_file_show_graph E amb filename c) = Some true →
  let c' := first_refresh E mg
              (final (load_file_show_graph E amb filename c)) in
  ∃ v g, gsgv c' = Some v
    ∧ View.cur_view_mode v = gvrfm_combined_mode
    ∧ gm c' = Some (new_addr c)
    ∧ heap c' !! new_addr c = Some g
    ∧ ch_nodes c' = chooser_lines (new_addr c) g.
Proof.
  intros Hv Hret c'.
  assert (Hrun : load_file_show_graph E amb filename c
                 = Ret true (final (load_file_show_graph E amb filename c))).
  { by destruct (load_file_show_graph E amb filename c) as [[] ?|]. }
  destruct (load_file_show_graph_run amb filename c _ Hv Hrun)
    as (v & g & Hgsgv & Hgm & Hheap & Hch & _ & Hopt & v0 & Hshown & ->).
  destruct (show_graph_fields E amb _ g _ v0 Hshown) as (Hrm & _).
  rewrite Hopt in Hrm.
  destruct (first_refresh_view mg (View.set_parent_ref true v0) Hrm)
    as [Hmode _].
  eexists _, g. unfold c', first_refresh. rewrite Hgsgv.
  cbn [fmap option_fmap option_map gsgv gm heap ch_nodes set_gsgv].
  split; [reflexivity|]. by repeat split.
Qed.

(** X22: after [load_file_show_graph] has returned [true] and the
    viewer has asked the new view for its first refresh, the view is in
    combined mode, whatever the constructor left in [cur_view_mode], and
    selecting any line that the chooser reports is safe: [highlight_node]
    returns for every index below [on_get_size]. *)
Theorem highlight_node_safe_after_load amb filename c mg n :
  gm_valid c →
  returned (load_file_show_graph E amb filename c) = Some true →
  let c' := first_refresh E mg
              (final (load_file_show_graph E amb filename c)) in
  (∃ v, gsgv c' = Some v ∧ View.cur_view_mode v = gvrfm_combined_mode)
  ∧ ((n < on_get_size c')%nat → is_Some (returned (highlight_node n c'))).
Proof.
  intros Hv Hret c'.
  destruct (after_load_and_refresh amb filename c mg Hv Hret)
    as (v & g & Hgsgv & Hmode & Hgm & Hheap & Hch).
  fold c' in Hgsgv, Hgm, Hheap, Hch.
  split; [by exists v|]. intros Hn.
  destruct (View.gv v) as [gv0|] eqn:Hgv.
  - assert (Hwf : Forall line_well_formed (ch_nodes c')).
    { rewrite Hch. apply chooser_lines_shape. }
    by apply (highlight_node_in_range c' v (new_addr c) g n Hgsgv
                ltac:(by eexists) Hgm Hheap Hwf).
  - unfold highlight_node. rewrite Hgsgv, Hgv. by eexists.
Qed.

(** *** The line callbacks *)

(** With well-formed lines, both callbacks return for every line number
    from 1 on. *)
Lemma line_callbacks_return is_sel n c :
  Forall line_well_formed (ch_nodes c) →
  (1 ≤ n)%nat →
  (Z.of_nat (length (ch_nodes c)) < 2 ^ 32)%Z →
  (∃ c', on_enter is_sel n c = Ret tt c'
     ∧ c' = set_gsgv (gsgv c') c
     ∧ ∀ v, gsgv c = Some v → ∃ v', gsgv c' = Some v' ∧ only_logs v v')
  ∧ is_Some (returned (on_edit_line E is_sel n c)).
Proof.
  intros Hwf Hn Hlen.
  assert (Hline : ¬ (length (ch_nodes c) < n)%nat →
            ∃ chn, ch_nodes c !! line_before n = Some chn
                   ∧ line_well_formed chn).
  { intros Hle. unfold line_before.
    change (2 ^ 32)%Z with 4294967296%Z in *.
    rewrite Z.mod_small by lia.
    destruct (lookup_lt_is_Some_2 (ch_nodes c) (Z.to_nat (Z.of_nat n - 1)))
      as [chn Hchn]; [lia|].
    exists chn. split; [done|].
    eapply Forall_forall; [exact Hwf|]. eapply list_elem_of_lookup_2, Hchn. }
  split.
  - unfold on_enter.
    destruct (gsgv c) as [v|] eqn:Hgsgv;
      [|exists c; split; [done|]; split; [by destruct c|done]].
    assert (Hsame : ∃ c', Ret tt c = Ret tt c'
              ∧ c' = set_gsgv (gsgv c') c
              ∧ ∀ v0, Some v = Some v0 →
                  ∃ v', gsgv c' = Some v' ∧ only_logs v0 v').
    { exists c. split; [done|]. split; [by destruct c|].
      intros v0 [= <-]. exists v. split; [done|by destruct v]. }
    destruct (View.gv v); [|exact Hsame].
    destruct (negb (is_sel n)); cbn [orb]; [exact Hsame|].
    case_bool_decide as Hle; [exact Hsame|].
    destruct (Hline Hle) as (chn & -> & Hchn).
    unfold line_well_formed in Hchn.
    assert (Hjump : ∀ g,
      ∃ c', (let '(i, v1) := View.get_ng_id (Some g) v in
             Ret tt (set_gsgv
                       (Some (if decide (i ≠ (-1)%Z)
                              then View.emit (JumpToNode i) v1 else v1)) c))
            = Ret tt c'
        ∧ c' = set_gsgv (gsgv c') c
        ∧ ∀ v0, Some v = Some v0 →
            ∃ v', gsgv c' = Some v' ∧ only_logs v0 v').
    { intros g. pose proof (get_ng_id_only_logs (Some g) v) as Hid.
      destruct (View.get_ng_id (Some g) v) as [i v1]. cbn [snd] in Hid.
      eexists. split; [reflexivity|]. split; [by destruct c|].
      intros v0 [= <-]. eexists. split; [reflexivity|].
      case_decide; [|done].
      eapply only_logs_trans; [exact Hid|apply only_logs_emit]. }
    destruct (ln_type chn).
    + exact Hsame.
    + destruct Hchn as (s & -> & _).
      destruct (get_first_ng (groups s)) as [g|]; [apply Hjump|exact Hsame].
    + destruct Hchn as (s & g & _ & -> & _). apply Hjump.
  - unfold on_edit_line.
    destruct (gsgv c) as [v|] eqn:Hgsgv; [|by eexists].
    case_bool_decide as Hle; cbn [orb]; [by eexists|].
    destruct (negb (is_sel n)); [by eexists|].
    destruct (Hline Hle) as (chn & -> & Hchn).
    unfold line_well_formed in Hchn.
    destruct (ln_type chn); [by eexists| |by eexists].
    destruct Hchn as (s & -> & _).
    unfold bind, in_view. rewrite Hgsgv.
    pose proof (edit_sg_description_returns E s v) as [b Hb].
    destruct (View.edit_sg_description E (Some s) v) as [b' v'|]; [|done].
    by eexists.
Qed.

(** X19: after [load_file_show_graph] has returned [true] and the
    viewer has asked the new view for its first refresh, [on_enter] and
    [on_edit_line] return for every line number from 1 on.  [on_enter]
    changes nothing of the chooser but its view, and of the view nothing
    but the log of its calls: the only thing it may do is ask the viewer
    to jump to a node. *)
Theorem line_callbacks_safe amb filename c mg is_sel n :
  gm_valid c →
  returned (load_file_show_graph E amb filename c) = Some true →
  let c' := first_refresh E mg
              (final (load_file_show_graph E amb filename c)) in
  (1 ≤ n)%nat →
  (Z.of_nat (on_get_size c') < 2 ^ 32)%Z →
  (∃ c'', on_enter is_sel n c' = Ret tt c''
     ∧ c'' = set_gsgv (gsgv c'') c'
     ∧ ∀ v, gsgv c' = Some v → ∃ v', gsgv c'' = Some v' ∧ only_logs v v')
  ∧ is_Some (returned (on_edit_line E is_sel n c')).
Proof.
  intros Hv Hret c' Hn Hlen.
  destruct (after_load_and_refresh amb filename c mg Hv Hret)
    as (v & g & _ & _ & _ & _ & Hch).
  fold c' in Hch.
  apply line_callbacks_return; [|done|done].
  rewrite Hch. apply chooser_lines_shape.
Qed.

(** *** Closing the chooser *)

Lemma delete_gm_valid c :
  gm_valid c → delete_gm c = Ret tt (set_heap (reclaimed c) c).
Proof.
  unfold gm_valid, delete_gm, reclaimed. destruct (gm c) as [a|].
  - by intros [g ->].
  - intros _. by destruct c.
Qed.

(** X23: with a pointer [gm] that is null or live, [on_destroy]
    returns.  It frees the popup names, deletes the group manager, asks
    to close the form of the view if the view has one, and last deletes
    the chooser itself: these calls are made in this order, and the group
    manager is gone from the heap. *)
Theorem on_destroy_frees c :
  gm_valid c →
  ∃ c', on_destroy c = Ret tt c'
    ∧ heap c' = reclaimed c
    ∧ log c' = log c ++ [QFreePopupNames]
               ++ match gsgv c ≫= View.form with
                  | Some _ => [CloseTForm]
                  | None => []
                  end
               ++ [DeleteSingleton].
Proof.
  intros Hv. unfold on_destroy, delete_singleton, bind, modify.
  rewrite (delete_gm_valid (emit QFreePopupNames c) Hv).
  eexists. split; [reflexivity|].
  unfold close_graph. cbn [gsgv set_gm set_heap emit set_log].
  destruct (gsgv c) as [v|] eqn:Hgsgv; cbn [mbind option_bind];
    [destruct (View.form v)|];
    cbn [gm heap gsgv ch_nodes log emit set_log set_gm set_heap];
    (split; [done|]); by rewrite <- ?app_assoc.
Qed.

(** X24: after a load whose parse failed the pointer [gm] dangles, and
    closing the chooser, once the popup names are freed, deletes the
    freed group manager a second time. *)
Theorem on_destroy_after_parse_failure filename c :
  gm_valid c →
  (parse E filename false groupman_new).1 = false →
  on_destroy (final (load_file E filename c))
  = Undef "delete gm: the object was freed before"
      (emit QFreePopupNames (final (load_file E filename c))).
Proof.
  intros Hv Hp.
  destruct (parse E filename false groupman_new) as [ok g1] eqn:Hparse.
  simpl in Hp. subst ok.
  destruct (load_file_parse_failure E filename c g1 Hv Hparse)
    as (c' & -> & _ & _ & Hgm & Hheap).
  unfold on_destroy, bind, delete_gm, modify. simpl. by rewrite Hgm, Hheap.
Qed.

End load_properties.

Lemma load_file_outcome_witness :
  ∃ c', Chooser.load_file Demo.demo_env "f1.bbgroup" Demo.fresh_chooser
        = Ret true c'
    ∧ Chooser.gm c' = Some (new_addr Demo.fresh_chooser).
Proof.
  destruct (load_file_outcome Demo.demo_env "f1.bbgroup" Demo.fresh_chooser)
    as (c' & Hrun & Hgm & _); [exact I|].
  exists c'. split; [exact Hrun|exact Hgm].
Defined.

Lemma load_file_success_witness :
  ∃ c', Chooser.load_file Demo.demo_env "f1.bbgroup" Demo.fresh_chooser
        = Ret true c'
    ∧ Chooser.heap c' !! new_addr Demo.fresh_chooser
      = Some (Demo.with_lookups Demo.parsed_gm).
Proof.
  destruct (load_file_success Demo.demo_env "f1.bbgroup" Demo.fresh_chooser
              Demo.parsed_gm Demo.ndA {| startEA := 0x1000%Z |} Demo.chart
              Demo.parsed_gm)
    as (c' & Hrun & _ & Hheap & _); [exact I|reflexivity..|].
  exists c'. split; [exact Hrun|exact Hheap].
Defined.

Lemma populate_chooser_lines_shape_witness :
  ∃ c', Chooser.populate_chooser_lines Demo.picking_chooser = Ret tt c'
    ∧ Chooser.on_get_size c' = 4%nat.
Proof.
  destruct (populate_chooser_lines_shape Demo.picking_chooser 1%positive
              (Demo.with_lookups Demo.parsed_gm))
    as (c' & Hrun & _ & Hsize & _); [reflexivity..|].
  exists c'. split; [exact Hrun|exact Hsize].
Defined.

Lemma highlight_node_bounds_witness :
  Chooser.highlight_node 7 Demo.fresh_chooser = Ret [] Demo.fresh_chooser
  ∧ Chooser.highlight_node 4 Demo.picking_chooser
    = Undef "ch_nodes[n]: index out of range" Demo.picking_chooser.
Proof.
  split.
  - apply (proj1 (highlight_node_bounds Demo.fresh_chooser 7)).
    left. reflexivity.
  - apply (proj2 (highlight_node_bounds Demo.picking_chooser 4)
             Demo.combined_view).
    + reflexivity.
    + eexists. reflexivity.
    + apply le_n.
Defined.

Lemma on_select_bounds_witness :
  Chooser.on_select [0%Z] Demo.picking_chooser
  = Undef "ch_nodes[n]: index out of range" Demo.picking_chooser.
Proof.
  destruct (on_select_bounds Demo.picking_chooser Demo.combined_view 0%Z [])
    as [_ Hzero]; [reflexivity|eexists; reflexivity|reflexivity|].
  apply Hzero. reflexivity.
Defined.

Lemma line_callbacks_safe_witness :
  is_Some (returned
             (Chooser.on_edit_line Demo.demo_env (λ _, true) 2
                (first_refresh Demo.demo_env
                   {| mg_nodes := []; mg_edges := [] |}
                   Demo.loaded_chooser))).
Proof.
  destruct (line_callbacks_safe Demo.demo_env Demo.demo_ambient "f1.bbgroup"
              Demo.fresh_chooser {| mg_nodes := []; mg_edges := [] |}
              (λ _, true) 2%nat) as [_ Hedit].
  - exact I.
  - reflexivity.
  - apply le_S, le_n.
  - vm_compute. reflexivity.
  - exact Hedit.
Defined.

Lemma load_file_show_graph_failed_load_witness :
  ∃ c', Chooser.load_file_show_graph Demo.demo_env Demo.demo_ambient
          "hollow.bbgroup" Demo.shown_chooser = Ret false c'
    ∧ Chooser.last_loaded_file c' = "f1.bbgroup"
    ∧ length (Chooser.ch_nodes c') = 4%nat
    ∧ Chooser.gsgv c' = Chooser.gsgv Demo.shown_chooser.
Proof.
  destruct (load_file_show_graph_failed_load Demo.demo_env Demo.demo_ambient
              "hollow.bbgroup" Demo.shown_chooser)
    as (c' & Hrun & Hgsgv & Hlast & Hlines & _).
  - vm_compute. eexists. reflexivity.
  - vm_compute. reflexivity.
  - exists c'. split; [exact Hrun|].
    split; [rewrite Hlast; vm_compute; reflexivity|].
    split; [rewrite Hlines; vm_compute; reflexivity|].
    exact Hgsgv.
Defined.

Lemma load_file_show_graph_success_witness :
  ∃ v, Chooser.gsgv Demo.loaded_chooser = Some v
    ∧ View.parent_ref v = true
    ∧ View.refresh_mode v = gvrfm_combined_mode
    ∧ Chooser.last_loaded_file Demo.loaded_chooser = "f1.bbgroup".
Proof.
  destruct (load_file_show_graph_success Demo.demo_env Demo.demo_ambient
              "f1.bbgroup" Demo.fresh_chooser)
    as (v & g & Hgsgv & _ & _ & _ & Hpr & Hrm & _ & _ & Hlast & _);
    [exact I|reflexivity|].
  exists v. split; [exact Hgsgv|]. split; [exact Hpr|].
  split; [exact Hrm|exact Hlast].
Defined.

Lemma highlight_node_safe_after_load_witness :
  is_Some (returned
             (Chooser.highlight_node 1
                (first_refresh Demo.demo_env
                   {| mg_nodes := []; mg_edges := [] |}
                   Demo.loaded_chooser))).
Proof.
  destruct (highlight_node_safe_after_load Demo.demo_env Demo.demo_ambient
              "f1.bbgroup" Demo.fresh_chooser
              {| mg_nodes := []; mg_edges := [] |} 1%nat) as [_ Hsafe].
  - exact I.
  - reflexivity.
  - apply Hsafe. vm_compute. repeat constructor.
Defined.

Lemma on_destroy_frees_witness :
  ∃ c', Chooser.on_destroy Demo.picking_chooser = Ret tt c'
    ∧ Chooser.heap c' = reclaimed Demo.picking_chooser
    ∧ Chooser.log c' = [QFreePopupNames; CloseTForm; DeleteSingleton].
Proof.
  destruct (on_destroy_frees Demo.picking_chooser)
    as (c' & Hrun & Hheap & Hlog); [eexists; reflexivity|].
  exists c'. split; [exact Hrun|]. split; [exact Hheap|exact Hlog].
Defined.

Lemma on_destroy_after_parse_failure_witness :
  Chooser.on_destroy
    (final (Chooser.load_file Demo.demo_env "nonesuch" Demo.fresh_chooser))
  = Undef "delete gm: the object was freed before"
      (Chooser.emit QFreePopupNames
         (final (Chooser.load_file Demo.demo_env "nonesuch"
                   Demo.fresh_chooser))).
Proof.
  apply (on_destroy_after_parse_failure Demo.demo_env "nonesuch"
           Demo.fresh_chooser).
  - exact I.
  - reflexivity.
Defined.

(** * Worked runs

    The model evaluated on the instance of [Demo]. *)

(** Loading "f1.bbgroup" sanitizes, builds the lookups and opens the
    graph. *)
Example load_f1_log :
  Chooser.log Demo.loaded_chooser
  = [CallParse 1 "f1.bbgroup"; CallSanitize 1 true; CallInitializeLookups 1;
     CreateTForm STR_GS_VIEW; CreateGraphViewer; OpenTForm].
Proof. reflexivity. Qed.

(** The first refresh builds the combined view: two nodes, one for each
    node group. *)
Example first_refresh_builds_combined_view :
  (View.cur_view_mode <$> Chooser.gsgv Demo.shown_chooser)
    = Some gvrfm_combined_mode
  ∧ (View.ng2id <$> Chooser.gsgv Demo.shown_chooser)
    = Some [(Demo.ng1, 0%Z); (Demo.ng2, 1%Z)].
Proof. by vm_compute. Qed.

(** Highlighting the super group line colours the two nodes with the
    first two variants of the first base colour. *)
Example highlight_path1 :
  returned (Chooser.highlight_node 1 Demo.shown_chooser)
  = Some [[0xC0C0FF%Z; 0xB1B1F0%Z]].
Proof. reflexivity. Qed.

(** A file that does not parse leaves [gm] dangling, and the next load
    is undefined. *)
Example load_after_parse_failure :
  returned (Chooser.load_file Demo.demo_env "f1.bbgroup"
              (final (Chooser.load_file Demo.demo_env "nonesuch"
                        Demo.fresh_chooser)))
  = None.
Proof. reflexivity. Qed.

(** Two selected nodes in the combined view: the request goes through. *)
Example combine_two_selected :
  View.log
    (final (View.on_menu Demo.demo_env 9
              (View.toggle_select_node 1 true Demo.combined_view)))
  = [Msg (STR_GS_MSG +:+ "Selected %d\n") [AInt 1];
     CallCombineNgl [Some Demo.ng1; Some Demo.ng2];
     RefreshChooser STR_GS_PANEL; RefreshViewer].
Proof. reflexivity. Qed.

(** [ngid_to_sg] with the current node 0 answers "path1" for any
    argument. *)
Example ngid_to_sg_demo :
  View.ngid_to_sg 1 Demo.combined_view = Some Demo.path1
  ∧ View.ngid_to_sg 42 Demo.combined_view = Some Demo.path1.
Proof. by vm_compute. Qed.
